(** * VendorHive storage layer: a shallow embedding

    This development models the storage layer of the VendorHive backend
    (the [IStorage] interface with its two implementations [MemStorage] and
    [MongoDBStorage], the middleware and route handlers in front of it) and
    states the properties of the written specification against it.

    Conventions of the model.
    - JavaScript numbers are modelled by integers ([Z]) plus [NaN]; [v + 1]
      rounds to the nearest double, so that it is exact up to [2^53] and
      stops incrementing there.  Ratings are integers.
    - A string is a string of code units below 256.
    - A [Map<number, V>] is an association list in insertion order, since
      [Map.values()] iterates in insertion order.
    - A collection of the document store is the list of its documents in
      natural (insertion) order, each with the fields it holds in the
      database.  A [save()] runs the checks of the schema of [db.ts]: the
      casts of the [ObjectId] and [Number] paths, the [required], [enum] and
      custom validators, and then the unique indexes; it writes only when
      all pass.  The [User] schema declares no [id] path: the constructor
      drops that key, and reading [id] from a user document gives the
      [_id] as a string.  The casts of the untyped payloads ([timeSlots],
      [availableDates], [businessHours]) are not modelled.
    - What the driver decides (how a query value is compared with a stored
      field, how a string converts to a number, what a regular expression
      matches, which values cast to an [ObjectId]) is a parameter of the
      model, the class [Driver]; a reference instance is given so that
      every definition can be run. *)

From Stdlib Require Import ZArith List String Ascii Bool Lia.
From Stdlib Require Import DecimalString.
Import ListNotations.
Local Open Scope string_scope.
Local Open Scope Z_scope.

(** ** JavaScript values *)

Module JS.

(** The values that reach an id or user-reference position:
    [undefined], a number, a string, or a native ObjectId (an object that
    prints as its 24 hexadecimal digits). *)
Inductive value : Type :=
| Undefined
| Num (n : Z)
| NaN
| Str (s : string)
| Oid (hex : string).

Inductive type : Type := TUndefined | TNumber | TString | TObject.

Definition typeof (v : value) : type :=
  match v with
  | Undefined => TUndefined
  | Num _ | NaN => TNumber
  | Str _ => TString
  | Oid _ => TObject
  end.

Definition is_number (v : value) : bool :=
  match typeof v with TNumber => true | _ => false end.
Definition is_string (v : value) : bool :=
  match typeof v with TString => true | _ => false end.
Definition is_object (v : value) : bool :=
  match typeof v with TObject => true | _ => false end.

(** Truthiness, as tested by [if (v)], [!v], [a && b] and [a || b]. *)
Definition truthy (v : value) : bool :=
  match v with
  | Undefined | NaN => false
  | Num n => negb (n =? 0)
  | Str s => negb (String.eqb s EmptyString)
  | Oid _ => true
  end.

Definition string_of_Z (n : Z) : string :=
  NilZero.string_of_int (Z.to_int n).

(** [String(v)]. *)
Definition to_string (v : value) : string :=
  match v with
  | Undefined => "undefined"
  | Num n => string_of_Z n
  | NaN => "NaN"
  | Str s => s
  | Oid h => h
  end.

(** [Number(v)], with [None] for [NaN]; [parse] is the conversion of a
    string.  An ObjectId converts through its string. *)
Definition to_number (parse : string -> option Z) (v : value) : option Z :=
  match v with
  | Undefined | NaN => None
  | Num n => Some n
  | Str s => parse s
  | Oid h => parse h
  end.

(** [a === b]. *)
Definition strict_eq (a b : value) : bool :=
  match a, b with
  | Undefined, Undefined => true
  | Num x, Num y => x =? y
  | Str x, Str y => String.eqb x y
  | Oid x, Oid y => String.eqb x y
  | _, _ => false
  end.

(** The double nearest to the integer [z], ties to even: [z] itself up to
    [2^53] in absolute value, and beyond it the nearest integer of 53
    significant bits.  (The overflow to [Infinity] is not modelled.) *)
Definition to_double (z : Z) : Z :=
  let a := Z.abs z in
  if a <=? 9007199254740992 then z
  else
    let e := Z.log2 a - 52 in
    let q := Z.shiftr a e in
    let r := a - Z.shiftl q e in
    let half := Z.shiftl 1 (e - 1) in
    let q' :=
      if r <? half then q
      else if half <? r then q + 1
      else if Z.even q then q else q + 1 in
    Z.sgn z * Z.shiftl q' e.

(** [v + 1]: numeric addition on numbers, concatenation on strings and
    on objects (through their string). *)
Definition plus_one (v : value) : value :=
  match v with
  | Undefined | NaN => NaN
  | Num n => Num (to_double (n + 1))
  | Str s => Str (String.append s "1")
  | Oid h => Str (String.append h "1")
  end.

(** [Math.round(total / count)] for integers [total] and [count > 0]:
    the nearest integer, halves rounded up. *)
Definition round_div (total count : Z) : Z :=
  (2 * total + count) / (2 * count).

Definition length (s : string) : Z := Z.of_nat (String.length s).

(** Lower-casing and substring test, for [a.toLowerCase().includes(b)].
    Among the code units below 256 the letters [A-Z] (65 to 90), and the
    accented capitals 192 to 222 without the multiplication sign 215, have
    a lower-case form, 32 further on. *)
Definition lower_char (c : ascii) : ascii :=
  let n := nat_of_ascii c in
  if ((Nat.leb 65 n && Nat.leb n 90)
      || (Nat.leb 192 n && Nat.leb n 222 && negb (Nat.eqb n 215)))%bool
  then ascii_of_nat (n + 32) else c.

Fixpoint toLowerCase (s : string) : string :=
  match s with
  | EmptyString => EmptyString
  | String c r => String (lower_char c) (toLowerCase r)
  end.

Fixpoint includes (s sub : string) : bool :=
  if String.prefix sub s then true
  else match s with
       | EmptyString => false
       | String _ r => includes r sub
       end.

(** [/^[0-9a-fA-F]{24}$/] *)
Definition is_hex_digit (c : ascii) : bool :=
  let n := nat_of_ascii c in
  ((Nat.leb 48 n && Nat.leb n 57) || (Nat.leb 65 n && Nat.leb n 70)
   || (Nat.leb 97 n && Nat.leb n 102))%bool.

Fixpoint all_hex (s : string) : bool :=
  match s with
  | EmptyString => true
  | String c r => is_hex_digit c && all_hex r
  end.

Definition is_hex24 (s : string) : bool :=
  (length s =? 24) && all_hex s.

End JS.

(** ** [Map<number, V>] in insertion order *)

Module JsMap.

Definition t (V : Type) : Type := list (Z * V).

Definition empty {V : Type} : t V := [].

Fixpoint get {V : Type} (m : t V) (k : Z) : option V :=
  match m with
  | [] => None
  | (k', v) :: r => if k' =? k then Some v else get r k
  end.

(** [m.get(key)] for a key that is any value: the keys are numbers, so
    only a number can hit. *)
Definition get_value {V : Type} (m : t V) (key : JS.value) : option V :=
  match key with
  | JS.Num k => get m k
  | _ => None
  end.

(** [m.set(k, v)]: an existing key keeps its position. *)
Fixpoint set {V : Type} (m : t V) (k : Z) (v : V) : t V :=
  match m with
  | [] => [(k, v)]
  | (k', v') :: r => if k' =? k then (k, v) :: r else (k', v') :: set r k v
  end.

Definition has {V : Type} (m : t V) (k : Z) : bool :=
  match get m k with Some _ => true | None => false end.

Fixpoint remove {V : Type} (m : t V) (k : Z) : t V :=
  match m with
  | [] => []
  | (k', v) :: r => if k' =? k then r else (k', v) :: remove r k
  end.

(** [m.delete(k)]: whether the key was there, and the map without it. *)
Definition delete {V : Type} (m : t V) (k : Z) : bool * t V :=
  (has m k, remove m k).

Definition values {V : Type} (m : t V) : list V := map snd m.
Definition keys {V : Type} (m : t V) : list Z := map fst m.

End JsMap.

(** ** The entity types of [shared/schema.ts] *)

Module Schema.

(** An untyped JSON payload ([Record<string, any>]), kept as its text. *)
Definition json : Type := string.

Record User : Type := mkUser {
  user_id : JS.value;
  user_name : string;
  user_username : string;
  user_email : string;
  user_password : string;
  user_role : string;
  user_profileImage : option string;
  user_phone : option string;
  user_bio : option string;
  user_location : option string;
  user_joinedAt : Z
}.

Record InsertUser : Type := mkInsertUser {
  iu_name : string;
  iu_username : string;
  iu_email : string;
  iu_password : string;
  iu_role : string;
  iu_profileImage : option string;
  iu_phone : option string;
  iu_bio : option string;
  iu_location : option string
}.

(** [Partial<InsertUser>]: [Some] where the key is present. *)
Record PartialUser : Type := mkPartialUser {
  pu_name : option string;
  pu_username : option string;
  pu_email : option string;
  pu_password : option string;
  pu_role : option string;
  pu_profileImage : option (option string);
  pu_phone : option (option string);
  pu_bio : option (option string);
  pu_location : option (option string)
}.

Record Vendor : Type := mkVendor {
  vendor_id : JS.value;
  vendor_userId : JS.value;
  vendor_businessName : string;
  vendor_category : string;
  vendor_description : string;
  vendor_services : option (list string);
  vendor_businessHours : option json;
  vendor_coverImage : option string;
  vendor_rating : Z;
  vendor_reviewCount : Z
}.

Record InsertVendor : Type := mkInsertVendor {
  iv_userId : JS.value;
  iv_businessName : string;
  iv_category : string;
  iv_description : string;
  iv_services : option (list string);
  iv_businessHours : option json;
  iv_coverImage : option string
}.

Record PartialVendor : Type := mkPartialVendor {
  pv_userId : option JS.value;
  pv_businessName : option string;
  pv_category : option string;
  pv_description : option string;
  pv_services : option (option (list string));
  pv_businessHours : option (option json);
  pv_coverImage : option (option string)
}.

Record Service : Type := mkService {
  service_id : JS.value;
  service_vendorId : JS.value;
  service_name : string;
  service_category : string;
  service_description : string;
  service_price : string;
  service_duration : option string;
  service_location : option string;
  service_imageUrl : option string;
  service_timeSlots : option json;
  service_availableDates : option json;
  service_availability : bool;
  service_createdAt : option Z
}.

Record InsertService : Type := mkInsertService {
  is_vendorId : JS.value;
  is_name : string;
  is_category : string;
  is_description : string;
  is_price : string;
  is_duration : option string;
  is_location : option string;
  is_imageUrl : option string;
  is_timeSlots : option json;
  is_availableDates : option json;
  is_availability : bool
}.

Record PartialService : Type := mkPartialService {
  ps_vendorId : option JS.value;
  ps_name : option string;
  ps_category : option string;
  ps_description : option string;
  ps_price : option string;
  ps_duration : option (option string);
  ps_location : option (option string);
  ps_imageUrl : option (option string);
  ps_timeSlots : option (option json);
  ps_availableDates : option (option json);
  ps_availability : option bool
}.

Record Booking : Type := mkBooking {
  booking_id : JS.value;
  booking_userId : JS.value;
  booking_vendorId : JS.value;
  booking_serviceId : option JS.value;
  booking_date : Z;
  booking_status : string;
  booking_notes : option string
}.

Record InsertBooking : Type := mkInsertBooking {
  ib_userId : JS.value;
  ib_vendorId : JS.value;
  ib_serviceId : option JS.value;
  ib_date : Z;
  ib_status : string;
  ib_notes : option string
}.

Record Review : Type := mkReview {
  review_id : JS.value;
  review_userId : JS.value;
  review_vendorId : JS.value;
  review_rating : Z;
  review_comment : option string;
  review_createdAt : Z
}.

Record InsertReview : Type := mkInsertReview {
  ir_userId : JS.value;
  ir_vendorId : JS.value;
  ir_rating : Z;
  ir_comment : option string
}.

(** [x ?? y] on a present/absent key of a spread. *)
Definition over {A : Type} (patch : option A) (old : A) : A :=
  match patch with Some a => a | None => old end.

(** [{ ...user, ...userData }] *)
Definition spread_user (u : User) (p : PartialUser) : User :=
  mkUser (user_id u)
    (over (pu_name p) (user_name u))
    (over (pu_username p) (user_username u))
    (over (pu_email p) (user_email u))
    (over (pu_password p) (user_password u))
    (over (pu_role p) (user_role u))
    (over (pu_profileImage p) (user_profileImage u))
    (over (pu_phone p) (user_phone u))
    (over (pu_bio p) (user_bio u))
    (over (pu_location p) (user_location u))
    (user_joinedAt u).

(** [{ ...vendor, ...vendorData }] *)
Definition spread_vendor (v : Vendor) (p : PartialVendor) : Vendor :=
  mkVendor (vendor_id v)
    (over (pv_userId p) (vendor_userId v))
    (over (pv_businessName p) (vendor_businessName v))
    (over (pv_category p) (vendor_category v))
    (over (pv_description p) (vendor_description v))
    (over (pv_services p) (vendor_services v))
    (over (pv_businessHours p) (vendor_businessHours v))
    (over (pv_coverImage p) (vendor_coverImage v))
    (vendor_rating v)
    (vendor_reviewCount v).

(** [{ ...service, ...serviceData }] *)
Definition spread_service (s : Service) (p : PartialService) : Service :=
  mkService (service_id s)
    (over (ps_vendorId p) (service_vendorId s))
    (over (ps_name p) (service_name s))
    (over (ps_category p) (service_category s))
    (over (ps_description p) (service_description s))
    (over (ps_price p) (service_price s))
    (over (ps_duration p) (service_duration s))
    (over (ps_location p) (service_location s))
    (over (ps_imageUrl p) (service_imageUrl s))
    (over (ps_timeSlots p) (service_timeSlots s))
    (over (ps_availableDates p) (service_availableDates s))
    (over (ps_availability p) (service_availability s))
    (service_createdAt s).

(** [{ ...vendor, rating, reviewCount }] *)
Definition with_aggregates (v : Vendor) (rating reviewCount : Z) : Vendor :=
  mkVendor (vendor_id v) (vendor_userId v) (vendor_businessName v)
    (vendor_category v) (vendor_description v) (vendor_services v)
    (vendor_businessHours v) (vendor_coverImage v) rating reviewCount.

(** [{ ...booking, status }] *)
Definition with_status (b : Booking) (status : string) : Booking :=
  mkBooking (booking_id b) (booking_userId b) (booking_vendorId b)
    (booking_serviceId b) (booking_date b) status (booking_notes b).

(** [reviews.reduce((sum, review) => sum + review.rating, 0)] *)
Definition sum_ratings {A : Type} (rating : A -> Z) (l : list A) : Z :=
  fold_left (fun sum r => sum + rating r) l 0.

End Schema.

(** ** [MemStorage]: the in-memory implementation *)

Module MemStorage.
Import Schema.

Record t : Type := mk {
  users : JsMap.t User;
  vendors : JsMap.t Vendor;
  services : JsMap.t Service;
  bookings : JsMap.t Booking;
  reviews : JsMap.t Review;
  userIdCounter : Z;
  vendorIdCounter : Z;
  serviceIdCounter : Z;
  bookingIdCounter : Z;
  reviewIdCounter : Z
}.

(** [constructor()] *)
Definition init : t :=
  mk JsMap.empty JsMap.empty JsMap.empty JsMap.empty JsMap.empty 1 1 1 1 1.

Definition set_users (st : t) (m : JsMap.t User) (c : Z) : t :=
  mk m (vendors st) (services st) (bookings st) (reviews st)
     c (vendorIdCounter st) (serviceIdCounter st) (bookingIdCounter st)
     (reviewIdCounter st).
Definition set_vendors (st : t) (m : JsMap.t Vendor) (c : Z) : t :=
  mk (users st) m (services st) (bookings st) (reviews st)
     (userIdCounter st) c (serviceIdCounter st) (bookingIdCounter st)
     (reviewIdCounter st).
Definition set_services (st : t) (m : JsMap.t Service) (c : Z) : t :=
  mk (users st) (vendors st) m (bookings st) (reviews st)
     (userIdCounter st) (vendorIdCounter st) c (bookingIdCounter st)
     (reviewIdCounter st).
Definition set_bookings (st : t) (m : JsMap.t Booking) (c : Z) : t :=
  mk (users st) (vendors st) (services st) m (reviews st)
     (userIdCounter st) (vendorIdCounter st) (serviceIdCounter st) c
     (reviewIdCounter st).
Definition set_reviews (st : t) (m : JsMap.t Review) (c : Z) : t :=
  mk (users st) (vendors st) (services st) (bookings st) m
     (userIdCounter st) (vendorIdCounter st) (serviceIdCounter st)
     (bookingIdCounter st) c.

Definition getUser (st : t) (id : Z) : option User :=
  JsMap.get (users st) id.

Definition getUserByEmail (st : t) (email : string) : option User :=
  find (fun user => String.eqb (user_email user) email)
       (JsMap.values (users st)).

Definition getUserByUsername (st : t) (username : string) : option User :=
  find (fun user => String.eqb (user_username user) username)
       (JsMap.values (users st)).

Definition createUser (st : t) (now : Z) (insertUser : InsertUser)
  : User * t :=
  let id := userIdCounter st in
  let joinedAt := now in
  let user :=
    mkUser (JS.Num id) (iu_name insertUser) (iu_username insertUser)
      (iu_email insertUser) (iu_password insertUser) (iu_role insertUser)
      (iu_profileImage insertUser) (iu_phone insertUser)
      (iu_bio insertUser) (iu_location insertUser) joinedAt in
  (user, set_users st (JsMap.set (users st) id user) (id + 1)).

Definition updateUser (st : t) (id : Z) (userData : PartialUser)
  : option User * t :=
  match JsMap.get (users st) id with
  | None => (None, st)
  | Some existingUser =>
      let updatedUser := spread_user existingUser userData in
      (Some updatedUser,
       set_users st (JsMap.set (users st) id updatedUser)
                 (userIdCounter st))
  end.

Definition getVendor (st : t) (id : Z) : option (Vendor * User) :=
  match JsMap.get (vendors st) id with
  | None => None
  | Some vendor =>
      match JsMap.get_value (users st) (vendor_userId vendor) with
      | None => None
      | Some user => Some (vendor, user)
      end
  end.

Definition getVendorByUserId (st : t) (userId : JS.value)
  : option Vendor :=
  find (fun vendor => JS.strict_eq (vendor_userId vendor) userId)
       (JsMap.values (vendors st)).

Definition createVendor (st : t) (insertVendor : InsertVendor)
  : Vendor * t :=
  let id := vendorIdCounter st in
  let vendor :=
    mkVendor (JS.Num id) (iv_userId insertVendor)
      (iv_businessName insertVendor) (iv_category insertVendor)
      (iv_description insertVendor) (iv_services insertVendor)
      (iv_businessHours insertVendor) (iv_coverImage insertVendor) 0 0 in
  (vendor, set_vendors st (JsMap.set (vendors st) id vendor) (id + 1)).

Definition updateVendor (st : t) (id : Z) (vendorData : PartialVendor)
  : option Vendor * t :=
  match JsMap.get (vendors st) id with
  | None => (None, st)
  | Some existingVendor =>
      let updatedVendor := spread_vendor existingVendor vendorData in
      (Some updatedVendor,
       set_vendors st (JsMap.set (vendors st) id updatedVendor)
                   (vendorIdCounter st))
  end.

Fixpoint join_users (us : JsMap.t User) (vs : list Vendor)
  : list (Vendor * User) :=
  match vs with
  | [] => []
  | vendor :: rest =>
      match JsMap.get_value us (vendor_userId vendor) with
      | Some user => (vendor, user) :: join_users us rest
      | None => join_users us rest
      end
  end.

Definition getAllVendors (st : t) : list (Vendor * User) :=
  join_users (users st) (JsMap.values (vendors st)).

Definition own_fields_match (lowercaseQuery : string) (vendor : Vendor)
  : bool :=
  JS.includes (JS.toLowerCase (vendor_businessName vendor)) lowercaseQuery
  || JS.includes (JS.toLowerCase (vendor_category vendor)) lowercaseQuery
  || JS.includes (JS.toLowerCase (vendor_description vendor))
       lowercaseQuery.

Definition user_name_matches (lowercaseQuery : string) (user : User)
  : bool :=
  JS.includes (JS.toLowerCase (user_name user)) lowercaseQuery.

Fixpoint search_loop (us : JsMap.t User) (lowercaseQuery : string)
    (vs : list Vendor) : list (Vendor * User) :=
  match vs with
  | [] => []
  | vendor :: rest =>
      match JsMap.get_value us (vendor_userId vendor) with
      | None => search_loop us lowercaseQuery rest
      | Some user =>
          if own_fields_match lowercaseQuery vendor
             || user_name_matches lowercaseQuery user
          then (vendor, user) :: search_loop us lowercaseQuery rest
          else search_loop us lowercaseQuery rest
      end
  end.

Definition searchVendors (st : t) (query : string)
  : list (Vendor * User) :=
  let lowercaseQuery := JS.toLowerCase query in
  search_loop (users st) lowercaseQuery (JsMap.values (vendors st)).

Definition createService (st : t) (insertService : InsertService)
  : Service * t :=
  let id := serviceIdCounter st in
  let service :=
    mkService (JS.Num id) (is_vendorId insertService)
      (is_name insertService) (is_category insertService)
      (is_description insertService) (is_price insertService)
      (is_duration insertService) (is_location insertService)
      (is_imageUrl insertService) (is_timeSlots insertService)
      (is_availableDates insertService) (is_availability insertService)
      None in
  (service, set_services st (JsMap.set (services st) id service) (id + 1)).

Definition getServiceById (st : t) (id : Z) : option Service :=
  JsMap.get (services st) id.

Definition getServicesByVendorId (st : t) (vendorId : JS.value)
  : list Service :=
  filter (fun service => JS.strict_eq (service_vendorId service) vendorId)
         (JsMap.values (services st)).

Definition updateService (st : t) (id : Z) (serviceData : PartialService)
  : option Service * t :=
  match JsMap.get (services st) id with
  | None => (None, st)
  | Some existingService =>
      let updatedService := spread_service existingService serviceData in
      (Some updatedService,
       set_services st (JsMap.set (services st) id updatedService)
                    (serviceIdCounter st))
  end.

Definition deleteService (st : t) (id : Z) : bool * t :=
  let (deleted, m) := JsMap.delete (services st) id in
  (deleted, set_services st m (serviceIdCounter st)).

Definition createBooking (st : t) (insertBooking : InsertBooking)
  : Booking * t :=
  let id := bookingIdCounter st in
  let booking :=
    mkBooking (JS.Num id) (ib_userId insertBooking)
      (ib_vendorId insertBooking) (ib_serviceId insertBooking)
      (ib_date insertBooking) (ib_status insertBooking)
      (ib_notes insertBooking) in
  (booking, set_bookings st (JsMap.set (bookings st) id booking) (id + 1)).

Definition getBookingsByUserId (st : t) (userId : JS.value)
  : list Booking :=
  filter (fun booking => JS.strict_eq (booking_userId booking) userId)
         (JsMap.values (bookings st)).

Definition getBookingsByVendorId (st : t) (vendorId : JS.value)
  : list Booking :=
  filter (fun booking => JS.strict_eq (booking_vendorId booking) vendorId)
         (JsMap.values (bookings st)).

Definition updateBookingStatus (st : t) (id : Z) (status : string)
  : option Booking * t :=
  match JsMap.get (bookings st) id with
  | None => (None, st)
  | Some booking =>
      let updatedBooking := with_status booking status in
      (Some updatedBooking,
       set_bookings st (JsMap.set (bookings st) id updatedBooking)
                    (bookingIdCounter st))
  end.

(** The reviews of a vendor joined with their authors; a review whose
    author is unknown is dropped. *)
Fixpoint join_authors (us : JsMap.t User) (rs : list Review)
  : list (Review * User) :=
  match rs with
  | [] => []
  | review :: rest =>
      match JsMap.get_value us (review_userId review) with
      | Some user => (review, user) :: join_authors us rest
      | None => join_authors us rest
      end
  end.

Definition getReviewsByVendorId (st : t) (vendorId : JS.value)
  : list (Review * User) :=
  let vendorReviews :=
    filter (fun review => JS.strict_eq (review_vendorId review) vendorId)
           (JsMap.values (reviews st)) in
  join_authors (users st) vendorReviews.

Definition createReview (st : t) (now : Z) (insertReview : InsertReview)
  : Review * t :=
  let id := reviewIdCounter st in
  let createdAt := now in
  let review :=
    mkReview (JS.Num id) (ir_userId insertReview)
      (ir_vendorId insertReview) (ir_rating insertReview)
      (ir_comment insertReview) createdAt in
  let st1 := set_reviews st (JsMap.set (reviews st) id review) (id + 1) in
  (* Update vendor rating *)
  let vendorReviews := getReviewsByVendorId st1 (ir_vendorId insertReview) in
  match JsMap.get_value (vendors st1) (ir_vendorId insertReview) with
  | Some vendor =>
      let reviewCount := Z.of_nat (List.length vendorReviews) + 1 in
      let totalRating :=
        sum_ratings (fun r => review_rating (fst r)) vendorReviews
        + ir_rating insertReview in
      let averageRating := JS.round_div totalRating reviewCount in
      match ir_vendorId insertReview with
      | JS.Num key =>
          (review,
           set_vendors st1
             (JsMap.set (vendors st1) key
                (with_aggregates vendor averageRating reviewCount))
             (vendorIdCounter st1))
      | _ => (review, st1)
      end
  | None => (review, st1)
  end.

Definition getAverageRatingByVendorId (st : t) (vendorId : JS.value) : Z :=
  let vendorReviews := getReviewsByVendorId st vendorId in
  if Z.of_nat (List.length vendorReviews) =? 0 then 0
  else
    let totalRating :=
      sum_ratings (fun r => review_rating (fst r)) vendorReviews in
    JS.round_div totalRating (Z.of_nat (List.length vendorReviews)).

End MemStorage.

(** ** The document store *)

(** What the database driver decides. *)
Class Driver : Type := {
  (** [query_eq stored q]: a document whose field holds [stored] satisfies
      the equality condition [{ field: q }]. *)
  query_eq : JS.value -> JS.value -> bool;
  (** [Number(s)] on a string, [None] for [NaN]. *)
  string_to_number : string -> option Z;
  (** [new RegExp(query, 'i')]: [None] when the constructor throws,
      otherwise the test of a text against the expression. *)
  regexp_i : string -> option (string -> bool);
  (** The cast of a value written to an [ObjectId] path: the 24
      hexadecimal digits of the ObjectId, [None] for a [CastError]. *)
  castObjectId : JS.value -> option string
}.

Module Db.
Import Schema.

(** A document of the [User] collection, as the database holds it.  The
    schema has no [id] and no [createdAt] path: [ud_id] and [ud_createdAt]
    are the fields of those names a document may hold all the same (they
    are what a condition [{ id: q }] and a sort on [createdAt] see), and no
    document written through the model gets them. *)
Record UserDoc : Type := mkUserDoc {
  ud__id : string;
  ud_id : JS.value;
  ud_name : string;
  ud_username : string;
  ud_email : string;
  ud_password : string;
  ud_role : string;
  ud_profileImage : option string;
  ud_phone : option string;
  ud_bio : option string;
  ud_location : option string;
  ud_joinedAt : option Z;
  ud_createdAt : option Z
}.

(** A document of the [Vendor] collection. *)
Record VendorDoc : Type := mkVendorDoc {
  vd__id : string;
  vd_id : JS.value;
  vd_userId : JS.value;
  vd_businessName : string;
  vd_category : string;
  vd_description : string;
  vd_services : option (list string);
  vd_businessHours : option json;
  vd_coverImage : option string;
  vd_rating : Z;
  vd_reviewCount : Z
}.

(** [user.id] read from a user document: the schema declaring no [id]
    path, it is the virtual of that name, the [_id] as a string. *)
Definition doc_id (u : UserDoc) : JS.value := JS.Str (ud__id u).

Record Store : Type := mkStore {
  Users : list UserDoc;
  Vendors : list VendorDoc;
  Services : list Service;
  Bookings : list Booking;
  Reviews : list Review
}.

Definition empty : Store := mkStore [] [] [] [] [].

Definition with_Users (st : Store) (l : list UserDoc) : Store :=
  mkStore l (Vendors st) (Services st) (Bookings st) (Reviews st).
Definition with_Vendors (st : Store) (l : list VendorDoc) : Store :=
  mkStore (Users st) l (Services st) (Bookings st) (Reviews st).
Definition with_Services (st : Store) (l : list Service) : Store :=
  mkStore (Users st) (Vendors st) l (Bookings st) (Reviews st).
Definition with_Bookings (st : Store) (l : list Booking) : Store :=
  mkStore (Users st) (Vendors st) (Services st) l (Reviews st).
Definition with_Reviews (st : Store) (l : list Review) : Store :=
  mkStore (Users st) (Vendors st) (Services st) (Bookings st) l.

(** The order of values under a sort: missing below numbers below
    strings below ObjectIds. *)
Definition sort_rank (v : JS.value) : Z :=
  match v with
  | JS.Undefined => 0
  | JS.NaN | JS.Num _ => 1
  | JS.Str _ => 2
  | JS.Oid _ => 3
  end.

Definition sort_lt (a b : JS.value) : bool :=
  match a, b with
  | JS.NaN, JS.Num _ => true
  | JS.Num x, JS.Num y => x <? y
  | JS.Str x, JS.Str y => String.ltb x y
  | JS.Oid x, JS.Oid y => String.ltb x y
  | _, _ => sort_rank a <? sort_rank b
  end.

Definition date_lt (a b : option Z) : bool :=
  match a, b with
  | None, Some _ => true
  | Some x, Some y => x <? y
  | _, _ => false
  end.

Fixpoint top_from {A : Type} (lt : A -> A -> bool) (best : A)
    (l : list A) : A :=
  match l with
  | [] => best
  | x :: r => top_from lt (if lt best x then x else best) r
  end.

(** [Model.findOne().sort({ key: -1 })]: the first document in natural
    order among those of greatest key. *)
Definition findOne_sort_desc {A K : Type} (lt : K -> K -> bool)
    (key : A -> K) (l : list A) : option A :=
  match l with
  | [] => None
  | x :: r => Some (top_from (fun a b => lt (key a) (key b)) x r)
  end.

(** [Model.findOneAndUpdate(cond, { $set: ... }, { new: true })]: the
    first matching document is replaced by its update, which is
    returned; nothing matches, nothing changes. *)
Fixpoint findOneAndUpdate {A : Type} (cond : A -> bool) (upd : A -> A)
    (l : list A) : option A * list A :=
  match l with
  | [] => (None, [])
  | x :: r =>
      if cond x then (Some (upd x), upd x :: r)
      else let (res, r') := findOneAndUpdate cond upd r in (res, x :: r')
  end.

(** [Model.deleteOne(cond)]: [deletedCount] and the remaining
    documents. *)
Fixpoint deleteOne {A : Type} (cond : A -> bool) (l : list A)
  : Z * list A :=
  match l with
  | [] => (0, [])
  | x :: r =>
      if cond x then (1, r)
      else let (n, r') := deleteOne cond r in (n, x :: r')
  end.

End Db.

(** ** [MongoDBStorage]: the document-store implementation *)

Module MongoDBStorage.
Import Schema Db.

(** What the storage layer throws: its own errors, and those of a
    [save()], the paths that failed their cast or a validator, or the
    path of a unique index that holds the value already. *)
Inductive Error : Type :=
| UserNotFoundNoFallback (userId : JS.value)
| InvalidVendorId (vendorId : JS.value)
| InvalidServiceId (serviceId : JS.value)
| ValidationError (paths : list string)
| DuplicateKey (path : string).

Inductive result (A : Type) : Type :=
| Ok (a : A)
| Throw (e : Error).
Arguments Ok {A} a.
Arguments Throw {A} e.

(** [doc.save()]: it raises for the paths found invalid, then for a
    unique index that holds the value already, and writes otherwise. *)
Definition save {A : Type} (invalid : list string)
    (duplicate : option string) (written : A) : result A :=
  match invalid, duplicate with
  | _ :: _, _ => Throw (ValidationError invalid)
  | [], Some path => Throw (DuplicateKey path)
  | [], None => Ok written
  end.

(** The paths whose check failed, in the order of the schema. *)
Definition invalid_paths (checks : list (string * bool)) : list string :=
  map fst (filter (fun c => negb (snd c)) checks).

(** [required: true] on a [String] path: the empty string does not do. *)
Definition required_string (s : string) : bool :=
  negb (String.eqb s EmptyString).

(** [enum: values] *)
Definition one_of (values : list string) (s : string) : bool :=
  existsb (String.eqb s) values.

(** The validator of the [id], [vendorId] and [serviceId] paths,
    [!isNaN(v) && v > 0]; on [id] and [vendorId], which are required, and
    on a [serviceId] set to [null], a missing value fails as well. *)
Definition positive_number (v : JS.value) : bool :=
  match v with
  | JS.Num n => 0 <? n
  | _ => false
  end.

(** A unique index on the path read by [key]: the path, when a stored
    document holds the value. *)
Definition duplicate {A : Type} (path : string) (key : A -> JS.value)
    (docs : list A) (v : JS.value) : option string :=
  if existsb (fun d => JS.strict_eq (key d) v) docs then Some path else None.

Definition duplicate_string {A : Type} (path : string) (key : A -> string)
    (docs : list A) (s : string) : option string :=
  if existsb (fun d => String.eqb (key d) s) docs then Some path else None.

Definition first_duplicate (l : list (option string)) : option string :=
  match filter (fun o => match o with Some _ => true | None => false end) l
  with
  | d :: _ => d
  | [] => None
  end.

(** The queries a resolution issues against the [User] collection:
    [findById(x)], [findOne({ id: q })] and
    [findOne().sort({ createdAt: -1 })]. *)
Inductive UserQuery : Type :=
| ById (x : JS.value)
| ByIdField (q : JS.value)
| MostRecent.

(** A resolution in progress: the user found so far and the queries
    issued so far, oldest first. *)
Definition Cascade : Type := (option UserDoc * list UserQuery)%type.

Section WithDriver.
Context {D : Driver}.

(** [Number(v)] as a value, and [isNaN(Number(v))]. *)
Definition Number (v : JS.value) : JS.value :=
  match JS.to_number string_to_number v with
  | Some n => JS.Num n
  | None => JS.NaN
  end.

Definition isNaN (v : JS.value) : bool :=
  match JS.to_number string_to_number v with
  | Some _ => false
  | None => true
  end.

Definition run (us : list UserDoc) (q : UserQuery) : option UserDoc :=
  match q with
  | ById x => find (fun u => query_eq (JS.Oid (ud__id u)) x) us
  | ByIdField v => find (fun u => query_eq (ud_id u) v) us
  | MostRecent => findOne_sort_desc date_lt ud_createdAt us
  end.

Definition start : Cascade := (None, []).

(** [if (guard) { user = await q }] *)
Definition attempt (us : list UserDoc) (guard : bool) (q : UserQuery)
    (c : Cascade) : Cascade :=
  if guard then (run us q, (snd c ++ [q])%list) else c.

(** [if (!user && guard) { user = await q }] *)
Definition attempt_if_missing (us : list UserDoc) (guard : bool)
    (q : UserQuery) (c : Cascade) : Cascade :=
  match fst c with
  | Some _ => c
  | None => attempt us guard q c
  end.

(** The cast of a value written to a [Number] path: a number stays, the
    empty string is read as [null], any other string is read by
    [Number]; [NaN] stands for a [CastError]. *)
Definition castNumber (v : JS.value) : JS.value :=
  match v with
  | JS.Undefined => JS.Undefined
  | JS.Num n => JS.Num n
  | JS.NaN => JS.NaN
  | JS.Str s => if String.eqb s EmptyString then JS.Undefined
                else Number (JS.Str s)
  | JS.Oid _ => JS.NaN
  end.

Definition mongoUserToUser (now : Z) (mongoUser : UserDoc) : User :=
  mkUser
    (if JS.truthy (doc_id mongoUser) then doc_id mongoUser
     else JS.Str (ud__id mongoUser))
    (ud_name mongoUser) (ud_username mongoUser) (ud_email mongoUser)
    (ud_password mongoUser)
    (if String.eqb (ud_role mongoUser) EmptyString then "user"
     else ud_role mongoUser)
    (ud_profileImage mongoUser) (ud_phone mongoUser) (ud_bio mongoUser)
    (ud_location mongoUser)
    (match ud_joinedAt mongoUser with Some d => d | None => now end).

(** [userIdNumber] is the transient field [getVendorByUserId] adds to the
    plain object it converts. *)
Definition mongoVendorToVendor (userIdNumber : option Z)
    (mongoVendor : VendorDoc) : Vendor :=
  let userId :=
    if JS.is_object (vd_userId mongoVendor) then
      match userIdNumber with
      | Some n =>
          if n =? 0 then JS.Str (JS.to_string (vd_userId mongoVendor))
          else JS.Num n
      | None => JS.Str (JS.to_string (vd_userId mongoVendor))
      end
    else vd_userId mongoVendor in
  mkVendor (vd_id mongoVendor) userId (vd_businessName mongoVendor)
    (vd_category mongoVendor) (vd_description mongoVendor)
    (vd_services mongoVendor) (vd_businessHours mongoVendor)
    (vd_coverImage mongoVendor) (vd_rating mongoVendor)
    (vd_reviewCount mongoVendor).

Definition mongoServiceToService (now : Z) (mongoService : Service)
  : Service :=
  mkService (service_id mongoService) (service_vendorId mongoService)
    (service_name mongoService) (service_category mongoService)
    (service_description mongoService) (service_price mongoService)
    (service_duration mongoService) (service_location mongoService)
    (service_imageUrl mongoService) (service_timeSlots mongoService)
    (service_availableDates mongoService)
    (service_availability mongoService)
    (Some (match service_createdAt mongoService with
           | Some d => d
           | None => now
           end)).

(** [x || null] on an optional string: an empty string is dropped. *)
Definition or_null (x : option string) : option string :=
  match x with
  | Some s => if String.eqb s EmptyString then None else Some s
  | None => None
  end.

Definition mongoBookingToBooking (mongoBooking : Booking) : Booking :=
  mkBooking (booking_id mongoBooking) (booking_userId mongoBooking)
    (booking_vendorId mongoBooking)
    (match booking_serviceId mongoBooking with
     | Some s => if JS.truthy s then Some s else None
     | None => None
     end)
    (booking_date mongoBooking) (booking_status mongoBooking)
    (or_null (booking_notes mongoBooking)).

Definition mongoReviewToReview (mongoReview : Review) : Review :=
  mkReview (review_id mongoReview) (review_userId mongoReview)
    (review_vendorId mongoReview) (review_rating mongoReview)
    (or_null (review_comment mongoReview)) (review_createdAt mongoReview).

(** *** Users *)

Definition getUser_resolve (us : list UserDoc) (id : JS.value) : Cascade :=
  (* Try to find by numeric id first *)
  let c := attempt us true (ByIdField id) start in
  (* If not found and the id is a string that looks like an ObjectId *)
  attempt_if_missing us
    (match id with JS.Str s => JS.is_hex24 s | _ => false end)
    (ById id) c.

Definition getUser (st : Store) (now : Z) (id : JS.value) : option User :=
  option_map (mongoUserToUser now) (fst (getUser_resolve (Users st) id)).

Definition getUserByEmail (st : Store) (now : Z) (email : string)
  : option User :=
  option_map (mongoUserToUser now)
    (find (fun u => String.eqb (ud_email u) email) (Users st)).

Definition getUserByUsername (st : Store) (now : Z) (username : string)
  : option User :=
  option_map (mongoUserToUser now)
    (find (fun u => String.eqb (ud_username u) username) (Users st)).

(** [last ? last.id + 1 : 1] *)
Definition next_id_unguarded (last : option JS.value) : JS.value :=
  match last with
  | Some lastId => JS.plus_one lastId
  | None => JS.Num 1
  end.

Definition user_roles : list string := ["vendor"; "user"].
Definition booking_status_enum : list string :=
  ["pending"; "confirmed"; "completed"; "cancelled"].

(** [oid] is the [_id] the constructor gives the new document.  The [id]
    the code computes (from [lastUser.id], the [_id] string of the last
    user) is handed to the constructor, which drops it: the schema has no
    such path. *)
Definition createUser (st : Store) (oid : string) (now : Z)
    (insertUser : InsertUser) : result (User * Store) :=
  (* Get the next available user ID *)
  let lastUser := findOne_sort_desc sort_lt ud_id (Users st) in
  let id := next_id_unguarded (option_map doc_id lastUser) in
  let newUser :=
    mkUserDoc oid JS.Undefined (iu_name insertUser) (iu_username insertUser)
      (iu_email insertUser) (iu_password insertUser) (iu_role insertUser)
      (iu_profileImage insertUser) (iu_phone insertUser)
      (iu_bio insertUser) (iu_location insertUser) (Some now) None in
  save
    (invalid_paths
       [("name", required_string (iu_name insertUser));
        ("username", required_string (iu_username insertUser));
        ("email", required_string (iu_email insertUser));
        ("password", required_string (iu_password insertUser));
        ("role", one_of user_roles (iu_role insertUser))])
    (first_duplicate
       [duplicate_string "username" ud_username (Users st)
          (iu_username insertUser);
        duplicate_string "email" ud_email (Users st) (iu_email insertUser)])
    (mongoUserToUser now newUser, with_Users st (Users st ++ [newUser])%list).

Definition set_user (p : PartialUser) (u : UserDoc) : UserDoc :=
  mkUserDoc (ud__id u) (ud_id u)
    (over (pu_name p) (ud_name u))
    (over (pu_username p) (ud_username u))
    (over (pu_email p) (ud_email u))
    (over (pu_password p) (ud_password u))
    (over (pu_role p) (ud_role u))
    (over (pu_profileImage p) (ud_profileImage u))
    (over (pu_phone p) (ud_phone u))
    (over (pu_bio p) (ud_bio u))
    (over (pu_location p) (ud_location u))
    (ud_joinedAt u) (ud_createdAt u).

Definition updateUser (st : Store) (now : Z) (id : JS.value)
    (userData : PartialUser) : option User * Store :=
  let (updatedUser, us) :=
    findOneAndUpdate (fun u => query_eq (ud_id u) id) (set_user userData)
      (Users st) in
  (option_map (mongoUserToUser now) updatedUser, with_Users st us).

(** *** Vendors *)

(** The resolution of [getVendor], for the stored reference [userId]. *)
Definition getVendor_resolve (us : list UserDoc) (userId : JS.value)
  : Cascade :=
  (* Try MongoDB ObjectId reference first *)
  let c :=
    attempt us
      (JS.truthy userId && (JS.length (JS.to_string userId) =? 24))
      (ById userId) start in
  (* Try numeric ID lookup *)
  let c := attempt_if_missing us (JS.is_number userId) (ByIdField userId) c in
  (* Try string value of the userId *)
  let c :=
    attempt_if_missing us (JS.truthy userId)
      (ByIdField (JS.Str (JS.to_string userId))) c in
  (* Last resort: Get the most recent user *)
  attempt_if_missing us true MostRecent c.

Definition getVendor (st : Store) (now : Z) (id : JS.value)
  : option (Vendor * User) :=
  match find (fun v => query_eq (vd_id v) id) (Vendors st) with
  | None => None
  | Some vendor =>
      match fst (getVendor_resolve (Users st) (vd_userId vendor)) with
      | None => None
      | Some user =>
          Some (mongoVendorToVendor None vendor, mongoUserToUser now user)
      end
  end.

Definition getVendorByUserId (st : Store) (userId : JS.value)
  : option Vendor :=
  let is_oid_string :=
    match userId with
    | JS.Str s => JS.length s =? 24
    | _ => false
    end in
  let mongoObjectId : option JS.value :=
    if is_oid_string then Some userId else None in
  let numericId : JS.value :=
    if is_oid_string then JS.Undefined
    else if JS.is_number userId || negb (isNaN userId) then Number userId
    else JS.Undefined in
  let by_userId (q : JS.value) : option VendorDoc :=
    find (fun v => query_eq (vd_userId v) q) (Vendors st) in
  let via_user (user : option UserDoc) : option VendorDoc :=
    match user with
    | Some u => by_userId (JS.Oid (ud__id u))
    | None => None
    end in
  (* Strategy 1: find vendor directly by MongoDB ObjectId *)
  let vendor :=
    match mongoObjectId with
    | Some o => by_userId o
    | None => None
    end in
  (* Strategy 2: find user first, then use that to find vendor *)
  let vendor :=
    match vendor with
    | Some _ => vendor
    | None =>
        if JS.truthy numericId
        then via_user (run (Users st) (ByIdField numericId))
        else vendor
    end in
  (* Strategy 3: look up the user by _id, then the vendor *)
  let vendor :=
    match vendor, mongoObjectId with
    | None, Some o => via_user (run (Users st) (ById o))
    | _, _ => vendor
    end in
  (* Strategy 4: find vendor by numeric ID directly *)
  let vendor :=
    match vendor with
    | Some _ => vendor
    | None => if JS.truthy numericId then by_userId numericId else vendor
    end in
  match vendor with
  | None => None
  | Some vendorData =>
      let userIdNumber :=
        match numericId with
        | JS.Num n => if JS.truthy numericId then Some n else None
        | _ => None
        end in
      Some (mongoVendorToVendor userIdNumber vendorData)
  end.

(** [Number(last.id)] guarded against [NaN], as [createVendor] does. *)
Definition next_id_guarded (last : option JS.value) : JS.value :=
  match last with
  | Some lastId =>
      if negb (isNaN lastId) then JS.plus_one (Number lastId) else JS.Num 1
  | None => JS.Num 1
  end.

(** The resolution of [createVendor], for the submitted reference. *)
Definition createVendor_resolve (us : list UserDoc) (userId : JS.value)
  : Cascade :=
  (* If userId is a MongoDB ObjectId string, try that first *)
  let c :=
    attempt us
      (match userId with JS.Str s => JS.length s =? 24 | _ => false end)
      (ById userId) start in
  (* If not found and userId looks numeric, try by numeric ID *)
  let c :=
    attempt_if_missing us (JS.is_number userId || negb (isNaN userId))
      (ByIdField (Number userId)) c in
  (* If still not found, try string comparison with ID field *)
  let c := attempt_if_missing us (JS.is_string userId) (ByIdField userId) c in
  (* One last attempt - find the most recently created user *)
  attempt_if_missing us true MostRecent c.

Definition createVendor (st : Store) (oid : string)
    (insertVendor : InsertVendor) : result (Vendor * Store) :=
  let lastVendor := findOne_sort_desc sort_lt vd_id (Vendors st) in
  let nextId := next_id_guarded (option_map vd_id lastVendor) in
  match fst (createVendor_resolve (Users st) (iv_userId insertVendor)) with
  | None => Throw (UserNotFoundNoFallback (iv_userId insertVendor))
  | Some user =>
      let newVendor :=
        mkVendorDoc oid (castNumber nextId) (JS.Oid (ud__id user))
          (iv_businessName insertVendor) (iv_category insertVendor)
          (iv_description insertVendor)
          (Some (match iv_services insertVendor with
                 | Some l => l
                 | None => []
                 end))
          (Some (match iv_businessHours insertVendor with
                 | Some h => h
                 | None => "{}"
                 end))
          (iv_coverImage insertVendor) 0 0 in
      save
        (invalid_paths
           [("businessName", required_string (iv_businessName insertVendor));
            ("category", required_string (iv_category insertVendor));
            ("description", required_string (iv_description insertVendor));
            ("id", positive_number (castNumber nextId))])
        (duplicate "id" vd_id (Vendors st) (castNumber nextId))
        (mongoVendorToVendor None newVendor,
         with_Vendors st (Vendors st ++ [newVendor])%list)
  end.

Definition set_vendor (p : PartialVendor) (v : VendorDoc) : VendorDoc :=
  mkVendorDoc (vd__id v) (vd_id v)
    (over (pv_userId p) (vd_userId v))
    (over (pv_businessName p) (vd_businessName v))
    (over (pv_category p) (vd_category v))
    (over (pv_description p) (vd_description v))
    (over (pv_services p) (vd_services v))
    (over (pv_businessHours p) (vd_businessHours v))
    (over (pv_coverImage p) (vd_coverImage v))
    (vd_rating v) (vd_reviewCount v).

Definition updateVendor (st : Store) (id : JS.value)
    (vendorData : PartialVendor) : option Vendor * Store :=
  let (updatedVendor, vs) :=
    findOneAndUpdate (fun v => query_eq (vd_id v) id)
      (set_vendor vendorData) (Vendors st) in
  (option_map (mongoVendorToVendor None) updatedVendor,
   with_Vendors st vs).

(** The resolution of the joins of [getAllVendors] and
    [searchVendors]. *)
Definition join_resolve (us : list UserDoc) (userId : JS.value)
  : Cascade :=
  (* Strategy 1: If userId is a MongoDB ObjectId, try to find by _id *)
  let c :=
    attempt us
      (JS.is_object userId
       || match userId with
          | JS.Str s => JS.length s =? 24
          | _ => false
          end)
      (ById userId) start in
  (* Strategy 2: Try numeric ID lookup *)
  let c := attempt_if_missing us (JS.is_number userId) (ByIdField userId) c in
  (* Strategy 3: Try string value of the userId *)
  attempt_if_missing us (JS.truthy userId)
    (ByIdField (JS.Str (JS.to_string userId))) c.

Fixpoint join_users (us : list UserDoc) (now : Z) (vs : list VendorDoc)
  : list (Vendor * User) :=
  match vs with
  | [] => []
  | vendor :: rest =>
      match fst (join_resolve us (vd_userId vendor)) with
      | Some user =>
          (mongoVendorToVendor None vendor, mongoUserToUser now user)
          :: join_users us now rest
      | None => join_users us now rest
      end
  end.

Definition getAllVendors (st : Store) (now : Z) : list (Vendor * User) :=
  join_users (Users st) now (Vendors st).

(** The vendor of a user whose name matched, in [searchVendors]. *)
Definition vendor_of_user (vs : list VendorDoc) (user : UserDoc)
  : option VendorDoc :=
  let by_userId (q : JS.value) : option VendorDoc :=
    find (fun v => query_eq (vd_userId v) q) vs in
  (* Strategy 1: Try by numeric ID *)
  let vendor := by_userId (doc_id user) in
  (* Strategy 2: Try by MongoDB ObjectId *)
  let vendor :=
    match vendor with
    | Some _ => vendor
    | None => by_userId (JS.Oid (ud__id user))
    end in
  (* Strategy 3: Try string comparison *)
  match vendor with
  | Some _ => vendor
  | None =>
      if JS.truthy (doc_id user)
      then by_userId (JS.Str (JS.to_string (doc_id user)))
      else vendor
  end.

Fixpoint add_by_user_name (vs : list VendorDoc) (now : Z)
    (matching : list UserDoc) (results : list (Vendor * User))
  : list (Vendor * User) :=
  match matching with
  | [] => results
  | user :: rest =>
      match vendor_of_user vs user with
      | Some vendor =>
          (* Check if this vendor is already in results *)
          let exists_ :=
            existsb (fun r => JS.strict_eq (vendor_id (fst r)) (vd_id vendor))
                    results in
          if exists_ then add_by_user_name vs now rest results
          else
            add_by_user_name vs now rest
              (results ++ [(mongoVendorToVendor None vendor,
                            mongoUserToUser now user)])%list
      | None => add_by_user_name vs now rest results
      end
  end.

Definition searchVendors (st : Store) (now : Z) (query : string)
  : list (Vendor * User) :=
  match regexp_i query with
  | None => []
  | Some searchRegex =>
      let vendors :=
        filter (fun v => searchRegex (vd_businessName v)
                         || searchRegex (vd_category v)
                         || searchRegex (vd_description v))
               (Vendors st) in
      let results := join_users (Users st) now vendors in
      (* Also search in users' names and add their vendors *)
      let users := filter (fun u => searchRegex (ud_name u)) (Users st) in
      add_by_user_name (Vendors st) now users results
  end.

(** *** Services *)

Definition createService (st : Store) (now : Z)
    (insertService : InsertService) : result (Service * Store) :=
  let lastService := findOne_sort_desc sort_lt service_id (Services st) in
  let id := next_id_unguarded (option_map service_id lastService) in
  (* Ensure vendorId is a number *)
  let vendorId := Number (is_vendorId insertService) in
  if isNaN (is_vendorId insertService)
  then Throw (InvalidVendorId (is_vendorId insertService))
  else
    let newService :=
      mkService (castNumber id) vendorId (is_name insertService)
        (is_category insertService) (is_description insertService)
        (is_price insertService) (is_duration insertService)
        (is_location insertService) (is_imageUrl insertService)
        (is_timeSlots insertService) (is_availableDates insertService)
        (is_availability insertService) (Some now) in
    save
      (invalid_paths
         [("vendorId", positive_number vendorId);
          ("name", required_string (is_name insertService));
          ("category", required_string (is_category insertService));
          ("description", required_string (is_description insertService));
          ("price", required_string (is_price insertService));
          ("id", positive_number (castNumber id))])
      (duplicate "id" service_id (Services st) (castNumber id))
      (mongoServiceToService now newService,
       with_Services st (Services st ++ [newService])%list).

Definition getServiceById (st : Store) (now : Z) (id : JS.value)
  : option Service :=
  option_map (mongoServiceToService now)
    (find (fun s => query_eq (service_id s) id) (Services st)).

Definition getServicesByVendorId (st : Store) (now : Z)
    (vendorId : JS.value) : list Service :=
  map (mongoServiceToService now)
    (filter (fun s => query_eq (service_vendorId s) vendorId)
            (Services st)).

Definition updateService (st : Store) (now : Z) (id : JS.value)
    (serviceData : PartialService) : option Service * Store :=
  let (updatedService, ss) :=
    findOneAndUpdate (fun s => query_eq (service_id s) id)
      (fun s => spread_service s serviceData) (Services st) in
  (option_map (mongoServiceToService now) updatedService,
   with_Services st ss).

Definition deleteService (st : Store) (id : JS.value) : bool * Store :=
  let (deletedCount, ss) :=
    deleteOne (fun s => query_eq (service_id s) id) (Services st) in
  (0 <? deletedCount, with_Services st ss).

(** *** Bookings *)

Definition createBooking (st : Store) (insertBooking : InsertBooking)
  : result (Booking * Store) :=
  let lastBooking := findOne_sort_desc sort_lt booking_id (Bookings st) in
  let id := next_id_unguarded (option_map booking_id lastBooking) in
  let vendorId := Number (ib_vendorId insertBooking) in
  if isNaN (ib_vendorId insertBooking)
  then Throw (InvalidVendorId (ib_vendorId insertBooking))
  else
    let checked_serviceId : result (option JS.value) :=
      match ib_serviceId insertBooking with
      | Some s =>
          if JS.truthy s then
            if isNaN s then Throw (InvalidServiceId s)
            else Ok (Some (Number s))
          else Ok None
      | None => Ok None
      end in
    match checked_serviceId with
    | Throw e => Throw e
    | Ok serviceId =>
        let userId := castObjectId (ib_userId insertBooking) in
        let newBooking :=
          mkBooking (castNumber id)
            (match userId with Some h => JS.Oid h | None => JS.Undefined end)
            vendorId serviceId
            (ib_date insertBooking) (ib_status insertBooking)
            (ib_notes insertBooking) in
        save
          (invalid_paths
             [("userId", match userId with Some _ => true | None => false end);
              ("vendorId", positive_number vendorId);
              ("serviceId",
               (* set to null when absent, and so validated *)
               match serviceId with
               | Some s => positive_number s
               | None => false
               end);
              ("status", one_of booking_status_enum (ib_status insertBooking));
              ("id", positive_number (castNumber id))])
          (duplicate "id" booking_id (Bookings st) (castNumber id))
          (mongoBookingToBooking newBooking,
           with_Bookings st (Bookings st ++ [newBooking])%list)
    end.

Definition getBookingsByUserId (st : Store) (userId : JS.value)
  : list Booking :=
  map mongoBookingToBooking
    (filter (fun b => query_eq (booking_userId b) userId) (Bookings st)).

Definition getBookingsByVendorId (st : Store) (vendorId : JS.value)
  : list Booking :=
  map mongoBookingToBooking
    (filter (fun b => query_eq (booking_vendorId b) vendorId)
            (Bookings st)).

Definition updateBookingStatus (st : Store) (id : JS.value)
    (status : string) : option Booking * Store :=
  let (updatedBooking, bs) :=
    findOneAndUpdate (fun b => query_eq (booking_id b) id)
      (fun b => with_status b status) (Bookings st) in
  (option_map mongoBookingToBooking updatedBooking, with_Bookings st bs).

(** *** Reviews *)

Fixpoint join_authors (us : list UserDoc) (now : Z) (rs : list Review)
  : list (Review * User) :=
  match rs with
  | [] => []
  | review :: rest =>
      match run us (ByIdField (review_userId review)) with
      | Some user =>
          (mongoReviewToReview review, mongoUserToUser now user)
          :: join_authors us now rest
      | None => join_authors us now rest
      end
  end.

Definition getReviewsByVendorId (st : Store) (now : Z)
    (vendorId : JS.value) : list (Review * User) :=
  let reviews :=
    filter (fun r => query_eq (review_vendorId r) vendorId) (Reviews st) in
  join_authors (Users st) now reviews.

Definition set_aggregates (rating reviewCount : Z) (v : VendorDoc)
  : VendorDoc :=
  mkVendorDoc (vd__id v) (vd_id v) (vd_userId v) (vd_businessName v)
    (vd_category v) (vd_description v) (vd_services v)
    (vd_businessHours v) (vd_coverImage v) rating reviewCount.

Definition createReview (st : Store) (now : Z)
    (insertReview : InsertReview) : result (Review * Store) :=
  let lastReview := findOne_sort_desc sort_lt review_id (Reviews st) in
  let id := next_id_unguarded (option_map review_id lastReview) in
  (* Ensure vendorId is a number *)
  let vendorId := Number (ir_vendorId insertReview) in
  if isNaN (ir_vendorId insertReview)
  then Throw (InvalidVendorId (ir_vendorId insertReview))
  else
    let userId := castObjectId (ir_userId insertReview) in
    let newReview :=
      mkReview (castNumber id)
        (match userId with Some h => JS.Oid h | None => JS.Undefined end)
        vendorId (ir_rating insertReview) (ir_comment insertReview) now in
    match
      save
        (invalid_paths
           [("userId", match userId with Some _ => true | None => false end);
            ("vendorId", positive_number vendorId);
            ("id", positive_number (castNumber id))])
        (duplicate "id" review_id (Reviews st) (castNumber id))
        (with_Reviews st (Reviews st ++ [newReview])%list)
    with
    | Throw e => Throw e
    | Ok st1 =>
        (* Update vendor rating and review count *)
        let vendorReviews := getReviewsByVendorId st1 now vendorId in
        match find (fun v => query_eq (vd_id v) vendorId) (Vendors st1) with
        | Some _ =>
            let reviewCount := Z.of_nat (List.length vendorReviews) + 1 in
            let totalRating :=
              sum_ratings (fun r => review_rating (fst r)) vendorReviews
              + ir_rating insertReview in
            let averageRating := JS.round_div totalRating reviewCount in
            let (_, vs) :=
              findOneAndUpdate (fun v => query_eq (vd_id v) vendorId)
                (set_aggregates averageRating reviewCount) (Vendors st1) in
            Ok (mongoReviewToReview newReview, with_Vendors st1 vs)
        | None => Ok (mongoReviewToReview newReview, st1)
        end
    end.

Definition getAverageRatingByVendorId (st : Store) (vendorId : JS.value)
  : Z :=
  let reviews :=
    filter (fun r => query_eq (review_vendorId r) vendorId) (Reviews st) in
  if Z.of_nat (List.length reviews) =? 0 then 0
  else JS.round_div (sum_ratings review_rating reviews)
                    (Z.of_nat (List.length reviews)).

End WithDriver.
End MongoDBStorage.

(** ** The [POST /api/services] route *)

Module Routes.
Import Schema Db.

(** [req.user] is whatever the token decodes to: an object read by
    property name, [undefined] for a property it does not have. *)
Definition JsObject : Type := list (string * JS.value).

Fixpoint prop (o : JsObject) (key : string) : JS.value :=
  match o with
  | [] => JS.Undefined
  | (k, v) :: r => if String.eqb k key then v else prop r key
  end.

(** The payload [generateToken] signs. *)
Definition generateToken_payload (user : User) : JsObject :=
  [ ("id", user_id user);
    ("email", JS.Str (user_email user));
    ("role", JS.Str (user_role user));
    ("username", JS.Str (user_username user)) ].

(** [authenticateToken] on a valid token of [user]:
    [req.user = verifyToken(token)], the signed payload with the issue
    and expiry times the token library adds. *)
Definition authenticateToken (user : User) (iat exp : Z) : JsObject :=
  (generateToken_payload user
   ++ [("iat", JS.Num iat); ("exp", JS.Num exp)])%list.

(** [req.body] of a service creation. *)
Record ServiceBody : Type := mkServiceBody {
  body_name : option string;
  body_category : option string;
  body_description : option string;
  body_price : option string;
  body_duration : option string;
  body_location : option string;
  body_imageUrl : option string;
  body_timeSlots : option json;
  body_availableDates : option json;
  body_availability : option bool
}.

(** [insertServiceSchema.parse({ ...req.body, vendorId })]; [None] for a
    [ZodError]. *)
Definition parse_service (body : ServiceBody) (vendorId : JS.value)
  : option InsertService :=
  match vendorId, body_name body, body_category body,
        body_description body, body_price body with
  | JS.Num _, Some name, Some category, Some description, Some price =>
      if (2 <=? JS.length name) && (10 <=? JS.length description)
      then Some (mkInsertService vendorId name category description price
                   (body_duration body) (body_location body)
                   (body_imageUrl body) (body_timeSlots body)
                   (body_availableDates body)
                   (match body_availability body with
                    | Some b => b
                    | None => true
                    end))
      else None
  | _, _, _, _, _ => None
  end.

Inductive Response : Type :=
| Created (service : Service)
| Status (code : Z) (message : string)
| NextZodError
| NextError (e : MongoDBStorage.Error).

Section WithDriver.
Context {D : Driver}.

(** The default vendor profile of the auto-provisioning path. *)
Definition default_vendor (req_user : JsObject) : InsertVendor :=
  mkInsertVendor (prop req_user "id")
    (if JS.truthy (prop req_user "name")
     then String.append (JS.to_string (prop req_user "name")) "'s Business"
     else "New Business")
    "General Services" "A new vendor on VendorHive" None None None.

(** The handler behind [authenticateToken] and [authorizeRole(['vendor'])].
    The vendor id and service id the handler computes on the side
    ([lastVendor], [getNextServiceId]) are not used by the storage calls,
    which allocate their own. *)
Definition post_services (st : Store) (oid : string) (now : Z)
    (req_user : JsObject) (body : ServiceBody) : Response * Store :=
  (* authorizeRole(['vendor']) *)
  if negb (JS.strict_eq (prop req_user "role") (JS.Str "vendor"))
  then (Status 403 "Forbidden: Insufficient permissions", st)
  else
    match MongoDBStorage.getVendorByUserId st (prop req_user "id") with
    | None =>
        if JS.strict_eq (prop req_user "role") (JS.Str "vendor") then
          match MongoDBStorage.createVendor st oid (default_vendor req_user)
          with
          | MongoDBStorage.Throw _ =>
              (Status 404
                 "Vendor profile not found and automatic creation failed",
               st)
          | MongoDBStorage.Ok (newVendor, st1) =>
              match parse_service body
                      (MongoDBStorage.Number (vendor_id newVendor)) with
              | None =>
                  (Status 404
                     "Vendor profile not found and automatic creation failed",
                   st1)
              | Some serviceData =>
                  match MongoDBStorage.createService st1 now serviceData
                  with
                  | MongoDBStorage.Throw _ =>
                      (Status 404
                         "Vendor profile not found and automatic creation failed",
                       st1)
                  | MongoDBStorage.Ok (service, st2) =>
                      (Created service, st2)
                  end
              end
          end
        else
          (Status 404 "Vendor profile not found and user is not a vendor",
           st)
    | Some vendor =>
        match parse_service body
                (MongoDBStorage.Number (vendor_id vendor)) with
        | None => (NextZodError, st)
        | Some serviceData =>
            if negb (JS.strict_eq (is_vendorId serviceData)
                       (MongoDBStorage.Number (vendor_id vendor)))
            then
              (Status 403
                 "You can only create services for your own vendor profile",
               st)
            else
              match MongoDBStorage.createService st now serviceData with
              | MongoDBStorage.Throw e => (NextError e, st)
              | MongoDBStorage.Ok (service, st2) => (Created service, st2)
              end
        end
    end.

End WithDriver.
End Routes.

(** ** A reference driver *)

Module Reference.

(** Equality conditions compare values of the same type; a string
    queried against an ObjectId field is cast to an ObjectId. *)
Definition same_typed (stored q : JS.value) : bool :=
  match stored, q with
  | JS.Num a, JS.Num b => a =? b
  | JS.Str a, JS.Str b => String.eqb a b
  | JS.Oid a, JS.Oid b => String.eqb a b
  | JS.Oid a, JS.Str b => String.eqb a b
  | _, _ => false
  end.

(** Decimal integer literals; the empty string converts to [0]. *)
Definition decimal (s : string) : option Z :=
  if String.eqb s "-" then None
  else option_map Z.of_int (NilEmpty.int_of_string s).

(** Patterns without metacharacters: a case-insensitive substring
    test. *)
Definition substring_i (query : string) : option (string -> bool) :=
  Some (fun text =>
          JS.includes (JS.toLowerCase text) (JS.toLowerCase query)).

(** An ObjectId casts to itself, a string of 24 hexadecimal digits to
    the ObjectId it spells, and nothing else casts: not a number. *)
Definition object_id (v : JS.value) : option string :=
  match v with
  | JS.Oid h => Some h
  | JS.Str s => if JS.is_hex24 s then Some s else None
  | _ => None
  end.

#[export] Instance driver : Driver :=
  Build_Driver same_typed decimal substring_i object_id.

End Reference.

(** ** Example data *)

Module Examples.
Import Schema Db.
#[local] Existing Instance Reference.driver.

Definition alice : InsertUser :=
  mkInsertUser "Alice" "alice" "alice@example.org" "hash-a" "vendor"
    None None None None.

Definition bobby : InsertUser :=
  mkInsertUser "Bobby Smith" "bobby" "bobby@example.org" "hash-b" "vendor"
    None None None None.

Definition oid_alice : string := "aaaaaaaaaaaaaaaaaaaaaaaa".
Definition oid_bobby : string := "bbbbbbbbbbbbbbbbbbbbbbbb".
Definition oid_gone : string := "dddddddddddddddddddddddd".
Definition oid_v1 : string := "0000000000000000000000c1".
Definition oid_v2 : string := "0000000000000000000000c2".
Definition oid_v3 : string := "0000000000000000000000c3".

Definition acme (userId : JS.value) : InsertVendor :=
  mkInsertVendor userId "Acme Repairs" "Repairs" "We repair everything"
    None None None.

Definition bobs_plumbing (userId : JS.value) : InsertVendor :=
  mkInsertVendor userId "Bob's Plumbing" "Plumbing" "Pipes and drains"
    None None None.

Definition garden (userId : JS.value) : InsertVendor :=
  mkInsertVendor userId "Green Garden" "Gardening" "Lawns and hedges"
    None None None.


(** Reviews of vendor 1 by the author of id 1, as the schema types them. *)
Definition five_stars : InsertReview :=
  mkInsertReview (JS.Num 1) (JS.Num 1) 5 None.
Definition one_star : InsertReview :=
  mkInsertReview (JS.Num 1) (JS.Num 1) 1 None.

(** The same with Alice's [_id] string as author, which the document
    store can cast to an ObjectId. *)
Definition five_stars_by_alice : InsertReview :=
  mkInsertReview (JS.Str oid_alice) (JS.Num 1) 5 None.
Definition one_star_by_alice : InsertReview :=
  mkInsertReview (JS.Str oid_alice) (JS.Num 1) 1 None.

Definition pipes : Routes.ServiceBody :=
  Routes.mkServiceBody (Some "Pipe repair") (Some "Plumbing")
    (Some "Fixing leaking pipes") (Some "40") None None None None None None.

(** The store an operation leaves, the given one if it threw. *)
Definition after {A : Type} (r : MongoDBStorage.result (A * Store))
    (st : Store) : Store :=
  match r with
  | MongoDBStorage.Ok (_, st') => st'
  | MongoDBStorage.Throw _ => st
  end.

(** What an operation returned, if it did not throw. *)
Definition returned {A : Type} (r : MongoDBStorage.result (A * Store))
  : option A :=
  match r with
  | MongoDBStorage.Ok (a, _) => Some a
  | MongoDBStorage.Throw _ => None
  end.

(** The principal of a request carrying a valid token of the user an
    operation returned. *)
Definition principal_of (r : MongoDBStorage.result (User * Store))
  : Routes.JsObject :=
  match returned r with
  | Some user => Routes.authenticateToken user 1000 2000
  | None => []
  end.

(** *** In memory *)

(** Alice registered. *)
Definition mem_alice : MemStorage.t :=
  snd (MemStorage.createUser MemStorage.init 100 alice).

(** Alice registered, with a vendor profile and no review. *)
Definition mem_vendor : MemStorage.t :=
  snd (MemStorage.createVendor mem_alice (acme (JS.Num 1))).

Definition mem_review1 : MemStorage.t :=
  snd (MemStorage.createReview mem_vendor 101 five_stars).
Definition mem_review2 : MemStorage.t :=
  snd (MemStorage.createReview mem_review1 102 one_star).


(** *** In the document store *)

(** Alice registered. *)
Definition db_alice : Store :=
  after (MongoDBStorage.createUser Db.empty oid_alice 100 alice) Db.empty.

Definition db_alice_bobby : Store :=
  after (MongoDBStorage.createUser db_alice oid_bobby 200 bobby) db_alice.

(** Alice registered, with a vendor profile created for her [id], as the
    register route does, and no review. *)
Definition db_vendor : Store :=
  after (MongoDBStorage.createVendor db_alice oid_v1
           (acme (JS.Str oid_alice)))
        db_alice.

Definition db_review1 : Store :=
  after (MongoDBStorage.createReview db_vendor 101 five_stars_by_alice)
        db_vendor.
Definition db_review2 : Store :=
  after (MongoDBStorage.createReview db_review1 102 one_star_by_alice)
        db_review1.

(** Alice then Bobby registered, then a vendor created for a reference
    that no user matches. *)
Definition db_unmatched : Store :=
  after (MongoDBStorage.createVendor db_alice_bobby oid_v1
           (acme (JS.Num 99)))
        db_alice_bobby.

(** Alice registered, and a vendor document whose user is gone. *)
Definition dangling_vendor : VendorDoc :=
  mkVendorDoc oid_v1 (JS.Num 1) (JS.Oid oid_gone) "Bob's Plumbing"
    "Plumbing" "Pipes and drains" (Some []) (Some "{}") None 0 0.

Definition db_dangling : Store :=
  with_Vendors db_alice [dangling_vendor].

(** Alice then Bobby registered, and a vendor document whose user is
    gone. *)
Definition db_dangling2 : Store :=
  with_Vendors db_alice_bobby [dangling_vendor].


(** A user whose [_id] is made of digits only, and a second user whose
    [id] field holds the same digits as a string. *)
Definition oid_digits : string := "123456789012345678901234".

Definition user_digits : UserDoc :=
  mkUserDoc oid_digits (JS.Num 1) "Alice" "alice" "alice@example.org"
    "hash-a" "vendor" None None None None (Some 100) None.

Definition user_string_id : UserDoc :=
  mkUserDoc oid_bobby (JS.Str oid_digits) "Bobby Smith" "bobby"
    "bobby@example.org" "hash-b" "vendor" None None None None (Some 200)
    None.

(** Alice and Bobby registered, Alice with a vendor profile. *)
Definition db_bobby_without_vendor : Store :=
  after (MongoDBStorage.createVendor db_alice_bobby oid_v1
           (acme (JS.Str oid_alice)))
        db_alice_bobby.

(** The principal of a request carrying a valid token of Bobby. *)
Definition bobby_principal : Routes.JsObject :=
  principal_of (MongoDBStorage.createUser db_alice oid_bobby 200 bobby).

(** The search scenario: Alice owns "Bob's Plumbing", Bobby Smith owns
    "Green Garden". *)
Definition mem_search : MemStorage.t :=
  let m1 := snd (MemStorage.createUser mem_alice 200 bobby) in
  let m2 := snd (MemStorage.createVendor m1 (bobs_plumbing (JS.Num 1))) in
  snd (MemStorage.createVendor m2 (garden (JS.Num 2))).

Definition db_search : Store :=
  let s1 :=
    after (MongoDBStorage.createVendor db_alice_bobby oid_v1
             (bobs_plumbing (JS.Str oid_alice))) db_alice_bobby in
  after (MongoDBStorage.createVendor s1 oid_v2 (garden (JS.Str oid_bobby)))
        s1.


(** A service of vendor 1, and a booking of service 1 of vendor 1 by
    Alice, given by her [_id] string. *)
Definition drain_cleaning : InsertService :=
  mkInsertService (JS.Num 1) "Drain cleaning" "Plumbing" "Unblocking drains"
    "25" None None None None None true.

Definition booking_by_alice : InsertBooking :=
  mkInsertBooking (JS.Str oid_alice) (JS.Num 1) (Some (JS.Num 1)) 70
    "pending" None.

(** Collections whose only document has lost its [id]. *)
Definition user_without_id : UserDoc :=
  mkUserDoc oid_alice JS.Undefined "Alice" "alice" "alice@example.org"
    "hash-a" "vendor" None None None None (Some 100) None.

Definition vendor_without_id : VendorDoc :=
  mkVendorDoc oid_v1 JS.Undefined (JS.Oid oid_alice) "Acme Repairs"
    "Repairs" "We repair everything" (Some []) (Some "{}") None 0 0.

Definition review_without_id : Review :=
  mkReview JS.Undefined (JS.Num 1) (JS.Num 1) 4 None 50.

Definition service_without_id : Service :=
  mkService JS.Undefined (JS.Num 1) "Pipe repair" "Plumbing"
    "Fixing leaking pipes" "40" None None None None None true None.

Definition booking_without_id : Booking :=
  mkBooking JS.Undefined (JS.Num 1) (JS.Num 1) None 60 "pending" None.

Definition db_lost_ids : Store :=
  mkStore [user_without_id] [vendor_without_id] [service_without_id]
    [booking_without_id] [review_without_id].

(** The principal of a request carrying a valid token of the first
    registered user. *)
Definition alice_principal : Routes.JsObject :=
  principal_of (MongoDBStorage.createUser Db.empty oid_alice 100 alice).

End Examples.

(** ** Predicates used in the statements *)

Module Statements.
Import Schema Db.

Section WithDriver.
Context {D : Driver}.

(** The reference looks like an ObjectId to [getVendorByUserId]: a string
    of 24 characters. *)
Definition oid_shaped (userId : JS.value) : bool :=
  match userId with
  | JS.Str s => JS.length s =? 24
  | _ => false
  end.

(** The numeric reading [getVendorByUserId] makes of a reference that is
    not ObjectId-shaped, and whether the code uses it ([if (numericId)]). *)
Definition numeric_reading (userId : JS.value) : JS.value :=
  if oid_shaped userId then JS.Undefined
  else if JS.is_number userId || negb (MongoDBStorage.isNaN userId)
       then MongoDBStorage.Number userId
       else JS.Undefined.

(** The vendor document [v] matches the reference by one of the four
    lookup strategies of [getVendorByUserId]: its [userId] equals the
    ObjectId-shaped reference; or the ObjectId of the user whose [id] is
    the numeric reading; or the ObjectId of the user whose [_id] is the
    reference; or the numeric reading itself. *)
Definition vendor_matches (st : Store) (userId : JS.value) (v : VendorDoc)
  : bool :=
  (oid_shaped userId && query_eq (vd_userId v) userId)
  || (JS.truthy (numeric_reading userId)
      && match MongoDBStorage.run (Users st)
                 (MongoDBStorage.ByIdField (numeric_reading userId)) with
         | Some u => query_eq (vd_userId v) (JS.Oid (ud__id u))
         | None => false
         end)
  || (oid_shaped userId
      && match MongoDBStorage.run (Users st) (MongoDBStorage.ById userId)
         with
         | Some u => query_eq (vd_userId v) (JS.Oid (ud__id u))
         | None => false
         end)
  || (JS.truthy (numeric_reading userId)
      && query_eq (vd_userId v) (numeric_reading userId)).



(** The own fields of a vendor document match the search expression. *)
Definition own_fields_match (re : string -> bool) (v : VendorDoc) : bool :=
  re (vd_businessName v) || re (vd_category v) || re (vd_description v).

(** The user a list of lookups yields: that of the first lookup that
    finds one. *)
Fixpoint first_found (lookups : list (option UserDoc)) : option UserDoc :=
  match lookups with
  | [] => None
  | Some u :: _ => Some u
  | None :: rest => first_found rest
  end.

(** A lookup made only for the references it applies to. *)
Definition lookup_when (applies : bool) (found : option UserDoc)
  : option UserDoc :=
  if applies then found else None.

(** The lookups of the join of [getVendor] for a stored reference, in
    their order: by [_id] for a reference that prints in 24 characters,
    by [id] for a number, by [id] with the reference printed as a string,
    and the fallback query. *)
Definition getVendor_lookups (us : list UserDoc) (userId : JS.value)
  : list (option UserDoc) :=
  [ lookup_when (JS.truthy userId && (JS.length (JS.to_string userId) =? 24))
      (MongoDBStorage.run us (MongoDBStorage.ById userId));
    lookup_when (JS.is_number userId)
      (MongoDBStorage.run us (MongoDBStorage.ByIdField userId));
    lookup_when (JS.truthy userId)
      (MongoDBStorage.run us
         (MongoDBStorage.ByIdField (JS.Str (JS.to_string userId))));
    MongoDBStorage.run us MongoDBStorage.MostRecent ].

(** The lookups of the list joins: by [_id] for an ObjectId or a string
    of 24 characters, by [id] for a number, by [id] with the reference
    printed as a string; no fallback. *)
Definition direct_lookups (us : list UserDoc) (userId : JS.value)
  : list (option UserDoc) :=
  [ lookup_when (JS.is_object userId || oid_shaped userId)
      (MongoDBStorage.run us (MongoDBStorage.ById userId));
    lookup_when (JS.is_number userId)
      (MongoDBStorage.run us (MongoDBStorage.ByIdField userId));
    lookup_when (JS.truthy userId)
      (MongoDBStorage.run us
         (MongoDBStorage.ByIdField (JS.Str (JS.to_string userId)))) ].

(** The vendors of [vs] for which a direct lookup yields a user, in
    order, each with the first user found. *)
Definition joined (us : list UserDoc) (now : Z) (vs : list VendorDoc)
  : list (Vendor * User) :=
  flat_map
    (fun v =>
       match first_found (direct_lookups us (vd_userId v)) with
       | Some u =>
           [(MongoDBStorage.mongoVendorToVendor None v,
             MongoDBStorage.mongoUserToUser now u)]
       | None => []
       end)
    vs.

(** [x] is the first element of [l], in order, that satisfies [P]. *)
Definition first_matching {A : Type} (P : A -> bool) (l : list A) (x : A)
  : Prop :=
  exists before after,
    l = (before ++ x :: after)%list
    /\ P x = true
    /\ (forall y, In y before -> P y = false).

(** [vd] is the vendor found for the user [ud]: the first vendor whose
    [userId] matches the user's [_id] given as a string, or, when no
    vendor does, the first whose [userId] matches it given as an
    ObjectId. *)
Definition found_for (vs : list VendorDoc) (ud : UserDoc) (vd : VendorDoc)
  : Prop :=
  first_matching (fun v => query_eq (vd_userId v) (JS.Str (ud__id ud))) vs vd
  \/ ((forall v, In v vs ->
                 query_eq (vd_userId v) (JS.Str (ud__id ud)) = false)
      /\ first_matching
           (fun v => query_eq (vd_userId v) (JS.Oid (ud__id ud))) vs vd).

End WithDriver.

(** The vendor map is keyed by the ids of its vendors: no key twice, and
    every vendor stored under its own id. *)
Definition keyed_by_id (m : JsMap.t Vendor) : Prop :=
  NoDup (JsMap.keys m)
  /\ (forall k v, In (k, v) m -> vendor_id v = JS.Num k).


(** A cascade over [us] only ever holds a user of [us]. *)
Definition sound (us : list UserDoc) (c : MongoDBStorage.Cascade) : Prop :=
  forall u, fst c = Some u -> In u us.


(** The ratings of the reviews [getReviewsByVendorId] reports for a
    vendor, in order. *)
Definition mem_visible_ratings (mem : MemStorage.t) (vendorId : JS.value)
  : list Z :=
  map (fun p => review_rating (fst p))
      (MemStorage.getReviewsByVendorId mem vendorId).

Definition db_visible_ratings {D : Driver} (st : Store) (now : Z)
    (vendorId : JS.value) : list Z :=
  map (fun p => review_rating (fst p))
      (MongoDBStorage.getReviewsByVendorId st now vendorId).


(** The aggregates stored for a vendor. *)
Definition mem_aggregates (mem : MemStorage.t) (k : Z) : option (Z * Z) :=
  option_map (fun v => (vendor_rating v, vendor_reviewCount v))
             (JsMap.get (MemStorage.vendors mem) k).

Definition db_aggregates {D : Driver} (st : Store) (id : JS.value)
  : option (Z * Z) :=
  option_map (fun v => (vd_rating v, vd_reviewCount v))
             (find (fun v => query_eq (vd_id v) id) (Vendors st)).

End Statements.

(** ** The authentication and authorization middleware *)

Module Middleware.
Import Schema.

(** What a middleware does with a request: hand it on ([next()]), with the
    principal it attached, or answer it. *)
Inductive Verdict : Type :=
| Next (user : option Routes.JsObject)
| Reject (code : Z) (message : string).

(** [s.split(' ')] *)
Fixpoint split_from (acc : string) (s : string) : list string :=
  match s with
  | EmptyString => [acc]
  | String c r =>
      if Ascii.eqb c " "%char then acc :: split_from EmptyString r
      else split_from (String.append acc (String c EmptyString)) r
  end.

Definition split_space (s : string) : list string :=
  split_from EmptyString s.

Section WithToken.
(** [verifyToken]: the decoded payload of a token the signature check
    accepts, [None] ([null]) otherwise. *)
Variable verifyToken : string -> option Routes.JsObject.
(** [parseInt] on a route parameter, [None] for [NaN]. *)
Variable parseInt : string -> option Z.

(** [authenticateToken], on the [authorization] header. *)
Definition authenticateToken (authHeader : option string) : Verdict :=
  let token : option string :=
    match authHeader with
    | None => None
    | Some h => if String.eqb h EmptyString then None
                else nth_error (split_space h) 1
    end in
  match token with
  | None => Reject 401 "Unauthorized: Missing token"
  | Some t =>
      if String.eqb t EmptyString
      then Reject 401 "Unauthorized: Missing token"
      else
        match verifyToken t with
        | None => Reject 403 "Forbidden: Invalid or expired token"
        | Some user => Next (Some user)
        end
  end.

(** [authorizeRole(roles)] *)
Definition authorizeRole (roles : list string)
    (req_user : option Routes.JsObject) : Verdict :=
  match req_user with
  | None => Reject 401 "Unauthorized: Authentication required"
  | Some user =>
      if negb (existsb (fun r => JS.strict_eq (JS.Str r)
                                   (Routes.prop user "role")) roles)
      then Reject 403 "Forbidden: Insufficient permissions"
      else Next req_user
  end.

(** [authorizeVendor], on [req.params.id]. *)
Definition authorizeVendor (req_user : option Routes.JsObject)
    (params_id : string) : Verdict :=
  match req_user with
  | None => Reject 401 "Unauthorized: Authentication required"
  | Some user =>
      if negb (JS.strict_eq (Routes.prop user "role") (JS.Str "vendor"))
      then Reject 403 "Forbidden: Vendor access required"
      else
        match parseInt params_id with
        | None =>
            Reject 403
              "Forbidden: You can only modify your own vendor profile"
        | Some vendorId =>
            if negb (JS.strict_eq (JS.Num vendorId) (Routes.prop user "id"))
            then Reject 403
                   "Forbidden: You can only modify your own vendor profile"
            else Next req_user
        end
  end.

End WithToken.
End Middleware.

(** ** More routes of [routes.ts] *)

Module Handlers.
Import Schema Db.

(** The answer of a handler: a JSON body with its status, a message with
    its status, an empty answer, or an error handed to the error
    middleware (a [ZodError] is answered 400, any other error 500). *)
Inductive Reply (A : Type) : Type :=
| Sent (code : Z) (body : A)
| Message (code : Z) (message : string)
| Empty (code : Z)
| NextZodError
| NextError (e : MongoDBStorage.Error).
Arguments Sent {A} code body.
Arguments Message {A} code message.
Arguments Empty {A} code.
Arguments NextZodError {A}.
Arguments NextError {A} e.

(** [req.body] of a review creation. *)
Record ReviewBody : Type := mkReviewBody {
  rb_userId : JS.value;
  rb_vendorId : JS.value;
  rb_rating : JS.value;
  rb_comment : option JS.value
}.

(** [insertReviewSchema.parse(req.body)]; [None] for a [ZodError]. *)
Definition parse_review (body : ReviewBody) : option InsertReview :=
  match rb_userId body, rb_vendorId body, rb_rating body with
  | JS.Num _, JS.Num _, JS.Num rating =>
      if (1 <=? rating) && (rating <=? 5) then
        match rb_comment body with
        | None =>
            Some (mkInsertReview (rb_userId body) (rb_vendorId body) rating
                    None)
        | Some (JS.Str c) =>
            Some (mkInsertReview (rb_userId body) (rb_vendorId body) rating
                    (Some c))
        | Some _ => None
        end
      else None
  | _, _, _ => None
  end.

Section WithDriver.
Context {D : Driver}.
(** [parseInt] on a route parameter, [None] for [NaN]. *)
Variable parseInt : string -> option Z.

(** The id the helpers [getNextVendorId] and [getNextServiceId] compute
    from the document of greatest id. *)
Definition next_id_of_last (last : option JS.value) : JS.value :=
  match last with
  | Some lastId =>
      if JS.truthy lastId && negb (MongoDBStorage.isNaN lastId)
      then JS.plus_one (MongoDBStorage.Number lastId)
      else JS.Num 1
  | None => JS.Num 1
  end.

Definition getNextVendorId (st : Store) : JS.value :=
  next_id_of_last
    (option_map vd_id (findOne_sort_desc sort_lt vd_id (Vendors st))).

Definition getNextServiceId (st : Store) : JS.value :=
  next_id_of_last
    (option_map service_id
       (findOne_sort_desc sort_lt service_id (Services st))).

(** [DELETE /api/services/:id], behind [authenticateToken] and
    [authorizeRole(['vendor'])]. *)
Definition delete_service (st : Store) (now : Z)
    (req_user : Routes.JsObject) (params_id : string)
  : Reply unit * Store :=
  match parseInt params_id with
  | None => (Message 400 "Invalid service ID", st)
  | Some serviceId =>
      match MongoDBStorage.getServiceById st now (JS.Num serviceId) with
      | None => (Message 404 "Service not found", st)
      | Some service =>
          match MongoDBStorage.getVendorByUserId st
                  (Routes.prop req_user "id") with
          | None => (Message 404 "Vendor profile not found", st)
          | Some vendor =>
              (* Ensure vendor owns the service (comparing numeric IDs) *)
              if negb (JS.strict_eq
                         (MongoDBStorage.Number (service_vendorId service))
                         (MongoDBStorage.Number (vendor_id vendor)))
              then (Message 403 "You can only delete your own services", st)
              else
                let (deleted, st') :=
                  MongoDBStorage.deleteService st (JS.Num serviceId) in
                if deleted then (Empty 204, st')
                else (Message 404 "Service not found", st')
          end
      end
  end.

Definition booking_statuses : list string :=
  ["pending"; "confirmed"; "completed"; "cancelled"].

(** [PUT /api/bookings/:id/status], behind [authenticateToken]; [status]
    is [req.body.status]. *)
Definition put_booking_status (st : Store) (params_id : string)
    (status : JS.value) : Reply Booking * Store :=
  match parseInt params_id with
  | None => (Message 400 "Invalid booking ID", st)
  | Some bookingId =>
      if negb (existsb (fun s => JS.strict_eq (JS.Str s) status)
                       booking_statuses)
      then (Message 400 "Invalid status", st)
      else
        let (updatedBooking, st') :=
          MongoDBStorage.updateBookingStatus st (JS.Num bookingId)
            (JS.to_string status) in
        match updatedBooking with
        | None => (Message 404 "Booking not found", st')
        | Some booking => (Sent 200 booking, st')
        end
  end.

(** [POST /api/reviews], behind [authenticateToken]. *)
Definition post_reviews (st : Store) (now : Z) (req_user : Routes.JsObject)
    (body : ReviewBody) : Reply Review * Store :=
  match parse_review body with
  | None => (NextZodError, st)
  | Some reviewData =>
      (* Ensure userId matches the authenticated user *)
      if negb (JS.strict_eq (ir_userId reviewData) (Routes.prop req_user "id"))
      then (Message 403 "You can only create reviews as yourself", st)
      else
        match MongoDBStorage.createReview st now reviewData with
        | MongoDBStorage.Throw e => (NextError e, st)
        | MongoDBStorage.Ok (review, st') => (Sent 201 review, st')
        end
  end.

End WithDriver.
End Handlers.

(** ** Sequences of calls on [MemStorage] *)

Module MemTrace.
Import Schema.

(** A call that can change the store. *)
Inductive call : Type :=
| CreateUser (now : Z) (insertUser : InsertUser)
| UpdateUser (id : Z) (userData : PartialUser)
| CreateVendor (insertVendor : InsertVendor)
| UpdateVendor (id : Z) (vendorData : PartialVendor)
| CreateService (insertService : InsertService)
| UpdateService (id : Z) (serviceData : PartialService)
| DeleteService (id : Z)
| CreateBooking (insertBooking : InsertBooking)
| UpdateBookingStatus (id : Z) (status : string)
| CreateReview (now : Z) (insertReview : InsertReview).

Definition run (st : MemStorage.t) (c : call) : MemStorage.t :=
  match c with
  | CreateUser now insertUser => snd (MemStorage.createUser st now insertUser)
  | UpdateUser id userData => snd (MemStorage.updateUser st id userData)
  | CreateVendor insertVendor => snd (MemStorage.createVendor st insertVendor)
  | UpdateVendor id vendorData => snd (MemStorage.updateVendor st id vendorData)
  | CreateService insertService =>
      snd (MemStorage.createService st insertService)
  | UpdateService id serviceData =>
      snd (MemStorage.updateService st id serviceData)
  | DeleteService id => snd (MemStorage.deleteService st id)
  | CreateBooking insertBooking =>
      snd (MemStorage.createBooking st insertBooking)
  | UpdateBookingStatus id status =>
      snd (MemStorage.updateBookingStatus st id status)
  | CreateReview now insertReview =>
      snd (MemStorage.createReview st now insertReview)
  end.

(** The store a fresh [MemStorage] reaches by a sequence of calls. *)
Definition after (calls : list call) : MemStorage.t :=
  fold_left run calls MemStorage.init.

End MemTrace.

(** ** More predicates used in the statements *)

Module Invariants.
Import Schema Db.

(** A map of [MemStorage] with its counter: no key twice, every entity
    stored under its own id, and every key positive and below the
    counter. *)
Definition well_keyed {V : Type} (idof : V -> JS.value) (m : JsMap.t V)
    (counter : Z) : Prop :=
  1 <= counter
  /\ NoDup (JsMap.keys m)
  /\ (forall k v, In (k, v) m -> idof v = JS.Num k /\ 1 <= k < counter).

Definition mem_well_keyed (mem : MemStorage.t) : Prop :=
  well_keyed user_id (MemStorage.users mem) (MemStorage.userIdCounter mem)
  /\ well_keyed vendor_id (MemStorage.vendors mem)
       (MemStorage.vendorIdCounter mem)
  /\ well_keyed service_id (MemStorage.services mem)
       (MemStorage.serviceIdCounter mem)
  /\ well_keyed booking_id (MemStorage.bookings mem)
       (MemStorage.bookingIdCounter mem)
  /\ well_keyed review_id (MemStorage.reviews mem)
       (MemStorage.reviewIdCounter mem).

(** The ids of a collection are numbers, pairwise distinct. *)
Definition numeric_ids {A : Type} (idof : A -> JS.value) (l : list A)
  : Prop :=
  NoDup (map idof l) /\ (forall x, In x l -> exists n, idof x = JS.Num n).

(** The driver compares numbers with numbers by value. *)
Definition compares_numbers (D : Driver) : Prop :=
  forall a b, query_eq (JS.Num a) (JS.Num b) = (a =? b).

(** The driver matches an ObjectId with itself. *)
Definition matches_own_oid (D : Driver) : Prop :=
  forall h, query_eq (JS.Oid h) (JS.Oid h) = true.

(** Every rating of the list lies between [lo] and [hi]. *)
Definition ratings_within (lo hi : Z) (ratings : list Z) : Prop :=
  forall r, In r ratings -> lo <= r <= hi.

(** [l1] is [l2] with some elements left out, the order kept. *)
Inductive sublist {A : Type} : list A -> list A -> Prop :=
| sublist_nil : sublist [] []
| sublist_keep x l1 l2 : sublist l1 l2 -> sublist (x :: l1) (x :: l2)
| sublist_skip x l1 l2 : sublist l1 l2 -> sublist l1 (x :: l2).

(** No character of [s] is a space. *)
Definition no_space (s : string) : Prop :=
  ~ In " "%char (list_ascii_of_string s).

End Invariants.

(** ** More example data *)

Module MoreExamples.
Import Schema Db Examples.

(** Decimal digits, as [parseInt] reads them; nothing else. *)
Definition parse_int (s : string) : option Z :=
  if String.eqb s EmptyString then None else Reference.decimal s.

(** A token check that knows one token, Alice's. *)
Definition verify_alice (token : string) : option Routes.JsObject :=
  if String.eqb token "token-of-alice" then Some alice_principal else None.

Definition review_by (userId rating : Z) : Handlers.ReviewBody :=
  Handlers.mkReviewBody (JS.Num userId) (JS.Num 1) (JS.Num rating) None.

Definition pipe_repair (vendorId : Z) : InsertService :=
  mkInsertService (JS.Num vendorId) "Pipe repair" "Plumbing"
    "Fixing leaking pipes" "40" None None None None None true.

Definition a_booking : InsertBooking :=
  mkInsertBooking (JS.Str oid_alice) (JS.Num 1) (Some (JS.Num 1)) 500
    "pending" None.

End MoreExamples.

(** * Properties *)

(** ** Lemmas on the containers *)

Module JsMapFacts.

Lemma remove_absent {V : Type} (m : JsMap.t V) (k : Z) :
  JsMap.get m k = None -> JsMap.remove m k = m.
Proof.
  induction m as [|[k' v] r IH]; simpl; intros H; [reflexivity|].
  destruct (k' =? k); [discriminate|].
  now rewrite IH.
Qed.

Lemma get_set_same {V : Type} (m : JsMap.t V) (k : Z) (v : V) :
  JsMap.get (JsMap.set m k v) k = Some v.
Proof.
  induction m as [|[k' v'] r IH]; simpl.
  - now rewrite Z.eqb_refl.
  - destruct (k' =? k) eqn:E; simpl.
    + now rewrite Z.eqb_refl.
    + now rewrite E.
Qed.

Lemma get_set_other {V : Type} (m : JsMap.t V) (k k0 : Z) (v : V) :
  k <> k0 -> JsMap.get (JsMap.set m k v) k0 = JsMap.get m k0.
Proof.
  intros Hne.
  induction m as [|[k' v'] r IH]; simpl.
  - destruct (k =? k0) eqn:E; [apply Z.eqb_eq in E; contradiction|reflexivity].
  - destruct (k' =? k) eqn:E; simpl.
    + apply Z.eqb_eq in E; subst k'.
      destruct (k =? k0) eqn:E'; [apply Z.eqb_eq in E'; contradiction|].
      reflexivity.
    + destruct (k' =? k0); [reflexivity|apply IH].
Qed.

End JsMapFacts.

Module DbFacts.
Import Db.

Lemma find_none_iff {A : Type} (cond : A -> bool) (l : list A) :
  find cond l = None <-> (forall x, In x l -> cond x = false).
Proof.
  split.
  - intros H x Hx. now apply (find_none cond l H).
  - induction l as [|a r IH]; simpl; intros H; [reflexivity|].
    rewrite (H a (or_introl eq_refl)). apply IH.
    intros x Hx. apply H. now right.
Qed.

Lemma findOneAndUpdate_miss {A : Type} (cond : A -> bool) (upd : A -> A)
    (l : list A) :
  find cond l = None -> findOneAndUpdate cond upd l = (None, l).
Proof.
  induction l as [|a r IH]; simpl; intros H; [reflexivity|].
  destruct (cond a); [discriminate|].
  now rewrite (IH H).
Qed.

Lemma findOneAndUpdate_hit {A : Type} (cond : A -> bool) (upd : A -> A)
    (l : list A) (x : A) :
  find cond l = Some x ->
  fst (findOneAndUpdate cond upd l) = Some (upd x).
Proof.
  induction l as [|a r IH]; simpl; intros H; [discriminate|].
  destruct (cond a).
  - now inversion H.
  - specialize (IH H). destruct (findOneAndUpdate cond upd r). exact IH.
Qed.

Lemma find_after_update {A : Type} (cond : A -> bool) (upd : A -> A)
    (l : list A) (x : A) :
  (forall a, cond (upd a) = cond a) ->
  find cond l = Some x ->
  find cond (snd (findOneAndUpdate cond upd l)) = Some (upd x).
Proof.
  intros Hc.
  induction l as [|a r IH]; simpl; intros H; [discriminate|].
  destruct (cond a) eqn:E.
  - inversion H; subst. simpl. now rewrite Hc, E.
  - specialize (IH H). destruct (findOneAndUpdate cond upd r).
    simpl in *. now rewrite E.
Qed.

Lemma find_after_update_pair {A : Type} (cond : A -> bool) (upd : A -> A)
    (l l' : list A) (res : option A) (x : A) :
  findOneAndUpdate cond upd l = (res, l') ->
  find cond l = Some x ->
  (forall a, cond (upd a) = cond a) ->
  find cond l' = Some (upd x).
Proof.
  intros U Hfind Hc.
  replace l' with (snd (findOneAndUpdate cond upd l)) by now rewrite U.
  now apply find_after_update.
Qed.

Lemma deleteOne_miss {A : Type} (cond : A -> bool) (l : list A) :
  find cond l = None -> deleteOne cond l = (0, l).
Proof.
  induction l as [|a r IH]; simpl; intros H; [reflexivity|].
  destruct (cond a); [discriminate|].
  now rewrite (IH H).
Qed.

Lemma with_Users_same (st : Store) : with_Users st (Users st) = st.
Proof. now destruct st. Qed.
Lemma with_Vendors_same (st : Store) : with_Vendors st (Vendors st) = st.
Proof. now destruct st. Qed.
Lemma with_Services_same (st : Store) : with_Services st (Services st) = st.
Proof. now destruct st. Qed.
Lemma with_Bookings_same (st : Store) : with_Bookings st (Bookings st) = st.
Proof. now destruct st. Qed.

Lemma top_from_in {A : Type} (lt : A -> A -> bool) (l : list A) :
  forall best, top_from lt best l = best \/ In (top_from lt best l) l.
Proof.
  induction l as [|x r IH]; simpl; intros best; [now left|].
  destruct (IH (if lt best x then x else best)) as [H|H].
  - rewrite H. destruct (lt best x); [right; now left|now left].
  - right; now right.
Qed.

Lemma findOne_sort_desc_some {A K : Type} (lt : K -> K -> bool)
    (key : A -> K) (l : list A) :
  l <> [] -> exists x, findOne_sort_desc lt key l = Some x /\ In x l.
Proof.
  destruct l as [|a r]; [congruence|]. intros _. simpl.
  eexists; split; [reflexivity|].
  destruct (top_from_in (fun a b => lt (key a) (key b)) r a) as [H|H].
  - rewrite H; now left.
  - now right.
Qed.

End DbFacts.

(** ** What a successful [save()] tells *)

Section SaveFacts.
Import Schema Db.
Context {D : Driver}.

Lemma save_ok {A : Type} (invalid : list string) (dup : option string)
    (written x : A) :
  MongoDBStorage.save invalid dup written = MongoDBStorage.Ok x ->
  invalid = [] /\ dup = None /\ x = written.
Proof.
  unfold MongoDBStorage.save.
  destruct invalid; [|discriminate].
  destruct dup; [discriminate|].
  intros H. inversion H. auto.
Qed.

Lemma invalid_paths_nil (checks : list (string * bool)) :
  MongoDBStorage.invalid_paths checks = [] ->
  forall p b, In (p, b) checks -> b = true.
Proof.
  unfold MongoDBStorage.invalid_paths.
  induction checks as [|[q c] r IH]; simpl; intros H p b Hin; [easy|].
  destruct c; simpl in H; [|discriminate].
  destruct Hin as [E|Hin]; [now inversion E|].
  now apply (IH H p b).
Qed.

Lemma duplicate_none {A : Type} path (key : A -> JS.value) docs v :
  MongoDBStorage.duplicate path key docs v = None <->
  (forall d, In d docs -> JS.strict_eq (key d) v = false).
Proof.
  unfold MongoDBStorage.duplicate.
  destruct (existsb _ docs) eqn:E.
  - split; [discriminate|]. intros H.
    apply existsb_exists in E. destruct E as (d & Hd & Hq).
    rewrite (H d Hd) in Hq. discriminate.
  - split; [|reflexivity]. intros _ d Hd.
    destruct (JS.strict_eq (key d) v) eqn:Q; [|reflexivity].
    assert (X : existsb (fun d0 => JS.strict_eq (key d0) v) docs = true)
      by (apply existsb_exists; now exists d).
    congruence.
Qed.

Lemma positive_number_inv (v : JS.value) :
  MongoDBStorage.positive_number v = true -> exists n, v = JS.Num n /\ 0 < n.
Proof.
  destruct v as [|n| | |]; try discriminate. simpl. intros H.
  exists n. split; [reflexivity|]. now apply Z.ltb_lt.
Qed.

(** What a successful [createService] did: it appended one document,
    whose id is a positive number no stored service holds. *)
Lemma createService_ok st now insertService service st' :
  MongoDBStorage.createService st now insertService
  = MongoDBStorage.Ok (service, st') ->
  exists stored n,
    st' = with_Services st (Services st ++ [stored])%list
    /\ service = MongoDBStorage.mongoServiceToService now stored
    /\ service_id stored = JS.Num n /\ 0 < n
    /\ MongoDBStorage.castNumber
         (MongoDBStorage.next_id_unguarded
            (option_map service_id
               (findOne_sort_desc sort_lt service_id (Services st))))
       = JS.Num n
    /\ (forall s, In s (Services st) ->
                  JS.strict_eq (service_id s) (JS.Num n) = false)
    /\ service_vendorId stored
       = MongoDBStorage.Number (is_vendorId insertService)
    /\ MongoDBStorage.positive_number (service_vendorId stored) = true
    /\ service_name stored = is_name insertService.
Proof.
  unfold MongoDBStorage.createService.
  destruct (MongoDBStorage.isNaN (is_vendorId insertService));
    [discriminate|].
  intros H. apply save_ok in H. destruct H as (Hv & Hd & Hx).
  pose proof (invalid_paths_nil _ Hv) as Hc.
  destruct (positive_number_inv _ (Hc "id" _ ltac:(simpl; tauto)))
    as (n & Hn & Hpos).
  rewrite Hn in Hd. pose proof (proj1 (duplicate_none _ _ _ _) Hd) as Hu.
  inversion Hx; subst. eexists. exists n.
  refine (conj eq_refl (conj eq_refl (conj Hn (conj Hpos (conj Hn
           (conj Hu (conj eq_refl (conj _ eq_refl)))))))).
  exact (Hc "vendorId" _ ltac:(simpl; tauto)).
Qed.

(** What a successful [createVendor] did. *)
Lemma createVendor_ok st oid insertVendor vendor st' :
  MongoDBStorage.createVendor st oid insertVendor
  = MongoDBStorage.Ok (vendor, st') ->
  exists user stored n,
    fst (MongoDBStorage.createVendor_resolve (Users st)
           (iv_userId insertVendor)) = Some user
    /\ st' = with_Vendors st (Vendors st ++ [stored])%list
    /\ vendor = MongoDBStorage.mongoVendorToVendor None stored
    /\ vd_id stored = JS.Num n /\ 0 < n
    /\ MongoDBStorage.next_id_guarded
         (option_map vd_id (findOne_sort_desc sort_lt vd_id (Vendors st)))
       = JS.Num n
    /\ (forall v, In v (Vendors st) ->
                  JS.strict_eq (vd_id v) (JS.Num n) = false)
    /\ vd__id stored = oid
    /\ vd_userId stored = JS.Oid (ud__id user)
    /\ vd_businessName stored = iv_businessName insertVendor
    /\ vd_category stored = iv_category insertVendor
    /\ vd_description stored = iv_description insertVendor
    /\ vd_rating stored = 0 /\ vd_reviewCount stored = 0.
Proof.
  unfold MongoDBStorage.createVendor.
  destruct (fst (MongoDBStorage.createVendor_resolve (Users st)
                   (iv_userId insertVendor))) as [user|]; [|discriminate].
  intros H. apply save_ok in H. destruct H as (Hv & Hd & Hx).
  pose proof (invalid_paths_nil _ Hv) as Hc.
  destruct (positive_number_inv _ (Hc "id" _ ltac:(simpl; tauto)))
    as (n & Hn & Hpos).
  rewrite Hn in Hd. pose proof (proj1 (duplicate_none _ _ _ _) Hd) as Hu.
  assert (Hg : MongoDBStorage.next_id_guarded
                 (option_map vd_id
                    (findOne_sort_desc sort_lt vd_id (Vendors st)))
               = JS.Num n).
  { revert Hn. generalize (option_map vd_id
                             (findOne_sort_desc sort_lt vd_id (Vendors st))).
    intros last. unfold MongoDBStorage.next_id_guarded.
    destruct last as [lastId|]; [|exact (fun H => H)].
    destruct (negb (MongoDBStorage.isNaN lastId)); [|exact (fun H => H)].
    unfold MongoDBStorage.Number.
    destruct (JS.to_number string_to_number lastId); exact (fun H => H). }
  inversion Hx; subst. exists user. eexists. exists n.
  refine (conj eq_refl (conj eq_refl (conj eq_refl (conj Hn (conj Hpos
           (conj Hg (conj Hu _))))))).
  cbn. repeat split.
Qed.

(** What a successful [createUser] did: the document it appended has the
    given [_id] and no [id] field. *)
Lemma createUser_ok st oid now insertUser user st' :
  MongoDBStorage.createUser st oid now insertUser
  = MongoDBStorage.Ok (user, st') ->
  exists doc,
    st' = with_Users st (Users st ++ [doc])%list
    /\ user = MongoDBStorage.mongoUserToUser now doc
    /\ ud__id doc = oid
    /\ ud_id doc = JS.Undefined
    /\ ud_name doc = iu_name insertUser
    /\ ud_email doc = iu_email insertUser
    /\ ud_role doc = iu_role insertUser.
Proof.
  unfold MongoDBStorage.createUser. intros H.
  apply save_ok in H. destruct H as (_ & _ & Hx).
  inversion Hx; subst. eexists.
  refine (conj eq_refl (conj eq_refl (conj eq_refl (conj eq_refl
           (conj eq_refl (conj eq_refl eq_refl)))))).
Qed.

(** What a successful [createBooking] did. *)
Lemma createBooking_ok st insertBooking booking st' :
  MongoDBStorage.createBooking st insertBooking
  = MongoDBStorage.Ok (booking, st') ->
  exists stored n h,
    st' = with_Bookings st (Bookings st ++ [stored])%list
    /\ booking = MongoDBStorage.mongoBookingToBooking stored
    /\ booking_id stored = JS.Num n /\ 0 < n
    /\ MongoDBStorage.castNumber
         (MongoDBStorage.next_id_unguarded
            (option_map booking_id
               (findOne_sort_desc sort_lt booking_id (Bookings st))))
       = JS.Num n
    /\ (forall b, In b (Bookings st) ->
                  JS.strict_eq (booking_id b) (JS.Num n) = false)
    /\ castObjectId (ib_userId insertBooking) = Some h
    /\ booking_userId stored = JS.Oid h
    /\ booking_vendorId stored
       = MongoDBStorage.Number (ib_vendorId insertBooking)
    /\ booking_status stored = ib_status insertBooking.
Proof.
  unfold MongoDBStorage.createBooking.
  destruct (MongoDBStorage.isNaN (ib_vendorId insertBooking));
    [discriminate|].
  assert (Hsave :
            forall serviceId,
              MongoDBStorage.save
                (MongoDBStorage.invalid_paths
                   [("userId",
                     match castObjectId (ib_userId insertBooking) with
                     | Some _ => true
                     | None => false
                     end);
                    ("vendorId",
                     MongoDBStorage.positive_number
                       (MongoDBStorage.Number (ib_vendorId insertBooking)));
                    ("serviceId",
                     match serviceId with
                     | Some s => MongoDBStorage.positive_number s
                     | None => false
                     end);
                    ("status",
                     MongoDBStorage.one_of MongoDBStorage.booking_status_enum
                       (ib_status insertBooking));
                    ("id",
                     MongoDBStorage.positive_number
                       (MongoDBStorage.castNumber
                          (MongoDBStorage.next_id_unguarded
                             (option_map booking_id
                                (findOne_sort_desc sort_lt booking_id
                                   (Bookings st))))))])
                (MongoDBStorage.duplicate "id" booking_id (Bookings st)
                   (MongoDBStorage.castNumber
                      (MongoDBStorage.next_id_unguarded
                         (option_map booking_id
                            (findOne_sort_desc sort_lt booking_id
                               (Bookings st))))))
                (MongoDBStorage.mongoBookingToBooking
                   (mkBooking
                      (MongoDBStorage.castNumber
                         (MongoDBStorage.next_id_unguarded
                            (option_map booking_id
                               (findOne_sort_desc sort_lt booking_id
                                  (Bookings st)))))
                      (match castObjectId (ib_userId insertBooking) with
                       | Some h => JS.Oid h
                       | None => JS.Undefined
                       end)
                      (MongoDBStorage.Number (ib_vendorId insertBooking))
                      serviceId (ib_date insertBooking)
                      (ib_status insertBooking) (ib_notes insertBooking)),
                 with_Bookings st
                   (Bookings st
                    ++ [mkBooking
                          (MongoDBStorage.castNumber
                             (MongoDBStorage.next_id_unguarded
                                (option_map booking_id
                                   (findOne_sort_desc sort_lt booking_id
                                      (Bookings st)))))
                          (match castObjectId (ib_userId insertBooking) with
                           | Some h => JS.Oid h
                           | None => JS.Undefined
                           end)
                          (MongoDBStorage.Number (ib_vendorId insertBooking))
                          serviceId (ib_date insertBooking)
                          (ib_status insertBooking)
                          (ib_notes insertBooking)])%list)
              = MongoDBStorage.Ok (booking, st') ->
              exists stored n h,
                st' = with_Bookings st (Bookings st ++ [stored])%list
                /\ booking = MongoDBStorage.mongoBookingToBooking stored
                /\ booking_id stored = JS.Num n /\ 0 < n
                /\ MongoDBStorage.castNumber
                     (MongoDBStorage.next_id_unguarded
                        (option_map booking_id
                           (findOne_sort_desc sort_lt booking_id
                              (Bookings st))))
                   = JS.Num n
                /\ (forall b, In b (Bookings st) ->
                              JS.strict_eq (booking_id b) (JS.Num n) = false)
                /\ castObjectId (ib_userId insertBooking) = Some h
                /\ booking_userId stored = JS.Oid h
                /\ booking_vendorId stored
                   = MongoDBStorage.Number (ib_vendorId insertBooking)
                /\ booking_status stored = ib_status insertBooking).
  { intros serviceId H. apply save_ok in H. destruct H as (Hv & Hd & Hx).
    pose proof (invalid_paths_nil _ Hv) as Hc.
    destruct (positive_number_inv _ (Hc "id" _ ltac:(simpl; tauto)))
      as (n & Hn & Hpos).
    rewrite Hn in Hd. pose proof (proj1 (duplicate_none _ _ _ _) Hd) as Hu.
    pose proof (Hc "userId" _ ltac:(simpl; tauto)) as Huser.
    destruct (castObjectId (ib_userId insertBooking)) as [h|];
      [|discriminate].
    inversion Hx; subst. eexists. exists n, h.
    refine (conj eq_refl (conj eq_refl (conj Hn (conj Hpos (conj Hn
             (conj Hu (conj eq_refl (conj eq_refl
               (conj eq_refl eq_refl))))))))). }
  destruct (ib_serviceId insertBooking) as [s|]; [|exact (Hsave None)].
  destruct (JS.truthy s); [|exact (Hsave None)].
  destruct (MongoDBStorage.isNaN s); [discriminate|].
  exact (Hsave (Some (MongoDBStorage.Number s))).
Qed.

(** What a successful [createReview] did: the author was cast to an
    ObjectId, one review was appended under a positive id no stored review
    holds, and the vendor the review names, when there is one, had its
    aggregates set from the reviews read back. *)
Lemma createReview_ok st now r review st' :
  MongoDBStorage.createReview st now r = MongoDBStorage.Ok (review, st') ->
  exists h n,
    castObjectId (ir_userId r) = Some h
    /\ 0 < n
    /\ MongoDBStorage.castNumber
         (MongoDBStorage.next_id_unguarded
            (option_map review_id
               (findOne_sort_desc sort_lt review_id (Reviews st))))
       = JS.Num n
    /\ (forall x, In x (Reviews st) ->
                  JS.strict_eq (review_id x) (JS.Num n) = false)
    /\ MongoDBStorage.positive_number
         (MongoDBStorage.Number (ir_vendorId r)) = true
    /\ let vendorId := MongoDBStorage.Number (ir_vendorId r) in
       let stored :=
         mkReview (JS.Num n) (JS.Oid h) vendorId (ir_rating r)
           (ir_comment r) now in
       let st1 := with_Reviews st (Reviews st ++ [stored])%list in
       let vendorReviews :=
         MongoDBStorage.getReviewsByVendorId st1 now vendorId in
       let reviewCount := Z.of_nat (List.length vendorReviews) + 1 in
       let totalRating :=
         sum_ratings (fun p => review_rating (fst p)) vendorReviews
         + ir_rating r in
       review = MongoDBStorage.mongoReviewToReview stored
       /\ st' = match find (fun v => query_eq (vd_id v) vendorId)
                           (Vendors st) with
                | Some _ =>
                    with_Vendors st1
                      (snd (findOneAndUpdate
                              (fun v => query_eq (vd_id v) vendorId)
                              (MongoDBStorage.set_aggregates
                                 (JS.round_div totalRating reviewCount)
                                 reviewCount)
                              (Vendors st)))
                | None => st1
                end.
Proof.
  unfold MongoDBStorage.createReview.
  destruct (MongoDBStorage.isNaN (ir_vendorId r)); [discriminate|].
  destruct (castObjectId (ir_userId r)) as [h|]; [|discriminate].
  destruct (MongoDBStorage.save _ _ _) as [st1|e] eqn:S; [|discriminate].
  apply save_ok in S. destruct S as (Hv & Hd & Hx).
  pose proof (invalid_paths_nil _ Hv) as Hc.
  destruct (positive_number_inv _ (Hc "id" _ ltac:(simpl; tauto)))
    as (n & Hn & Hpos).
  rewrite Hn in Hd. pose proof (proj1 (duplicate_none _ _ _ _) Hd) as Hu.
  pose proof (Hc "vendorId" _ ltac:(simpl; tauto)) as Hvendor.
  subst st1. intros H. rewrite Hn in H. cbn [Vendors with_Reviews] in H.
  exists h, n.
  refine (conj eq_refl (conj Hpos (conj Hn (conj Hu (conj Hvendor _))))).
  cbv zeta.
  destruct (find _ (Vendors st)).
  - destruct (findOneAndUpdate _ _ (Vendors st)) as [res vs].
    inversion H. split; reflexivity.
  - inversion H. split; reflexivity.
Qed.

End SaveFacts.

(** ** Updates and deletes of an entity that does not exist *)

Section MissingEntity.
Import Schema Db.
Context {D : Driver}.

(** C9.  An update or a delete whose id matches no stored entity returns
    the empty result ([undefined], here [None]) or [false], and the store
    it returns is the store it was given; this holds for [updateUser],
    [updateVendor], [updateService], [updateBookingStatus] and
    [deleteService], in both implementations.  The operations are total
    functions: none of them raises. *)
Theorem C9_missing_entity_returns_empty :
  (forall mem k userData,
      JsMap.get (MemStorage.users mem) k = None ->
      MemStorage.updateUser mem k userData = (None, mem))
  /\ (forall mem k vendorData,
      JsMap.get (MemStorage.vendors mem) k = None ->
      MemStorage.updateVendor mem k vendorData = (None, mem))
  /\ (forall mem k serviceData,
      JsMap.get (MemStorage.services mem) k = None ->
      MemStorage.updateService mem k serviceData = (None, mem))
  /\ (forall mem k status,
      JsMap.get (MemStorage.bookings mem) k = None ->
      MemStorage.updateBookingStatus mem k status = (None, mem))
  /\ (forall mem k,
      JsMap.get (MemStorage.services mem) k = None ->
      MemStorage.deleteService mem k = (false, mem))
  /\ (forall st now id userData,
      (forall u, In u (Users st) -> query_eq (ud_id u) id = false) ->
      MongoDBStorage.updateUser st now id userData = (None, st))
  /\ (forall st id vendorData,
      (forall v, In v (Vendors st) -> query_eq (vd_id v) id = false) ->
      MongoDBStorage.updateVendor st id vendorData = (None, st))
  /\ (forall st now id serviceData,
      (forall s, In s (Services st) -> query_eq (service_id s) id = false) ->
      MongoDBStorage.updateService st now id serviceData = (None, st))
  /\ (forall st id status,
      (forall b, In b (Bookings st) -> query_eq (booking_id b) id = false) ->
      MongoDBStorage.updateBookingStatus st id status = (None, st))
  /\ (forall st id,
      (forall s, In s (Services st) -> query_eq (service_id s) id = false) ->
      MongoDBStorage.deleteService st id = (false, st)).
Proof.
  repeat split.
  - intros mem k p H. unfold MemStorage.updateUser. now rewrite H.
  - intros mem k p H. unfold MemStorage.updateVendor. now rewrite H.
  - intros mem k p H. unfold MemStorage.updateService. now rewrite H.
  - intros mem k s H. unfold MemStorage.updateBookingStatus. now rewrite H.
  - intros mem k H. unfold MemStorage.deleteService, JsMap.delete, JsMap.has.
    rewrite H, (JsMapFacts.remove_absent _ _ H). now destruct mem.
  - intros st now id p H. apply DbFacts.find_none_iff in H.
    unfold MongoDBStorage.updateUser.
    rewrite (DbFacts.findOneAndUpdate_miss _ _ _ H). simpl.
    now rewrite DbFacts.with_Users_same.
  - intros st id p H. apply DbFacts.find_none_iff in H.
    unfold MongoDBStorage.updateVendor.
    rewrite (DbFacts.findOneAndUpdate_miss _ _ _ H). simpl.
    now rewrite DbFacts.with_Vendors_same.
  - intros st now id p H. apply DbFacts.find_none_iff in H.
    unfold MongoDBStorage.updateService.
    rewrite (DbFacts.findOneAndUpdate_miss _ _ _ H). simpl.
    now rewrite DbFacts.with_Services_same.
  - intros st id s H. apply DbFacts.find_none_iff in H.
    unfold MongoDBStorage.updateBookingStatus.
    rewrite (DbFacts.findOneAndUpdate_miss _ _ _ H). simpl.
    now rewrite DbFacts.with_Bookings_same.
  - intros st id H. apply DbFacts.find_none_iff in H.
    unfold MongoDBStorage.deleteService.
    rewrite (DbFacts.deleteOne_miss _ _ H). simpl.
    now rewrite DbFacts.with_Services_same.
Qed.

End MissingEntity.

Section MissingEntityAtSeven.
Import Schema Db Examples.
#[local] Existing Instance Reference.driver.

Lemma C9_missing_entity_returns_empty_witness :
  MemStorage.updateVendor mem_vendor 7
    (mkPartialVendor None (Some "Renamed") None None None None None)
  = (None, mem_vendor)
  /\ MemStorage.deleteService mem_vendor 7 = (false, mem_vendor)
  /\ MongoDBStorage.updateVendor db_vendor (JS.Num 7)
       (mkPartialVendor None (Some "Renamed") None None None None None)
     = (None, db_vendor)
  /\ MongoDBStorage.updateBookingStatus db_vendor (JS.Num 7) "completed"
     = (None, db_vendor)
  /\ MongoDBStorage.deleteService db_vendor (JS.Num 7) = (false, db_vendor).
Proof.
  destruct (C9_missing_entity_returns_empty (D := Reference.driver))
    as [_ [Hmv [_ [_ [Hmd [_ [Hdv [_ [Hdb Hdd]]]]]]]]].
  refine (conj _ (conj _ (conj _ (conj _ _)))).
  - apply Hmv. reflexivity.
  - apply Hmd. reflexivity.
  - apply Hdv. intros v [<-|[]]. reflexivity.
  - apply Hdb. intros b [].
  - apply Hdd. intros x [].
Defined.

End MissingEntityAtSeven.

(** ** [getVendorByUserId] substitutes no vendor *)

Section NoVendorFallback.
Import Schema Db Statements.
Context {D : Driver}.

Lemma find_orb_none {A : Type} (f g : A -> bool) (l : list A) :
  find (fun x => f x || g x) l = None <->
  find f l = None /\ find g l = None.
Proof.
  rewrite !DbFacts.find_none_iff. split.
  - intros H; split; intros x Hx; specialize (H x Hx);
      apply orb_false_iff in H; tauto.
  - intros [Hf Hg] x Hx. now rewrite (Hf x Hx), (Hg x Hx).
Qed.

Lemma find_false_guard {A : Type} (f : A -> bool) (l : list A) :
  find (fun x => false && f x) l = None.
Proof. apply DbFacts.find_none_iff. reflexivity. Qed.

Lemma find_true_guard {A : Type} (f : A -> bool) (l : list A) :
  find (fun x => true && f x) l = find f l.
Proof. reflexivity. Qed.

Lemma find_const_false {A : Type} (l : list A) :
  find (fun _ : A => false) l = None.
Proof. apply DbFacts.find_none_iff. reflexivity. Qed.

Lemma getVendorByUserId_none_iff (st : Store) (userId : JS.value) :
  MongoDBStorage.getVendorByUserId st userId = None <->
  (forall v, In v (Vendors st) -> vendor_matches st userId v = false).
Proof.
  rewrite <- DbFacts.find_none_iff.
  unfold vendor_matches.
  rewrite !find_orb_none.
  unfold MongoDBStorage.getVendorByUserId, numeric_reading, oid_shaped.
  set (shaped := match userId with
                 | JS.Str s => JS.length s =? 24
                 | _ => false
                 end).
  destruct shaped.
  - (* an ObjectId-shaped string: strategies 1 and 3 *)
    simpl JS.truthy. cbv iota.
    rewrite !find_false_guard, !find_true_guard.
    destruct (find (fun v => query_eq (vd_userId v) userId) (Vendors st))
      as [v1|] eqn:F1.
    + split; [discriminate|]. intros [[[H _] _] _]. discriminate.
    + destruct (MongoDBStorage.run (Users st) (MongoDBStorage.ById userId))
        as [u|] eqn:R.
      * destruct (find (fun v => query_eq (vd_userId v) (JS.Oid (ud__id u)))
                    (Vendors st)) as [v3|] eqn:F3.
        -- split; [discriminate|]. intros [[_ H] _]. discriminate.
        -- tauto.
      * rewrite find_const_false. tauto.
  - (* any other reference: strategies 2 and 4 *)
    rewrite !find_false_guard.
    set (numericId :=
           if JS.is_number userId || negb (MongoDBStorage.isNaN userId)
           then MongoDBStorage.Number userId else JS.Undefined).
    destruct (JS.truthy numericId) eqn:T.
    + rewrite !find_true_guard.
      destruct (MongoDBStorage.run (Users st)
                  (MongoDBStorage.ByIdField numericId)) as [u|] eqn:R.
      * destruct (find (fun v => query_eq (vd_userId v) (JS.Oid (ud__id u)))
                    (Vendors st)) as [v2|] eqn:F2.
        -- split; [discriminate|]. intros [[[_ H] _] _]. discriminate.
        -- destruct (find (fun v => query_eq (vd_userId v) numericId)
                       (Vendors st)) as [v4|] eqn:F4.
           ++ split; [discriminate|]. intros [_ H]. discriminate.
           ++ tauto.
      * rewrite find_const_false.
        destruct (find (fun v => query_eq (vd_userId v) numericId)
                    (Vendors st)) as [v4|] eqn:F4.
        -- split; [discriminate|]. intros [_ H]. discriminate.
        -- tauto.
    + rewrite !find_false_guard. tauto.
Qed.

Lemma createService_keeps_Vendors (st st' : Store) (now : Z)
    (insertService : InsertService) (service : Service) :
  MongoDBStorage.createService st now insertService
  = MongoDBStorage.Ok (service, st') ->
  Vendors st' = Vendors st.
Proof.
  intros H. destruct (createService_ok _ _ _ _ _ H) as (stored & n & -> & _).
  reflexivity.
Qed.

(** C10.  When no vendor record matches the user-reference by any of its
    lookup strategies, [getVendorByUserId] returns not-found, whatever
    other vendors and users the store holds: no vendor is substituted.
    It is a read: it returns no store.  In the service route this
    not-found result, and only it, leads to the provisioning of a vendor:
    with a vendor found the [Vendor] collection is left as it was, and
    with none found (and the vendor role) the collection becomes the one
    [createVendor] returns for the default profile.  The in-memory
    implementation likewise returns not-found when no vendor holds the
    reference. *)
Theorem C10_getVendorByUserId_has_no_fallback :
  forall (st : Store) (userId : JS.value),
    (forall v, In v (Vendors st) -> vendor_matches st userId v = false) ->
    MongoDBStorage.getVendorByUserId st userId = None
    /\ (forall mem,
           (forall v, In v (JsMap.values (MemStorage.vendors mem)) ->
                      JS.strict_eq (vendor_userId v) userId = false) ->
           MemStorage.getVendorByUserId mem userId = None)
    /\ (forall oid now req_user body newVendor st1,
           Routes.prop req_user "id" = userId ->
           Routes.prop req_user "role" = JS.Str "vendor" ->
           MongoDBStorage.createVendor st oid (Routes.default_vendor req_user)
           = MongoDBStorage.Ok (newVendor, st1) ->
           Vendors (snd (Routes.post_services st oid now req_user body))
           = Vendors st1)
    /\ (forall st0 oid now req_user body found,
           MongoDBStorage.getVendorByUserId st0 (Routes.prop req_user "id")
           = Some found ->
           Vendors (snd (Routes.post_services st0 oid now req_user body))
           = Vendors st0).
Proof.
  intros st userId Hnone.
  apply getVendorByUserId_none_iff in Hnone.
  split; [exact Hnone|]. split; [|split].
  - intros mem H. unfold MemStorage.getVendorByUserId.
    now apply DbFacts.find_none_iff.
  - intros oid now req_user body newVendor st1 Hid Hrole Hcreate.
    unfold Routes.post_services.
    rewrite Hrole, Hid, Hnone. simpl JS.strict_eq. simpl negb. cbv iota.
    rewrite Hcreate.
    destruct (Routes.parse_service body _) as [serviceData|];
      [|reflexivity].
    destruct (MongoDBStorage.createService st1 now serviceData)
      as [[service st2]|e] eqn:Hs; [|reflexivity].
    simpl. now apply createService_keeps_Vendors in Hs.
  - intros st0 oid now req_user body found Hfound.
    unfold Routes.post_services.
    destruct (negb _); [reflexivity|].
    rewrite Hfound.
    destruct (Routes.parse_service body _) as [serviceData|];
      [|reflexivity].
    destruct (negb _); [reflexivity|].
    destruct (MongoDBStorage.createService st0 now serviceData)
      as [[service st2]|e] eqn:Hs; [|reflexivity].
    simpl. now apply createService_keeps_Vendors in Hs.
Qed.

End NoVendorFallback.

Section NoVendorFallbackForBobby.
Import Schema Db Examples Statements.
#[local] Existing Instance Reference.driver.

Lemma C10_getVendorByUserId_has_no_fallback_witness :
  map vd_businessName (Vendors db_bobby_without_vendor) = ["Acme Repairs"]
  /\ MongoDBStorage.getVendorByUserId db_bobby_without_vendor
       (JS.Str oid_bobby)
     = None
  /\ Vendors (snd (Routes.post_services db_bobby_without_vendor oid_v2 300
                     bobby_principal pipes))
     = Vendors (after (MongoDBStorage.createVendor db_bobby_without_vendor
                         oid_v2 (Routes.default_vendor bobby_principal))
                      db_bobby_without_vendor).
Proof.
  assert (Hnone : forall v, In v (Vendors db_bobby_without_vendor) ->
                            vendor_matches db_bobby_without_vendor
                              (JS.Str oid_bobby) v
                            = false).
  { intros v [<-|[]]. reflexivity. }
  destruct (C10_getVendorByUserId_has_no_fallback db_bobby_without_vendor
              (JS.Str oid_bobby) Hnone) as [Hget [_ [Hroute _]]].
  split; [reflexivity|]. split; [exact Hget|].
  destruct (MongoDBStorage.createVendor db_bobby_without_vendor oid_v2
              (Routes.default_vendor bobby_principal))
    as [[newVendor st1]|e] eqn:Hcreate; [|discriminate].
  apply (Hroute oid_v2 300 bobby_principal pipes newVendor st1);
    [reflexivity|reflexivity|exact Hcreate].
Defined.

End NoVendorFallbackForBobby.

(** ** Review aggregates *)

Section Aggregates.
Import Schema Db Examples Statements.
#[local] Existing Instance Reference.driver.

Lemma sum_ratings_map {A : Type} (f : A -> Z) (l : list A) :
  sum_ratings f l = sum_ratings (fun x => x) (map f l).
Proof.
  unfold sum_ratings. generalize 0.
  induction l as [|a r IH]; simpl; intros z; [reflexivity|apply IH].
Qed.

Lemma values_set_fresh {V : Type} (m : JsMap.t V) (k : Z) (v : V) :
  JsMap.get m k = None ->
  JsMap.values (JsMap.set m k v) = (JsMap.values m ++ [v])%list.
Proof.
  induction m as [|[k' v'] r IH]; simpl; intros H; [reflexivity|].
  destruct (k' =? k); [discriminate|].
  simpl. now rewrite (IH H).
Qed.

Lemma mem_join_authors_app us l1 l2 :
  MemStorage.join_authors us (l1 ++ l2)
  = (MemStorage.join_authors us l1 ++ MemStorage.join_authors us l2)%list.
Proof.
  induction l1 as [|a r IH]; simpl; [reflexivity|].
  destruct (JsMap.get_value us (review_userId a)); simpl; now rewrite IH.
Qed.

Lemma fold_left_shift {A : Type} (f : A -> Z) (l : list A) :
  forall z,
    fold_left (fun sum r => sum + f r) l z
    = z + fold_left (fun sum r => sum + f r) l 0.
Proof.
  induction l as [|a r IH]; simpl; intros z; [lia|].
  rewrite (IH (z + f a)), (IH (f a)). lia.
Qed.

Lemma sum_ratings_app {A : Type} (f : A -> Z) (l1 l2 : list A) :
  sum_ratings f (l1 ++ l2) = sum_ratings f l1 + sum_ratings f l2.
Proof.
  unfold sum_ratings. rewrite fold_left_app.
  apply fold_left_shift.
Qed.

(** In general, in memory: a review by a known user for an existing vendor,
    stored under a fresh review id, is counted twice.  With [n] reviews of
    total [t] visible before the call, the vendor ends with review count
    [n + 2] and rating [round((t + 2 * rating) / (n + 2))]. *)
Lemma mem_createReview_counts_twice mem now r k vendor author :
  ir_vendorId r = JS.Num k ->
  JsMap.get (MemStorage.vendors mem) k = Some vendor ->
  JsMap.get_value (MemStorage.users mem) (ir_userId r) = Some author ->
  JsMap.get (MemStorage.reviews mem) (MemStorage.reviewIdCounter mem) = None ->
  let before := mem_visible_ratings mem (JS.Num k) in
  mem_aggregates (snd (MemStorage.createReview mem now r)) k
  = Some (JS.round_div (sum_ratings (fun x => x) before + 2 * ir_rating r)
                       (Z.of_nat (List.length before) + 2),
          Z.of_nat (List.length before) + 2).
Proof.
  intros Hv Hvendor Hauthor Hfresh before.
  unfold MemStorage.createReview.
  rewrite Hv. cbn [JsMap.get_value MemStorage.vendors MemStorage.set_reviews].
  rewrite Hvendor. cbn zeta. cbn [snd].
  unfold mem_aggregates.
  cbn [MemStorage.vendors MemStorage.set_vendors].
  rewrite JsMapFacts.get_set_same.
  cbn [option_map vendor_rating vendor_reviewCount with_aggregates].
  unfold MemStorage.getReviewsByVendorId.
  cbn [MemStorage.users MemStorage.reviews MemStorage.set_reviews].
  rewrite (values_set_fresh _ _ _ Hfresh), filter_app.
  cbn [filter review_vendorId JS.strict_eq]. rewrite Z.eqb_refl.
  rewrite mem_join_authors_app.
  cbn [MemStorage.join_authors review_userId]. rewrite Hauthor.
  rewrite length_app, sum_ratings_app.
  cbn [List.length]. unfold sum_ratings at 2. cbn [fold_left fst review_rating].
  subst before. unfold mem_visible_ratings, MemStorage.getReviewsByVendorId.
  rewrite length_map, <- sum_ratings_map.
  f_equal. f_equal; [f_equal; lia|lia].
Qed.

(** C1, at the scenario of the specification: a vendor with no review
    receives a review of rating 5 and then one of rating 1.
    In memory, both by the registered user 1: [createReview] stores the
    review, reads the vendor's reviews back (the new one among them) and
    then counts the new review once more; the vendor ends the first call
    with rating 5 and review count 2, not 1, and the second with rating
    [round((5 + 1 + 1) / 3) = 2] and review count 3, not rating 3 and
    count 2.
    In the document store, the review by the user id 1 that the schema
    types is refused: the [userId] path is an ObjectId, and the save
    raises.  With the author given by her [_id] string the reviews are
    stored, but the read-back joins each review with the user whose [id]
    field equals the review's ObjectId, and no user has such a field: no
    stored review is counted, and the vendor ends each call with the
    rating of the last review and review count 1, 5 and 1 and then 1 and
    1. *)
Theorem C1_createReview_miscounts_reviews :
  mem_aggregates mem_vendor 1 = Some (0, 0)
  /\ mem_aggregates mem_review1 1 = Some (5, 2)
  /\ mem_aggregates mem_review2 1 = Some (2, 3)
  /\ db_aggregates db_vendor (JS.Num 1) = Some (0, 0)
  /\ MongoDBStorage.createReview db_vendor 101 five_stars
     = MongoDBStorage.Throw (MongoDBStorage.ValidationError ["userId"])
  /\ map review_rating (Reviews db_review1) = [5]
  /\ db_aggregates db_review1 (JS.Num 1) = Some (5, 1)
  /\ map review_rating (Reviews db_review2) = [5; 1]
  /\ MongoDBStorage.getReviewsByVendorId db_review2 103 (JS.Num 1) = []
  /\ db_aggregates db_review2 (JS.Num 1) = Some (1, 1).
Proof. repeat split; vm_compute; reflexivity. Qed.

End Aggregates.

(** ** The identifier allocator *)

Section Allocator.
Import Schema Db Examples.
Context {D : Driver}.

Lemma top_from_numeric {A : Type} (key : A -> JS.value) (l : list A) :
  forall best b,
    key best = JS.Num b ->
    (forall x, In x l -> exists n, key x = JS.Num n) ->
    exists K,
      key (top_from (fun a c => sort_lt (key a) (key c)) best l) = JS.Num K
      /\ b <= K
      /\ (forall x n, In x l -> key x = JS.Num n -> n <= K).
Proof.
  induction l as [|x r IH]; simpl; intros best b Hb Hall.
  - exists b. repeat split; [exact Hb|lia|contradiction].
  - destruct (Hall x (or_introl eq_refl)) as [n Hn].
    rewrite Hb, Hn. simpl.
    destruct (b <? n) eqn:E.
    + apply Z.ltb_lt in E.
      destruct (IH x n Hn (fun y Hy => Hall y (or_intror Hy)))
        as [K [HK [Hle Hmax]]].
      exists K. repeat split; [exact HK|lia|].
      intros y m [->|Hy] Hm; [|now apply (Hmax y)].
      rewrite Hn in Hm. inversion Hm; subst. exact Hle.
    + apply Z.ltb_ge in E.
      destruct (IH best b Hb (fun y Hy => Hall y (or_intror Hy)))
        as [K [HK [Hle Hmax]]].
      exists K. repeat split; [exact HK|exact Hle|].
      intros y m [->|Hy] Hm; [|now apply (Hmax y)].
      rewrite Hn in Hm. inversion Hm; subst. lia.
Qed.

Lemma to_double_exact (z : Z) :
  Z.abs z <= 9007199254740992 -> JS.to_double z = z.
Proof.
  intros H. unfold JS.to_double.
  destruct (Z.abs z <=? 9007199254740992) eqn:E; [reflexivity|].
  apply Z.leb_gt in E. lia.
Qed.

(** With numeric ids on every document, the greatest id [K] is found
    whatever the order of the documents, and both forms of the allocator
    compute [K + 1] (as a double: [K + 1] itself up to [2^53]); on an
    empty collection both compute [1]. *)
Lemma next_id_of_numeric_ids {A : Type} (key : A -> JS.value)
    (l : list A) :
  l <> [] ->
  (forall x, In x l -> exists n, key x = JS.Num n) ->
  exists K,
    (forall x n, In x l -> key x = JS.Num n -> n <= K)
    /\ (exists x, In x l /\ key x = JS.Num K)
    /\ MongoDBStorage.next_id_unguarded
         (option_map key (findOne_sort_desc sort_lt key l))
       = JS.Num (JS.to_double (K + 1))
    /\ MongoDBStorage.next_id_guarded
         (option_map key (findOne_sort_desc sort_lt key l))
       = JS.Num (JS.to_double (K + 1)).
Proof.
  destruct l as [|a r]; [congruence|]. intros _ Hall.
  destruct (Hall a (or_introl eq_refl)) as [b Hb].
  destruct (top_from_numeric key r a b Hb
              (fun y Hy => Hall y (or_intror Hy))) as [K [HK [Hle Hmax]]].
  exists K. split; [|split; [|split]].
  - intros x n [->|Hx] Hn; [|now apply (Hmax x)].
    rewrite Hb in Hn. inversion Hn; subst. exact Hle.
  - exists (top_from (fun a c => sort_lt (key a) (key c)) a r).
    split; [|exact HK].
    destruct (DbFacts.top_from_in
                (fun a c => sort_lt (key a) (key c)) r a) as [H|H].
    + rewrite H. now left.
    + now right.
  - simpl. now rewrite HK.
  - simpl. unfold MongoDBStorage.isNaN, MongoDBStorage.Number.
    rewrite HK. reflexivity.
Qed.

Lemma next_id_of_empty :
  MongoDBStorage.next_id_unguarded None = JS.Num 1
  /\ MongoDBStorage.next_id_guarded None = JS.Num 1.
Proof. split; reflexivity. Qed.

End Allocator.

Section AllocatorAtLostIds.
Import Schema Db Examples.
#[local] Existing Instance Reference.driver.

(** C4.  The five creation operations do not allocate alike.
    [createUser] issues no integer id at all: the id it computes is no
    path of the user schema, the document is stored without it, and the
    user returned carries the [_id] string as its id, on an empty
    collection as on any other.
    At a store whose collections each hold one document that has lost its
    [id]: [createVendor] converts the greatest id with [Number] and falls
    back to [1] when it is not a number; [createService], [createBooking]
    and [createReview] compute [last.id + 1] unguarded, which is [NaN],
    and the save raises on the [id] path: nothing is stored. *)
Theorem C4_only_createVendor_falls_back_to_1 :
  option_map user_id
    (returned (MongoDBStorage.createUser Db.empty oid_alice 100 alice))
  = Some (JS.Str oid_alice)
  /\ map ud_id (Users db_alice_bobby) = [JS.Undefined; JS.Undefined]
  /\ map vd_id
         (Vendors (after (MongoDBStorage.createVendor db_lost_ids oid_v2
                            (garden (JS.Str oid_alice))) db_lost_ids))
     = [JS.Undefined; JS.Num 1]
  /\ MongoDBStorage.createService db_lost_ids 200 drain_cleaning
     = MongoDBStorage.Throw (MongoDBStorage.ValidationError ["id"])
  /\ MongoDBStorage.createBooking db_lost_ids booking_by_alice
     = MongoDBStorage.Throw (MongoDBStorage.ValidationError ["id"])
  /\ MongoDBStorage.createReview db_lost_ids 200 five_stars_by_alice
     = MongoDBStorage.Throw (MongoDBStorage.ValidationError ["id"]).
Proof. repeat split; vm_compute; reflexivity. Qed.

End AllocatorAtLostIds.

(** ** Resolution of a user reference *)

Section Resolution.
Import Schema Db Statements.
Context {D : Driver}.

Lemma run_in (us : list UserDoc) (q : MongoDBStorage.UserQuery)
    (u : UserDoc) :
  MongoDBStorage.run us q = Some u -> In u us.
Proof.
  destruct q as [x|v|]; simpl; intros H.
  - now apply find_some in H.
  - now apply find_some in H.
  - destruct us as [|a r]; [discriminate|].
    destruct (DbFacts.findOne_sort_desc_some date_lt ud_createdAt (a :: r))
      as [x [Hx Hin]]; [discriminate|].
    rewrite Hx in H. now inversion H; subst.
Qed.

Lemma run_nil (q : MongoDBStorage.UserQuery) :
  MongoDBStorage.run [] q = None.
Proof. now destruct q. Qed.

Lemma run_MostRecent_some (us : list UserDoc) :
  us <> [] -> exists u, MongoDBStorage.run us MongoDBStorage.MostRecent
                        = Some u.
Proof.
  intros H.
  destruct (DbFacts.findOne_sort_desc_some date_lt ud_createdAt us H)
    as [x [Hx _]].
  now exists x.
Qed.

Lemma sound_start (us : list UserDoc) : sound us MongoDBStorage.start.
Proof. intros u H. discriminate. Qed.

Lemma sound_attempt us guard q c :
  sound us c -> sound us (MongoDBStorage.attempt us guard q c).
Proof.
  unfold MongoDBStorage.attempt. intros Hc. destruct guard; [|exact Hc].
  intros u H. simpl in H. now apply run_in in H.
Qed.

Lemma sound_attempt_if_missing us guard q c :
  sound us c -> sound us (MongoDBStorage.attempt_if_missing us guard q c).
Proof.
  unfold MongoDBStorage.attempt_if_missing. intros Hc.
  destruct (fst c); [exact Hc|]. now apply sound_attempt.
Qed.

(** The last step of a cascade with a fallback: it yields a user exactly
    when the collection is not empty. *)
Lemma fallback_total us c :
  sound us c ->
  (us <> [] ->
   exists u,
     fst (MongoDBStorage.attempt_if_missing us true
            MongoDBStorage.MostRecent c) = Some u /\ In u us)
  /\ (us = [] ->
      fst (MongoDBStorage.attempt_if_missing us true
             MongoDBStorage.MostRecent c) = None).
Proof.
  intros Hc. unfold MongoDBStorage.attempt_if_missing.
  destruct (fst c) as [u|] eqn:E.
  - split.
    + intros _. exists u. split; [exact E|now apply Hc].
    + intros ->. specialize (Hc u E). contradiction.
  - unfold MongoDBStorage.attempt. simpl. split.
    + intros Hne. destruct (run_MostRecent_some us Hne) as [u Hu].
      exists u. split; [exact Hu|].
      now apply (run_in us MongoDBStorage.MostRecent).
    + intros ->. reflexivity.
Qed.


Lemma getVendor_resolve_total us userId :
  (us <> [] ->
   exists u, fst (MongoDBStorage.getVendor_resolve us userId) = Some u
             /\ In u us)
  /\ (us = [] -> fst (MongoDBStorage.getVendor_resolve us userId) = None).
Proof.
  unfold MongoDBStorage.getVendor_resolve. apply fallback_total.
  repeat apply sound_attempt_if_missing. apply sound_attempt.
  apply sound_start.
Qed.



(** In the join of [getVendor], an existing vendor is reported not found
    exactly when there is no user at all. *)
Lemma getVendor_none_iff st now id vendor :
  find (fun v => query_eq (vd_id v) id) (Vendors st) = Some vendor ->
  (MongoDBStorage.getVendor st now id = None <-> Users st = []).
Proof.
  intros Hv. unfold MongoDBStorage.getVendor. rewrite Hv.
  destruct (getVendor_resolve_total (Users st) (vd_userId vendor))
    as [Hsome Hnone].
  split.
  - intros H. destruct (Users st) as [|a r] eqn:E; [reflexivity|].
    destruct Hsome as [u [Hu _]]; [discriminate|].
    rewrite Hu in H. discriminate.
  - intros E. now rewrite (Hnone E).
Qed.

(** The three direct strategies of [createVendor] having missed, the
    resolution is the answer of the fallback query. *)
Lemma createVendor_resolve_fallback us userId :
  (Statements.oid_shaped userId = true ->
   MongoDBStorage.run us (MongoDBStorage.ById userId) = None) ->
  (JS.is_number userId || negb (MongoDBStorage.isNaN userId) = true ->
   MongoDBStorage.run us
     (MongoDBStorage.ByIdField (MongoDBStorage.Number userId)) = None) ->
  (JS.is_string userId = true ->
   MongoDBStorage.run us (MongoDBStorage.ByIdField userId) = None) ->
  fst (MongoDBStorage.createVendor_resolve us userId)
  = MongoDBStorage.run us MongoDBStorage.MostRecent.
Proof.
  intros H1 H2 H3.
  unfold MongoDBStorage.createVendor_resolve, MongoDBStorage.attempt_if_missing,
    MongoDBStorage.attempt, MongoDBStorage.start.
  unfold Statements.oid_shaped in H1.
  destruct (match userId with
            | JS.Str s => JS.length s =? 24
            | _ => false
            end);
    destruct (JS.is_number userId || negb (MongoDBStorage.isNaN userId));
    destruct (JS.is_string userId);
    cbn [fst snd];
    repeat first [ rewrite (H1 eq_refl) | rewrite (H2 eq_refl)
                 | rewrite (H3 eq_refl) | progress cbn [fst snd] ];
    reflexivity.
Qed.

End Resolution.

Section FallbackAtTwoUsers.
Import Schema Db Examples.
#[local] Existing Instance Reference.driver.

(** C3, at a store with two users registered through [createUser], Alice
    first and Bobby after her, and a reference matching no user.  The
    resolution does not fail: it issues the fallback query.  That query
    sorts on [createdAt], a field no user document carries ([createUser]
    records the time under [joinedAt]), so the sort orders nothing and
    the first document of the collection is returned: the user resolved
    is Alice, the least recently created one, not Bobby.  [createVendor]
    links the new vendor to her, and the join of [getVendor] reports her
    for a vendor whose user is gone. *)
Theorem C3_fallback_returns_first_user_not_most_recent :
  map (fun u => (ud__id u, ud_joinedAt u, ud_createdAt u))
      (Users db_alice_bobby)
  = [(oid_alice, Some 100, None); (oid_bobby, Some 200, None)]
  /\ snd (MongoDBStorage.createVendor_resolve (Users db_alice_bobby)
            (JS.Num 99))
     = [MongoDBStorage.ByIdField (JS.Num 99); MongoDBStorage.MostRecent]
  /\ option_map ud__id
       (fst (MongoDBStorage.createVendor_resolve (Users db_alice_bobby)
               (JS.Num 99)))
     = Some oid_alice
  /\ map vd_userId (Vendors db_unmatched) = [JS.Oid oid_alice]
  /\ option_map (fun p => user_name (snd p))
       (MongoDBStorage.getVendor db_dangling2 300 (JS.Num 1))
     = Some "Alice".
Proof. repeat split; vm_compute; reflexivity. Qed.

End FallbackAtTwoUsers.

(** ** Service creation by a vendor without a profile *)

Section AutoProvision.
Import Schema Db.
Context {D : Driver}.

(** The principal of an authenticated request has no [name]: the token
    carries [id], [email], [role] and [username] only. *)
Lemma principal_has_no_name (user : User) (iat exp : Z) :
  Routes.prop (Routes.authenticateToken user iat exp) "name" = JS.Undefined.
Proof. reflexivity. Qed.

(** So the default profile of an authenticated user is always named
    ["New Business"], whatever the user's display name. *)
Lemma default_vendor_of_principal (user : User) (iat exp : Z) :
  iv_businessName
    (Routes.default_vendor (Routes.authenticateToken user iat exp))
  = "New Business".
Proof. reflexivity. Qed.

Lemma next_id_guarded_numeric (last : option JS.value) :
  exists k, MongoDBStorage.next_id_guarded last = JS.Num k.
Proof.
  destruct last as [v|]; simpl; [|now exists 1].
  unfold MongoDBStorage.isNaN, MongoDBStorage.Number.
  destruct (JS.to_number string_to_number v) as [n|]; simpl.
  - now exists (JS.to_double (n + 1)).
  - now exists 1.
Qed.

Lemma parse_service_vendorId body k insertService :
  Routes.parse_service body (JS.Num k) = Some insertService ->
  is_vendorId insertService = JS.Num k.
Proof.
  unfold Routes.parse_service.
  destruct (Routes.body_name body), (Routes.body_category body),
    (Routes.body_description body), (Routes.body_price body);
    try discriminate.
  destruct (_ && _); [|discriminate].
  intros H. inversion H. reflexivity.
Qed.

End AutoProvision.

Section AutoProvisionOfAlice.
Import Schema Db Examples.
#[local] Existing Instance Reference.driver.

(** C6, at the scenario of the specification.  Alice, registered with the
    vendor role and without a vendor profile, creates a service with a
    valid token.  The route provisions a vendor and stores the service
    under that vendor's id, answering 201; but the business name of the
    provisioned vendor is ["New Business"]: the route derives it from
    [req.user.name], and the principal decoded from the token has no
    name, so the name "Alice" does not appear in it. *)
Theorem C6_provisioned_vendor_is_not_named_after_user :
  map ud_name (Users db_alice) = ["Alice"]
  /\ Vendors db_alice = []
  /\ Routes.prop alice_principal "name" = JS.Undefined
  /\ (let (response, st) :=
        Routes.post_services db_alice oid_v1 300 alice_principal pipes in
      map (fun v => (vd_id v, vd_userId v, vd_businessName v)) (Vendors st)
      = [(JS.Num 1, JS.Oid oid_alice, "New Business")]
      /\ JS.includes "New Business" "Alice" = false
      /\ map (fun s => (service_id s, service_vendorId s, service_name s))
             (Services st)
         = [(JS.Num 1, JS.Num 1, "Pipe repair")]
      /\ match response with
         | Routes.Created service => service_vendorId service = JS.Num 1
         | _ => False
         end).
Proof. repeat split; vm_compute; reflexivity. Qed.

End AutoProvisionOfAlice.

(** ** The joins of vendors with their users *)

Section VendorJoins.
Import Schema Db Statements Invariants.
Context {D : Driver}.


Lemma join_resolve_log (us : list UserDoc) (userId : JS.value) :
  ~ In MongoDBStorage.MostRecent
       (snd (MongoDBStorage.join_resolve us userId)).
Proof.
  unfold MongoDBStorage.join_resolve, MongoDBStorage.attempt_if_missing,
    MongoDBStorage.attempt, MongoDBStorage.start.
  destruct (JS.is_object userId
            || match userId with
               | JS.Str s => JS.length s =? 24
               | _ => false
               end);
    destruct (JS.is_number userId); destruct (JS.truthy userId);
    cbn [fst snd];
    repeat match goal with
           | |- context [match MongoDBStorage.run ?l ?q with _ => _ end] =>
               destruct (MongoDBStorage.run l q); cbn [fst snd]
           end;
    cbn; intuition discriminate.
Qed.


Lemma getVendor_resolve_first (us : list UserDoc) (userId : JS.value) :
  fst (MongoDBStorage.getVendor_resolve us userId)
  = first_found (getVendor_lookups us userId).
Proof.
  unfold MongoDBStorage.getVendor_resolve, getVendor_lookups, lookup_when,
    MongoDBStorage.attempt_if_missing, MongoDBStorage.attempt,
    MongoDBStorage.start.
  destruct (JS.truthy userId && (JS.length (JS.to_string userId) =? 24));
    destruct (JS.is_number userId); destruct (JS.truthy userId);
    cbn [fst snd first_found];
    repeat match goal with
           | |- context [match MongoDBStorage.run ?l ?q with _ => _ end] =>
               destruct (MongoDBStorage.run l q); cbn [fst snd first_found]
           end;
    reflexivity.
Qed.

Lemma join_resolve_first (us : list UserDoc) (userId : JS.value) :
  fst (MongoDBStorage.join_resolve us userId)
  = first_found (direct_lookups us userId).
Proof.
  unfold MongoDBStorage.join_resolve, direct_lookups, lookup_when, oid_shaped,
    MongoDBStorage.attempt_if_missing, MongoDBStorage.attempt,
    MongoDBStorage.start.
  destruct (JS.is_object userId
            || match userId with
               | JS.Str s => JS.length s =? 24
               | _ => false
               end);
    destruct (JS.is_number userId); destruct (JS.truthy userId);
    cbn [fst snd first_found];
    repeat match goal with
           | |- context [match MongoDBStorage.run ?l ?q with _ => _ end] =>
               destruct (MongoDBStorage.run l q); cbn [fst snd first_found]
           end;
    reflexivity.
Qed.

Lemma join_users_joined us now vs :
  MongoDBStorage.join_users us now vs = joined us now vs.
Proof.
  unfold joined. induction vs as [|v r IH]; [reflexivity|].
  cbn [MongoDBStorage.join_users flat_map].
  rewrite join_resolve_first, IH.
  destruct (first_found (direct_lookups us (vd_userId v))); reflexivity.
Qed.

Lemma find_first_matching {A : Type} (P : A -> bool) (l : list A) (x : A) :
  find P l = Some x <-> first_matching P l x.
Proof.
  split.
  - induction l as [|a r IH]; simpl; intros H; [discriminate|].
    destruct (P a) eqn:E.
    + inversion H; subst. exists [], r. simpl. intuition.
    + destruct (IH H) as (before & after & -> & Hx & Hb).
      exists (a :: before), after. simpl.
      refine (conj eq_refl (conj Hx _)).
      intros y [<-|Hy]; [exact E|now apply Hb].
  - intros (before & after & -> & Hx & Hb).
    induction before as [|a r IH]; simpl.
    + now rewrite Hx.
    + rewrite (Hb a (or_introl eq_refl)). apply IH.
      intros y Hy. apply Hb. now right.
Qed.

(** The three lookups [searchVendors] makes for the vendor of a user
    come to two: the user's [id] is the [_id] string, so the third
    repeats the first. *)
Lemma vendor_of_user_found vs u vd :
  MongoDBStorage.vendor_of_user vs u = Some vd <-> found_for vs u vd.
Proof.
  unfold MongoDBStorage.vendor_of_user, found_for, doc_id.
  cbn [JS.to_string].
  destruct (find (fun v => query_eq (vd_userId v) (JS.Str (ud__id u))) vs)
    as [w|] eqn:F1.
  - split.
    + intros H. inversion H; subst. left. now apply find_first_matching.
    + intros [H|[Hnone _]].
      * apply find_first_matching in H. congruence.
      * apply find_some in F1. destruct F1 as [Hin Hq].
        rewrite (Hnone w Hin) in Hq. discriminate.
  - pose proof (proj1 (DbFacts.find_none_iff _ _) F1) as Hnone.
    destruct (find (fun v => query_eq (vd_userId v) (JS.Oid (ud__id u))) vs)
      as [w|] eqn:F2.
    + split.
      * intros H. inversion H; subst. right.
        split; [exact Hnone|now apply find_first_matching].
      * intros [H|[_ H]]; apply find_first_matching in H; congruence.
    + split.
      * destruct (JS.truthy (JS.Str (ud__id u))); discriminate.
      * intros [H|[_ H]]; apply find_first_matching in H; congruence.
Qed.

(** The second loop of [searchVendors] appends, for some of the users
    handed to it and in their order, the vendor found for the user. *)
Lemma add_by_user_name_kept vs now matching :
  forall results,
  exists kept : list (UserDoc * VendorDoc),
    MongoDBStorage.add_by_user_name vs now matching results
    = (results
       ++ map (fun p => (MongoDBStorage.mongoVendorToVendor None (snd p),
                         MongoDBStorage.mongoUserToUser now (fst p)))
              kept)%list
    /\ sublist (map fst kept) matching
    /\ (forall ud vd, In (ud, vd) kept ->
                      MongoDBStorage.vendor_of_user vs ud = Some vd).
Proof.
  induction matching as [|x r IH]; simpl; intros results.
  - exists []. simpl. rewrite app_nil_r.
    refine (conj eq_refl (conj (sublist_nil) _)). intros ud vd [].
  - assert (Hskip : forall results0,
               exists kept : list (UserDoc * VendorDoc),
                 MongoDBStorage.add_by_user_name vs now r results0
                 = (results0
                    ++ map (fun p =>
                              (MongoDBStorage.mongoVendorToVendor None (snd p),
                               MongoDBStorage.mongoUserToUser now (fst p)))
                           kept)%list
                 /\ sublist (map fst kept) (x :: r)
                 /\ (forall ud vd, In (ud, vd) kept ->
                                   MongoDBStorage.vendor_of_user vs ud
                                   = Some vd)).
    { intros results0. destruct (IH results0) as (kept & E & Hs & Hf).
      exists kept. refine (conj E (conj _ Hf)). now apply sublist_skip. }
    destruct (MongoDBStorage.vendor_of_user vs x) as [vd|] eqn:V;
      [|apply Hskip].
    destruct (existsb _ results); [apply Hskip|].
    destruct (IH (results
                  ++ [(MongoDBStorage.mongoVendorToVendor None vd,
                       MongoDBStorage.mongoUserToUser now x)])%list)
      as (kept & E & Hs & Hf).
    exists ((x, vd) :: kept).
    refine (conj _ (conj _ _)).
    + rewrite E, <- app_assoc. reflexivity.
    + simpl. now apply sublist_keep.
    + intros ud vd' [Hin|Hin]; [|now apply Hf].
      inversion Hin; subst. exact V.
Qed.

(** C2, as the code has it.  The join of [getVendor] makes the lookup by
    [_id], the lookup by numeric [id], the lookup by [id] with the
    reference as a string and then the fallback query, each for the
    references it applies to, and joins the vendor with the user of the
    first lookup that finds one: an existing vendor is reported not found
    exactly when no user exists.  The joins of [getAllVendors] and
    [searchVendors] make the three direct lookups only, never the
    fallback query.  [getAllVendors] returns exactly the vendors for which
    a direct lookup yields a user, in order, each with the first user
    found.  [searchVendors] returns first exactly those among the vendors
    whose own fields match, and after them, with no lookup of a user at
    all, for some of the users whose name matches, in their order, the
    vendor found for the user (the first whose [userId] matches the user's
    [_id] as a string, else as an ObjectId), paired with that user. *)
Theorem C2_getVendor_falls_back_list_joins_do_not :
  forall (st : Store) (now : Z),
    (forall id,
        MongoDBStorage.getVendor st now id
        = match find (fun v => query_eq (vd_id v) id) (Vendors st) with
          | None => None
          | Some vendor =>
              option_map
                (fun u => (MongoDBStorage.mongoVendorToVendor None vendor,
                           MongoDBStorage.mongoUserToUser now u))
                (first_found (getVendor_lookups (Users st)
                                (vd_userId vendor)))
          end)
    /\ (forall id vendor,
           find (fun v => query_eq (vd_id v) id) (Vendors st) = Some vendor ->
           (MongoDBStorage.getVendor st now id = None <-> Users st = []))
    /\ (forall userId,
           fst (MongoDBStorage.join_resolve (Users st) userId)
           = first_found (direct_lookups (Users st) userId)
           /\ ~ In MongoDBStorage.MostRecent
                  (snd (MongoDBStorage.join_resolve (Users st) userId)))
    /\ MongoDBStorage.getAllVendors st now
       = joined (Users st) now (Vendors st)
    /\ (forall query re,
           regexp_i query = Some re ->
           exists kept : list (UserDoc * VendorDoc),
             MongoDBStorage.searchVendors st now query
             = (joined (Users st) now
                  (filter (own_fields_match re) (Vendors st))
                ++ map (fun p =>
                          (MongoDBStorage.mongoVendorToVendor None (snd p),
                           MongoDBStorage.mongoUserToUser now (fst p)))
                       kept)%list
             /\ sublist (map fst kept)
                        (filter (fun u => re (ud_name u)) (Users st))
             /\ (forall ud vd,
                    In (ud, vd) kept -> found_for (Vendors st) ud vd)).
Proof.
  intros st now. refine (conj _ (conj _ (conj _ (conj _ _)))).
  - intros id. unfold MongoDBStorage.getVendor.
    destruct (find _ (Vendors st)) as [vendor|]; [|reflexivity].
    rewrite getVendor_resolve_first.
    now destruct (first_found _).
  - intros id vendor Hv. now apply (getVendor_none_iff st now id vendor).
  - intros userId. split; [apply join_resolve_first|apply join_resolve_log].
  - apply join_users_joined.
  - intros query re Hre. unfold MongoDBStorage.searchVendors.
    rewrite Hre, join_users_joined.
    destruct (add_by_user_name_kept (Vendors st) now
                (filter (fun u => re (ud_name u)) (Users st))
                (joined (Users st) now
                   (filter (fun v => re (vd_businessName v)
                                     || re (vd_category v)
                                     || re (vd_description v))
                           (Vendors st))))
      as (kept & E & Hs & Hf).
    exists kept. refine (conj E (conj Hs _)).
    intros ud vd Hin. apply vendor_of_user_found. now apply Hf.
Qed.

End VendorJoins.

Section VendorJoinsAtDanglingVendor.
Import Schema Db Examples Statements.
#[local] Existing Instance Reference.driver.

(** Against C2 as stated: with one user registered and one vendor whose
    user-reference matches no user, [getAllVendors] and [searchVendors]
    leave the vendor out although a user exists, while [getVendor]
    returns it with the fallback user. *)
Lemma C2_list_joins_exclude_vendor_although_user_exists :
  map ud_name (Users db_dangling) = ["Alice"]
  /\ map vd_businessName (Vendors db_dangling) = ["Bob's Plumbing"]
  /\ MongoDBStorage.getAllVendors db_dangling 300 = []
  /\ MongoDBStorage.searchVendors db_dangling 300 "plumbing" = []
  /\ option_map (fun p => (vendor_businessName (fst p), user_name (snd p)))
       (MongoDBStorage.getVendor db_dangling 300 (JS.Num 1))
     = Some ("Bob's Plumbing", "Alice").
Proof. repeat split; vm_compute; reflexivity. Qed.

(** C2, at the vendor whose user is gone and at the search scenario. *)
Lemma C2_getVendor_falls_back_list_joins_do_not_witness :
  (MongoDBStorage.getVendor db_dangling 300 (JS.Num 1) = None
   <-> Users db_dangling = [])
  /\ MongoDBStorage.getAllVendors db_search 300
     = joined (Users db_search) 300 (Vendors db_search)
  /\ map (fun p => vendor_businessName (fst p))
         (MongoDBStorage.getAllVendors db_search 300)
     = ["Bob's Plumbing"; "Green Garden"].
Proof.
  destruct (C2_getVendor_falls_back_list_joins_do_not db_dangling 300)
    as (_ & Hget & _).
  destruct (C2_getVendor_falls_back_list_joins_do_not db_search 300)
    as (_ & _ & _ & Hall & _).
  refine (conj _ (conj Hall _)).
  - apply (Hget (JS.Num 1) dangling_vendor). reflexivity.
  - rewrite Hall. vm_compute. reflexivity.
Defined.

End VendorJoinsAtDanglingVendor.

(** ** The order of the lookups *)

Section LookupOrder.
Import Schema Db.
Context {D : Driver}.

Lemma length_24_nonempty (s : string) :
  JS.length s = 24 -> String.eqb s EmptyString = false.
Proof. destruct s; [discriminate|reflexivity]. Qed.

(** C8, as the code has it.  For a reference that is a string of 24
    characters (numeric-coercible or not), [createVendor] and the joins
    of [getVendor], [getAllVendors] and [searchVendors] issue the lookup
    by [_id] first, and when it finds a user no other query is issued:
    the log of the resolution holds that lookup alone.  [getUser] goes
    the other way round: its first query is the lookup by the [id]
    field, and when that one finds a user the lookup by [_id] is not
    issued. *)
Theorem C8_native_lookup_first_except_in_getUser :
  forall (us : list UserDoc) (s : string) (u : UserDoc),
    JS.length s = 24 ->
    MongoDBStorage.run us (MongoDBStorage.ById (JS.Str s)) = Some u ->
    MongoDBStorage.createVendor_resolve us (JS.Str s)
    = (Some u, [MongoDBStorage.ById (JS.Str s)])
    /\ MongoDBStorage.getVendor_resolve us (JS.Str s)
       = (Some u, [MongoDBStorage.ById (JS.Str s)])
    /\ MongoDBStorage.join_resolve us (JS.Str s)
       = (Some u, [MongoDBStorage.ById (JS.Str s)])
    /\ (exists rest,
           snd (MongoDBStorage.getUser_resolve us (JS.Str s))
           = MongoDBStorage.ByIdField (JS.Str s) :: rest)
    /\ (forall u',
           MongoDBStorage.run us (MongoDBStorage.ByIdField (JS.Str s))
           = Some u' ->
           MongoDBStorage.getUser_resolve us (JS.Str s)
           = (Some u', [MongoDBStorage.ByIdField (JS.Str s)])).
Proof.
  intros us s u Hlen Hrun.
  assert (Hguard : (JS.length s =? 24) = true) by now apply Z.eqb_eq.
  pose proof (length_24_nonempty s Hlen) as Hne.
  repeat split.
  - unfold MongoDBStorage.createVendor_resolve,
      MongoDBStorage.attempt_if_missing, MongoDBStorage.attempt,
      MongoDBStorage.start.
    rewrite Hguard. cbn [fst snd]. rewrite Hrun. reflexivity.
  - unfold MongoDBStorage.getVendor_resolve,
      MongoDBStorage.attempt_if_missing, MongoDBStorage.attempt,
      MongoDBStorage.start.
    cbn [JS.truthy JS.to_string]. rewrite Hne, Hguard.
    cbn [negb andb fst snd]. rewrite Hrun. reflexivity.
  - unfold MongoDBStorage.join_resolve,
      MongoDBStorage.attempt_if_missing, MongoDBStorage.attempt,
      MongoDBStorage.start.
    rewrite Hguard. cbn [JS.is_object JS.typeof orb fst snd].
    rewrite Hrun. reflexivity.
  - unfold MongoDBStorage.getUser_resolve,
      MongoDBStorage.attempt_if_missing, MongoDBStorage.attempt,
      MongoDBStorage.start.
    cbn [fst snd app].
    destruct (MongoDBStorage.run us (MongoDBStorage.ByIdField (JS.Str s)));
      [eexists; reflexivity|].
    destruct (JS.is_hex24 s); eexists; reflexivity.
  - intros u' Hid.
    unfold MongoDBStorage.getUser_resolve,
      MongoDBStorage.attempt_if_missing, MongoDBStorage.attempt,
      MongoDBStorage.start.
    cbn [fst snd app]. rewrite Hid. reflexivity.
Qed.

End LookupOrder.

Section LookupOrderAtDigits.
Import Schema Db Examples.
#[local] Existing Instance Reference.driver.

Lemma C8_native_lookup_first_except_in_getUser_witness :
  MongoDBStorage.createVendor_resolve [user_digits; user_string_id]
    (JS.Str oid_digits)
  = (Some user_digits, [MongoDBStorage.ById (JS.Str oid_digits)])
  /\ MongoDBStorage.getUser_resolve [user_digits; user_string_id]
       (JS.Str oid_digits)
     = (Some user_string_id,
        [MongoDBStorage.ByIdField (JS.Str oid_digits)]).
Proof.
  assert (Hlen : JS.length oid_digits = 24) by reflexivity.
  assert (Hrun : MongoDBStorage.run [user_digits; user_string_id]
                   (MongoDBStorage.ById (JS.Str oid_digits))
                 = Some user_digits) by reflexivity.
  destruct (C8_native_lookup_first_except_in_getUser
              [user_digits; user_string_id] oid_digits user_digits
              Hlen Hrun)
    as [Hcreate [_ [_ [_ Hget]]]].
  split; [exact Hcreate|].
  apply Hget. reflexivity.
Defined.

(** Against C8 as stated: the reference is a string of 24 hexadecimal
    digits that also converts to a number, and the lookup by [_id] would
    find a user.  [getUser] nevertheless issues the lookup by the [id]
    field first; where a user holds that string as [id], it is returned
    and the lookup by [_id] is never issued. *)
Lemma C8_getUser_tries_id_field_before_native_lookup :
  JS.is_hex24 oid_digits = true
  /\ MongoDBStorage.isNaN (JS.Str oid_digits) = false
  /\ MongoDBStorage.run [user_digits]
       (MongoDBStorage.ById (JS.Str oid_digits)) = Some user_digits
  /\ MongoDBStorage.getUser_resolve [user_digits] (JS.Str oid_digits)
     = (Some user_digits,
        [MongoDBStorage.ByIdField (JS.Str oid_digits);
         MongoDBStorage.ById (JS.Str oid_digits)])
  /\ MongoDBStorage.getUser_resolve [user_digits; user_string_id]
       (JS.Str oid_digits)
     = (Some user_string_id,
        [MongoDBStorage.ByIdField (JS.Str oid_digits)]).
Proof. repeat split; vm_compute; reflexivity. Qed.

End LookupOrderAtDigits.

(** ** Search *)

Section MemSearch.
Import Schema Statements.




Lemma set_keys_in {V : Type} (m : JsMap.t V) k v x :
  In x (JsMap.keys (JsMap.set m k v)) -> x = k \/ In x (JsMap.keys m).
Proof.
  induction m as [|[k' v'] r IH]; simpl.
  - intuition congruence.
  - destruct (k' =? k) eqn:E; simpl.
    + apply Z.eqb_eq in E. subst. intuition congruence.
    + intros [H|H]; [tauto|]. destruct (IH H); tauto.
Qed.

Lemma set_in {V : Type} (m : JsMap.t V) k v k0 v0 :
  In (k0, v0) (JsMap.set m k v) -> (k0 = k /\ v0 = v) \/ In (k0, v0) m.
Proof.
  induction m as [|[k' v'] r IH]; simpl.
  - intros [H|[]]. inversion H. tauto.
  - destruct (k' =? k); simpl.
    + intros [H|H]; [inversion H|]; tauto.
    + intros [H|H]; [tauto|]. destruct (IH H); tauto.
Qed.

(** Storing a vendor under its own id keeps the map keyed by id. *)
Lemma keyed_by_id_set (m : JsMap.t Vendor) k v :
  keyed_by_id m -> vendor_id v = JS.Num k -> keyed_by_id (JsMap.set m k v).
Proof.
  intros [Hnd Hid] Hv. split.
  - clear Hid. induction m as [|[k' v'] r IH]; simpl.
    + constructor; [intros []|constructor].
    + simpl in Hnd. inversion Hnd as [|? ? Hnotin Hnd']; subst.
      destruct (k' =? k) eqn:E; simpl.
      * apply Z.eqb_eq in E. subst. now constructor.
      * constructor; [|now apply IH].
        intros Hin. apply set_keys_in in Hin. destruct Hin as [->|Hin].
        -- rewrite Z.eqb_refl in E. discriminate.
        -- contradiction.
  - intros k0 v0 Hin. apply set_in in Hin.
    destruct Hin as [[-> ->]|Hin]; [exact Hv|now apply Hid].
Qed.

Lemma get_in {V : Type} (m : JsMap.t V) k v :
  JsMap.get m k = Some v -> In (k, v) m.
Proof.
  induction m as [|[k' v'] r IH]; simpl; [discriminate|].
  destruct (k' =? k) eqn:E.
  - apply Z.eqb_eq in E. intros H. inversion H. subst. now left.
  - intros H. right. now apply IH.
Qed.

(** The vendor map of [MemStorage] is keyed by id from the start and
    after every operation that writes vendors. *)
Lemma keyed_by_id_invariant :
  keyed_by_id (MemStorage.vendors MemStorage.init)
  /\ (forall mem insertVendor,
         keyed_by_id (MemStorage.vendors mem) ->
         keyed_by_id
           (MemStorage.vendors (snd (MemStorage.createVendor mem insertVendor))))
  /\ (forall mem k vendorData,
         keyed_by_id (MemStorage.vendors mem) ->
         keyed_by_id
           (MemStorage.vendors (snd (MemStorage.updateVendor mem k vendorData))))
  /\ (forall mem now insertReview,
         keyed_by_id (MemStorage.vendors mem) ->
         keyed_by_id
           (MemStorage.vendors
              (snd (MemStorage.createReview mem now insertReview)))).
Proof.
  split; [|split; [|split]].
  - split; [constructor|intros k v []].
  - intros mem iv H. simpl. now apply keyed_by_id_set.
  - intros mem k p H. unfold MemStorage.updateVendor.
    destruct (JsMap.get (MemStorage.vendors mem) k) as [v|] eqn:G;
      [|exact H].
    simpl. apply keyed_by_id_set; [exact H|].
    simpl. destruct H as [_ Hid]. apply Hid. now apply get_in.
  - intros mem now r H. unfold MemStorage.createReview.
    cbn [MemStorage.vendors MemStorage.set_reviews].
    destruct (ir_vendorId r) as [|k| | |] eqn:Ev; cbn [JsMap.get_value];
      try exact H.
    destruct (JsMap.get (MemStorage.vendors mem) k) as [v|] eqn:G;
      [|exact H].
    cbn [snd MemStorage.vendors MemStorage.set_vendors].
    apply keyed_by_id_set; [exact H|].
    simpl. destruct H as [_ Hid]. apply Hid. now apply get_in.
Qed.

End MemSearch.

Section DbSearch.
Import Schema Db Statements.
Context {D : Driver}.








Lemma NoDup_snoc {A : Type} (l : list A) (x : A) :
  NoDup l -> ~ In x l -> NoDup (l ++ [x]).
Proof.
  induction l as [|a r IH]; simpl; intros Hnd Hx.
  - constructor; [intros []|constructor].
  - inversion Hnd as [|? ? Ha Hr]; subst. constructor.
    + intros Hin. apply in_app_or in Hin. destruct Hin as [Hin|[->|[]]].
      * contradiction.
      * apply Hx. now left.
    + apply IH; [exact Hr|]. intros Hin. apply Hx. now right.
Qed.


Lemma add_by_user_name_in vs now matching :
  forall results v u,
    In (v, u) (MongoDBStorage.add_by_user_name vs now matching results) ->
    In (v, u) results
    \/ exists ud vd,
         In ud matching
         /\ MongoDBStorage.vendor_of_user vs ud = Some vd
         /\ v = MongoDBStorage.mongoVendorToVendor None vd
         /\ u = MongoDBStorage.mongoUserToUser now ud.
Proof.
  induction matching as [|x r IH]; simpl; intros results v u H; [now left|].
  assert (Hlift : forall res,
             In (v, u) (MongoDBStorage.add_by_user_name vs now r res) ->
             In (v, u) res
             \/ exists ud vd,
                  (x = ud \/ In ud r)
                  /\ MongoDBStorage.vendor_of_user vs ud = Some vd
                  /\ v = MongoDBStorage.mongoVendorToVendor None vd
                  /\ u = MongoDBStorage.mongoUserToUser now ud).
  { intros res Hres. destruct (IH res v u Hres) as [Hl|[ud [vd [Hin Hr]]]];
      [now left|].
    right. exists ud, vd. split; [now right|exact Hr]. }
  destruct (MongoDBStorage.vendor_of_user vs x) as [vd|] eqn:V;
    [|now apply Hlift].
  destruct (existsb _ results); [now apply Hlift|].
  destruct (Hlift _ H) as [Hl|Hr]; [|now right].
  apply in_app_or in Hl. destruct Hl as [Hl|[Hl|[]]]; [now left|].
  inversion Hl; subst. right. exists x, vd. repeat split; tauto.
Qed.



End DbSearch.

Section SearchResults.
Import Schema Db Statements Invariants.
Context {D : Driver}.


End SearchResults.

Section SearchForBob.
Import Schema Db Examples Statements Invariants.
#[local] Existing Instance Reference.driver.

(** The scenario of the specification, with Alice and Bobby Smith
    registered and each vendor created for its owner's [id]: for the query
    "bob", the vendor named "Bob's Plumbing" and the vendor of the user
    named "Bobby Smith" are each returned once, in both
    implementations. *)
Lemma searchVendors_bob :
  map (fun p => (vendor_businessName (fst p), user_name (snd p)))
      (MemStorage.searchVendors mem_search "bob")
  = [("Bob's Plumbing", "Alice"); ("Green Garden", "Bobby Smith")]
  /\ map (fun v => (vd_businessName v, vd_userId v)) (Vendors db_search)
     = [("Bob's Plumbing", JS.Oid oid_alice);
        ("Green Garden", JS.Oid oid_bobby)]
  /\ map (fun p => (vendor_businessName (fst p), user_name (snd p)))
         (MongoDBStorage.searchVendors db_search 300 "bob")
     = [("Bob's Plumbing", "Alice"); ("Green Garden", "Bobby Smith")].
Proof. repeat split; vm_compute; reflexivity. Qed.



End SearchForBob.

(** ** The two implementations compared *)

Section TwoImplementations.
Import Schema Db Statements Invariants.
Context {D : Driver}.

(** What [MemStorage.createReview] stores for an existing vendor, in terms
    of the reviews visible once the call is over. *)
Lemma mem_createReview_aggregates mem now r k vendor :
  ir_vendorId r = JS.Num k ->
  JsMap.get (MemStorage.vendors mem) k = Some vendor ->
  let mem' := snd (MemStorage.createReview mem now r) in
  let ratings := mem_visible_ratings mem' (JS.Num k) in
  mem_aggregates mem' k
  = Some (JS.round_div (sum_ratings (fun x => x) ratings + ir_rating r)
                       (Z.of_nat (List.length ratings) + 1),
          Z.of_nat (List.length ratings) + 1).
Proof.
  intros Hv Hget. unfold MemStorage.createReview.
  rewrite Hv. cbn [JsMap.get_value MemStorage.vendors MemStorage.set_reviews].
  rewrite Hget. cbn zeta. cbn [snd].
  unfold mem_aggregates, mem_visible_ratings.
  cbn [MemStorage.vendors MemStorage.set_vendors].
  rewrite JsMapFacts.get_set_same. cbn [option_map].
  rewrite length_map, <- sum_ratings_map. reflexivity.
Qed.

(** The same for a [MongoDBStorage.createReview] that returns. *)
Lemma db_createReview_aggregates st now r k vendor review st' :
  ir_vendorId r = JS.Num k ->
  find (fun v => query_eq (vd_id v) (JS.Num k)) (Vendors st) = Some vendor ->
  MongoDBStorage.createReview st now r = MongoDBStorage.Ok (review, st') ->
  let ratings := db_visible_ratings st' now (JS.Num k) in
  db_aggregates st' (JS.Num k)
  = Some (JS.round_div (sum_ratings (fun x => x) ratings + ir_rating r)
                       (Z.of_nat (List.length ratings) + 1),
          Z.of_nat (List.length ratings) + 1).
Proof.
  intros Hv Hfind Hok.
  destruct (createReview_ok _ _ _ _ _ Hok)
    as (h & n & _ & _ & _ & _ & _ & Hrest).
  cbv zeta in Hrest. destruct Hrest as [_ Hst].
  rewrite Hv in Hst. unfold MongoDBStorage.Number in Hst.
  cbn [JS.to_number] in Hst. rewrite Hfind in Hst.
  destruct (findOneAndUpdate _ _ (Vendors st)) as [res vs] eqn:U.
  cbn [snd] in Hst. subst st'.
  unfold db_aggregates, db_visible_ratings.
  cbn [Vendors with_Vendors].
  rewrite (DbFacts.find_after_update_pair _ _ _ _ _ _ U Hfind);
    [|reflexivity].
  cbn [option_map vd_rating vd_reviewCount MongoDBStorage.set_aggregates].
  unfold MongoDBStorage.getReviewsByVendorId.
  cbn [Users Reviews with_Vendors with_Reviews].
  rewrite !length_map, <- sum_ratings_map. reflexivity.
Qed.







End TwoImplementations.

Section TwoImplementationsAtUnmatchedReference.
Import Schema Db Examples Statements Invariants.
#[local] Existing Instance Reference.driver.



End TwoImplementationsAtUnmatchedReference.

(** * Further properties of the storage layer *)

(** ** The keys of [MemStorage] *)

Section MemKeys.
Import Schema Invariants.

Lemma in_keys {V : Type} (m : JsMap.t V) k v :
  In (k, v) m -> In k (JsMap.keys m).
Proof.
  intros H. unfold JsMap.keys. change k with (fst (k, v)). now apply in_map.
Qed.

Lemma get_none_not_in {V : Type} (m : JsMap.t V) k :
  JsMap.get m k = None <-> ~ In k (JsMap.keys m).
Proof.
  induction m as [|[k' v'] r IH]; simpl.
  - split; [intros _ []|reflexivity].
  - destruct (k' =? k) eqn:E.
    + apply Z.eqb_eq in E. subst. split; [discriminate|].
      intros H. exfalso. apply H. now left.
    + apply Z.eqb_neq in E. rewrite IH. tauto.
Qed.

Lemma in_get {V : Type} (m : JsMap.t V) k v :
  NoDup (JsMap.keys m) -> In (k, v) m -> JsMap.get m k = Some v.
Proof.
  induction m as [|[k' v'] r IH]; simpl; intros Hnd Hin; [contradiction|].
  inversion Hnd as [|? ? Hnotin Hnd']; subst.
  destruct Hin as [Heq|Hin].
  - inversion Heq; subst. now rewrite Z.eqb_refl.
  - destruct (k' =? k) eqn:E.
    + apply Z.eqb_eq in E. subst. exfalso. apply Hnotin.
      now apply in_keys with v.
    + now apply IH.
Qed.

Lemma remove_in {V : Type} (m : JsMap.t V) k k0 v0 :
  In (k0, v0) (JsMap.remove m k) -> In (k0, v0) m.
Proof.
  induction m as [|[k' v'] r IH]; simpl; [tauto|].
  destruct (k' =? k); simpl; [tauto|].
  intros [H|H]; [now left|right; now apply IH].
Qed.

Lemma remove_keys_nodup {V : Type} (m : JsMap.t V) k :
  NoDup (JsMap.keys m) -> NoDup (JsMap.keys (JsMap.remove m k)).
Proof.
  induction m as [|[k' v'] r IH]; simpl; intros Hnd; [constructor|].
  inversion Hnd as [|? ? Hnotin Hnd']; subst.
  destruct (k' =? k); simpl; [exact Hnd'|].
  constructor; [|now apply IH].
  intros Hin. apply Hnotin. unfold JsMap.keys in Hin.
  apply in_map_iff in Hin. destruct Hin as [[k1 v1] [Hk Hin]].
  simpl in Hk. subst k1. apply remove_in in Hin. now apply in_keys with v1.
Qed.

Lemma get_remove_same {V : Type} (m : JsMap.t V) k :
  NoDup (JsMap.keys m) -> JsMap.get (JsMap.remove m k) k = None.
Proof.
  induction m as [|[k' v'] r IH]; simpl; intros Hnd; [reflexivity|].
  inversion Hnd as [|? ? Hnotin Hnd']; subst.
  destruct (k' =? k) eqn:E; simpl.
  - apply Z.eqb_eq in E. subst. now apply get_none_not_in.
  - rewrite E. now apply IH.
Qed.

Lemma get_remove_other {V : Type} (m : JsMap.t V) k k0 :
  k <> k0 -> JsMap.get (JsMap.remove m k) k0 = JsMap.get m k0.
Proof.
  intros Hne. induction m as [|[k' v'] r IH]; simpl; [reflexivity|].
  destruct (k' =? k) eqn:E; simpl.
  - apply Z.eqb_eq in E. subst.
    destruct (k =? k0) eqn:E'; [apply Z.eqb_eq in E'; contradiction|].
    reflexivity.
  - destruct (k' =? k0); [reflexivity|exact IH].
Qed.

Lemma well_keyed_init {V : Type} (idof : V -> JS.value) :
  well_keyed idof JsMap.empty 1.
Proof. split; [lia|]. split; [constructor|intros k v []]. Qed.

Lemma well_keyed_fresh {V : Type} (idof : V -> JS.value) m c :
  well_keyed idof m c -> JsMap.get m c = None.
Proof.
  intros [_ [_ Hin]]. apply get_none_not_in. intros H.
  unfold JsMap.keys in H. apply in_map_iff in H.
  destruct H as [[k v] [Hk H]]. simpl in Hk. subst k.
  destruct (Hin c v H) as [_ Hlt]. lia.
Qed.

Lemma set_keys_nodup {V : Type} (m : JsMap.t V) k v :
  NoDup (JsMap.keys m) -> NoDup (JsMap.keys (JsMap.set m k v)).
Proof.
  induction m as [|[k' v'] r IH]; simpl; intros Hnd.
  - constructor; [intros []|constructor].
  - inversion Hnd as [|? ? Hnotin Hnd']; subst.
    destruct (k' =? k) eqn:E; simpl.
    + apply Z.eqb_eq in E. subst. now constructor.
    + constructor; [|now apply IH].
      intros Hin. apply set_keys_in in Hin. destruct Hin as [->|Hin].
      * rewrite Z.eqb_refl in E. discriminate.
      * contradiction.
Qed.

(** Storing a new entity at the counter. *)
Lemma well_keyed_create {V : Type} (idof : V -> JS.value) m c v :
  well_keyed idof m c -> idof v = JS.Num c ->
  well_keyed idof (JsMap.set m c v) (c + 1).
Proof.
  intros [Hc [Hnd Hin]] Hv. split; [lia|]. split.
  - now apply set_keys_nodup.
  - intros k0 v0 H. apply set_in in H.
    destruct H as [[-> ->]|H]; [split; [exact Hv|lia]|].
    destruct (Hin k0 v0 H). split; [assumption|lia].
Qed.

(** Replacing an entity by one of the same id. *)
Lemma well_keyed_update {V : Type} (idof : V -> JS.value) m c k v0 v :
  well_keyed idof m c -> JsMap.get m k = Some v0 -> idof v = idof v0 ->
  well_keyed idof (JsMap.set m k v) c.
Proof.
  intros [Hc [Hnd Hin]] Hget Hv. split; [exact Hc|]. split.
  - now apply set_keys_nodup.
  - intros k1 v1 H. apply set_in in H.
    destruct H as [[-> ->]|H]; [|now apply Hin].
    rewrite Hv. apply Hin. now apply get_in.
Qed.

Lemma well_keyed_remove {V : Type} (idof : V -> JS.value) m c k :
  well_keyed idof m c -> well_keyed idof (JsMap.remove m k) c.
Proof.
  intros [Hc [Hnd Hin]]. split; [exact Hc|]. split.
  - now apply remove_keys_nodup.
  - intros k1 v1 H. apply Hin. now apply remove_in in H.
Qed.

Ltac five_maps :=
  refine (conj _ (conj _ (conj _ (conj _ _)))); cbn; try assumption.

Lemma run_keeps_well_keyed mem c :
  mem_well_keyed mem -> mem_well_keyed (MemTrace.run mem c).
Proof.
  intros [Hu [Hv [Hs [Hb Hr]]]].
  destruct c; unfold MemTrace.run, mem_well_keyed.
  - five_maps. now apply well_keyed_create.
  - unfold MemStorage.updateUser.
    destruct (JsMap.get (MemStorage.users mem) id) eqn:G; five_maps.
    now apply (well_keyed_update user_id _ _ _ u).
  - five_maps. now apply well_keyed_create.
  - unfold MemStorage.updateVendor.
    destruct (JsMap.get (MemStorage.vendors mem) id) eqn:G; five_maps.
    now apply (well_keyed_update vendor_id _ _ _ v).
  - five_maps. now apply well_keyed_create.
  - unfold MemStorage.updateService.
    destruct (JsMap.get (MemStorage.services mem) id) eqn:G; five_maps.
    now apply (well_keyed_update service_id _ _ _ s).
  - five_maps. now apply well_keyed_remove.
  - five_maps. now apply well_keyed_create.
  - unfold MemStorage.updateBookingStatus.
    destruct (JsMap.get (MemStorage.bookings mem) id) eqn:G; five_maps.
    now apply (well_keyed_update booking_id _ _ _ b).
  - assert (Hr' : well_keyed review_id
                    (JsMap.set (MemStorage.reviews mem)
                       (MemStorage.reviewIdCounter mem)
                       (mkReview (JS.Num (MemStorage.reviewIdCounter mem))
                          (ir_userId insertReview) (ir_vendorId insertReview)
                          (ir_rating insertReview) (ir_comment insertReview)
                          now))
                    (MemStorage.reviewIdCounter mem + 1))
      by now apply well_keyed_create.
    unfold MemStorage.createReview.
    cbn [MemStorage.vendors MemStorage.set_reviews].
    destruct (ir_vendorId insertReview) as [|k| | |]; cbn [JsMap.get_value];
      try (five_maps; fail).
    destruct (JsMap.get (MemStorage.vendors mem) k) as [v|] eqn:G;
      [|five_maps; fail].
    five_maps.
    now apply (well_keyed_update vendor_id _ _ _ v).
Qed.

Lemma after_well_keyed (calls : list MemTrace.call) :
  mem_well_keyed (MemTrace.after calls).
Proof.
  unfold MemTrace.after.
  assert (H : mem_well_keyed MemStorage.init).
  { refine (conj _ (conj _ (conj _ (conj _ _)))); apply well_keyed_init. }
  revert H. generalize MemStorage.init.
  induction calls as [|c r IH]; simpl; intros st H; [exact H|].
  apply IH. now apply run_keeps_well_keyed.
Qed.

End MemKeys.

Section MemKeysProperties.
Import Schema Invariants Statements.

(** X1.  Whatever sequence of calls a fresh [MemStorage] has served, with
    arguments of their declared types (an update carries keys of the insert
    schema only, so no [id]), each of its five maps holds no key twice,
    every entity sits under its own id, and every key is at least 1 and
    below the counter of its map: ids are never reused, not even after a
    delete. *)
Theorem X1_mem_store_stays_well_keyed :
  forall calls : list MemTrace.call, mem_well_keyed (MemTrace.after calls).
Proof. exact after_well_keyed. Qed.

(** X2.  After any sequence of calls, [createUser] returns a user under an
    id no stored user has, [getUser] of that id then returns this user,
    and every user stored before is still returned unchanged by
    [getUser]; the same holds for [createService] and [getServiceById]. *)
Theorem X2_mem_create_then_get :
  forall (calls : list MemTrace.call) (now : Z) (insertUser : InsertUser)
         (insertService : InsertService),
    let mem := MemTrace.after calls in
    let created_user := MemStorage.createUser mem now insertUser in
    let created_service := MemStorage.createService mem insertService in
    MemStorage.getUser mem (MemStorage.userIdCounter mem) = None
    /\ user_id (fst created_user) = JS.Num (MemStorage.userIdCounter mem)
    /\ MemStorage.getUser (snd created_user) (MemStorage.userIdCounter mem)
       = Some (fst created_user)
    /\ (forall k u,
           MemStorage.getUser mem k = Some u ->
           MemStorage.getUser (snd created_user) k = Some u
           /\ user_id u <> user_id (fst created_user))
    /\ MemStorage.getServiceById mem (MemStorage.serviceIdCounter mem) = None
    /\ MemStorage.getServiceById (snd created_service)
         (MemStorage.serviceIdCounter mem)
       = Some (fst created_service)
    /\ (forall k s,
           MemStorage.getServiceById mem k = Some s ->
           MemStorage.getServiceById (snd created_service) k = Some s
           /\ service_id s <> service_id (fst created_service)).
Proof.
  intros calls now iu isv mem created_user created_service.
  destruct (after_well_keyed calls) as [Hu [_ [Hs _]]].
  fold mem in Hu, Hs.
  pose proof (well_keyed_fresh _ _ _ Hu) as Fu.
  pose proof (well_keyed_fresh _ _ _ Hs) as Fs.
  refine (conj Fu (conj eq_refl (conj _ (conj _ (conj Fs (conj _ _)))))).
  - apply JsMapFacts.get_set_same.
  - intros k u Hget. unfold MemStorage.getUser in *.
    assert (Hne : MemStorage.userIdCounter mem <> k).
    { intros E. rewrite <- E, Fu in Hget. discriminate. }
    split.
    + cbn. now rewrite JsMapFacts.get_set_other.
    + destruct Hu as [_ [_ Hin]].
      destruct (Hin k u (get_in _ _ _ Hget)) as [Hid _].
      rewrite Hid. cbn. intros H. inversion H. congruence.
  - apply JsMapFacts.get_set_same.
  - intros k s Hget. unfold MemStorage.getServiceById in *.
    assert (Hne : MemStorage.serviceIdCounter mem <> k).
    { intros E. rewrite <- E, Fs in Hget. discriminate. }
    split.
    + cbn. now rewrite JsMapFacts.get_set_other.
    + destruct Hs as [_ [_ Hin]].
      destruct (Hin k s (get_in _ _ _ Hget)) as [Hid _].
      rewrite Hid. cbn. intros H. inversion H. congruence.
Qed.

(** X3.  After any sequence of calls, [deleteService] answers [true]
    exactly when the service exists; afterwards the service is gone, every
    other service is still returned by [getServiceById], and users,
    vendors, bookings and reviews are untouched. *)
Theorem X3_mem_delete_service :
  forall (calls : list MemTrace.call) (k : Z),
    let mem := MemTrace.after calls in
    let mem' := snd (MemStorage.deleteService mem k) in
    (fst (MemStorage.deleteService mem k) = true
     <-> MemStorage.getServiceById mem k <> None)
    /\ MemStorage.getServiceById mem' k = None
    /\ (forall k', k' <> k ->
                   MemStorage.getServiceById mem' k'
                   = MemStorage.getServiceById mem k')
    /\ MemStorage.users mem' = MemStorage.users mem
    /\ MemStorage.vendors mem' = MemStorage.vendors mem
    /\ MemStorage.bookings mem' = MemStorage.bookings mem
    /\ MemStorage.reviews mem' = MemStorage.reviews mem.
Proof.
  intros calls k mem mem'.
  destruct (after_well_keyed calls) as [_ [_ [[_ [Hnd _]] _]]].
  fold mem in Hnd. subst mem'.
  unfold MemStorage.deleteService, MemStorage.getServiceById, JsMap.delete,
    JsMap.has.
  cbn.
  refine (conj _ (conj _ (conj _ (conj eq_refl (conj eq_refl
            (conj eq_refl eq_refl)))))).
  - destruct (JsMap.get (MemStorage.services mem) k); split; intros H;
      congruence.
  - now apply get_remove_same.
  - intros k' Hne. apply get_remove_other. congruence.
Qed.

(** X4.  Only [createReview] changes the aggregates of a vendor: after any
    sequence of calls, any further call that is not a [createReview]
    leaves the rating and the review count of every existing vendor as
    they were.  The calls carry arguments of their declared types: the
    [Partial<InsertVendor>] of [updateVendor] has no rating and no review
    count to write, and [createVendor] never lands on an existing
    vendor. *)
Theorem X4_mem_aggregates_change_only_by_review :
  forall (calls : list MemTrace.call) (c : MemTrace.call) (k : Z)
         (vendor : Vendor),
    (forall now insertReview, c <> MemTrace.CreateReview now insertReview) ->
    JsMap.get (MemStorage.vendors (MemTrace.after calls)) k = Some vendor ->
    mem_aggregates (MemTrace.run (MemTrace.after calls) c) k
    = mem_aggregates (MemTrace.after calls) k.
Proof.
  intros calls c k vendor Hc Hget.
  destruct (after_well_keyed calls) as [_ [Hv _]].
  set (mem := MemTrace.after calls) in *.
  unfold mem_aggregates.
  destruct c; cbn [MemTrace.run]; try reflexivity.
  - unfold MemStorage.updateUser.
    now destruct (JsMap.get (MemStorage.users mem) id).
  - cbn. rewrite JsMapFacts.get_set_other; [reflexivity|].
    intros E. subst k. rewrite (well_keyed_fresh _ _ _ Hv) in Hget.
    discriminate.
  - unfold MemStorage.updateVendor.
    destruct (JsMap.get (MemStorage.vendors mem) id) as [v0|] eqn:G;
      [|reflexivity].
    cbn. destruct (Z.eq_dec id k) as [->|Hne].
    + rewrite JsMapFacts.get_set_same, G. reflexivity.
    + now rewrite JsMapFacts.get_set_other.
  - unfold MemStorage.updateService.
    now destruct (JsMap.get (MemStorage.services mem) id).
  - unfold MemStorage.updateBookingStatus.
    now destruct (JsMap.get (MemStorage.bookings mem) id).
  - exfalso. now apply (Hc now insertReview).
Qed.

End MemKeysProperties.

(** ** Ratings stay within their bounds *)

Section RatingBounds.
Import Schema Db Invariants Statements.
Context {D : Driver}.

Lemma round_div_within (lo hi total count : Z) :
  0 < count -> lo * count <= total <= hi * count ->
  lo <= JS.round_div total count <= hi.
Proof.
  intros Hc [Hlo Hhi]. unfold JS.round_div. split.
  - apply Z.div_le_lower_bound; nia.
  - assert (H : (2 * total + count) / (2 * count) < hi + 1);
      [apply Z.div_lt_upper_bound; nia|lia].
Qed.

Lemma sum_within (lo hi : Z) (l : list Z) :
  ratings_within lo hi l ->
  lo * Z.of_nat (List.length l) <= sum_ratings (fun x => x) l
  <= hi * Z.of_nat (List.length l).
Proof.
  unfold ratings_within.
  induction l as [|a r IH]; intros H.
  - unfold sum_ratings. simpl. lia.
  - change (a :: r) with ([a] ++ r)%list. rewrite sum_ratings_app.
    assert (Ha : lo <= a <= hi) by (apply H; now left).
    assert (Hr : forall x, In x r -> lo <= x <= hi)
      by (intros x Hx; apply H; now right).
    specialize (IH Hr).
    replace (sum_ratings (fun x => x) [a]) with a
      by (unfold sum_ratings; cbn [fold_left]; lia).
    rewrite length_app. cbn [List.length app].
    rewrite Nat2Z.inj_succ. nia.
Qed.

Lemma mem_join_authors_ratings us rs x :
  In x (map (fun p => review_rating (fst p)) (MemStorage.join_authors us rs)) ->
  In x (map review_rating rs).
Proof.
  induction rs as [|r rest IH]; simpl; [tauto|].
  destruct (JsMap.get_value us (review_userId r)); simpl; tauto.
Qed.

Lemma mem_visible_in_stored mem vendorId x :
  In x (mem_visible_ratings mem vendorId) ->
  In x (map review_rating (JsMap.values (MemStorage.reviews mem))).
Proof.
  unfold mem_visible_ratings, MemStorage.getReviewsByVendorId.
  intros H. apply mem_join_authors_ratings in H.
  apply in_map_iff in H. destruct H as [r [Hr Hin]].
  apply filter_In in Hin. rewrite <- Hr. apply in_map. tauto.
Qed.

Lemma db_join_authors_ratings us now rs x :
  In x (map (fun p => review_rating (fst p))
            (MongoDBStorage.join_authors us now rs)) ->
  In x (map review_rating rs).
Proof.
  induction rs as [|r rest IH]; [simpl; tauto|].
  cbn [MongoDBStorage.join_authors].
  destruct (MongoDBStorage.run us (MongoDBStorage.ByIdField (review_userId r)));
    cbn [map In]; intros H.
  - destruct H as [H|H]; [left; exact H|right; now apply IH].
  - right. now apply IH.
Qed.

Lemma db_visible_in_stored st now vendorId x :
  In x (db_visible_ratings st now vendorId) ->
  In x (map review_rating (Reviews st)).
Proof.
  unfold db_visible_ratings, MongoDBStorage.getReviewsByVendorId.
  intros H. apply db_join_authors_ratings in H.
  apply in_map_iff in H. destruct H as [r [Hr Hin]].
  apply filter_In in Hin. rewrite <- Hr. apply in_map. tauto.
Qed.

Lemma values_set_in {V : Type} (m : JsMap.t V) k v x :
  In x (JsMap.values (JsMap.set m k v)) -> x = v \/ In x (JsMap.values m).
Proof.
  unfold JsMap.values. intros H. apply in_map_iff in H.
  destruct H as [[k0 v0] [Hx Hin]]. simpl in Hx. subst v0.
  apply set_in in Hin. destruct Hin as [[_ ->]|Hin]; [now left|].
  right. change x with (snd (k0, x)). now apply in_map.
Qed.

(** X5.  [getAverageRatingByVendorId] answers 0 for a vendor without
    reviews, and otherwise a value between the least and the greatest
    rating stored: with every stored rating between [lo] and [hi], so is the
    average, in both implementations. *)
Theorem X5_average_rating_within_bounds :
  forall (lo hi : Z) (vendorId : JS.value),
    (forall mem,
        ratings_within lo hi
          (map review_rating (JsMap.values (MemStorage.reviews mem))) ->
        (mem_visible_ratings mem vendorId = [] ->
         MemStorage.getAverageRatingByVendorId mem vendorId = 0)
        /\ (mem_visible_ratings mem vendorId <> [] ->
            lo <= MemStorage.getAverageRatingByVendorId mem vendorId <= hi))
    /\ (forall st,
           ratings_within lo hi (map review_rating (Reviews st)) ->
           let reviews :=
             filter (fun r => query_eq (review_vendorId r) vendorId)
                    (Reviews st) in
           (reviews = [] ->
            MongoDBStorage.getAverageRatingByVendorId st vendorId = 0)
           /\ (reviews <> [] ->
               lo <= MongoDBStorage.getAverageRatingByVendorId st vendorId
               <= hi)).
Proof.
  intros lo hi vendorId. split.
  - intros mem Hall.
    unfold MemStorage.getAverageRatingByVendorId.
    pose proof (mem_visible_in_stored mem vendorId) as Hsub.
    unfold mem_visible_ratings in *.
    destruct (MemStorage.getReviewsByVendorId mem vendorId) as [|p rest].
    + split; [reflexivity|]. intros Hne. exfalso. now apply Hne.
    + split; [discriminate|]. intros _.
      assert (Hlen : (Z.of_nat (List.length (p :: rest)) =? 0) = false)
        by reflexivity.
      rewrite Hlen, sum_ratings_map.
      rewrite <- (length_map (fun p => review_rating (fst p)) (p :: rest)).
      apply round_div_within.
      * simpl. lia.
      * apply sum_within. intros x Hx. apply Hall. now apply Hsub.
  - intros st Hall reviews.
    unfold MongoDBStorage.getAverageRatingByVendorId. subst reviews.
    assert (Hsub : forall x,
               In x (filter (fun r => query_eq (review_vendorId r) vendorId)
                            (Reviews st)) ->
               In x (Reviews st))
      by (intros x Hx; apply filter_In in Hx; tauto).
    destruct (filter (fun r => query_eq (review_vendorId r) vendorId)
                     (Reviews st)) as [|r rest].
    + split; [reflexivity|]. intros Hne. exfalso. now apply Hne.
    + split; [discriminate|]. intros _.
      assert (Hlen : (Z.of_nat (List.length (r :: rest)) =? 0) = false)
        by reflexivity.
      rewrite Hlen, sum_ratings_map.
      rewrite <- (length_map review_rating (r :: rest)).
      apply round_div_within.
      * simpl. lia.
      * apply sum_within. intros x Hx. apply Hall.
        apply in_map_iff in Hx. destruct Hx as [r0 [Hr0 Hin]].
        rewrite <- Hr0. apply in_map. now apply Hsub.
Qed.

Lemma db_createReview_appends st now r review st' :
  MongoDBStorage.createReview st now r = MongoDBStorage.Ok (review, st') ->
  exists stored,
    Reviews st' = (Reviews st ++ [stored])%list
    /\ review_rating stored = ir_rating r
    /\ Users st' = Users st
    /\ Services st' = Services st
    /\ Bookings st' = Bookings st.
Proof.
  intros Hok.
  destruct (createReview_ok _ _ _ _ _ Hok)
    as (h & n & _ & _ & _ & _ & _ & Hrest).
  cbv zeta in Hrest. destruct Hrest as [_ Hst].
  eexists.
  destruct (find _ (Vendors st)); subst st'; cbn;
    refine (conj eq_refl (conj eq_refl (conj eq_refl (conj eq_refl eq_refl)))).
Qed.

(** X6.  [createReview] keeps the rating of the vendor within the bounds
    of the ratings: with every stored rating and the new rating between
    [lo] and [hi], the vendor's rating after the call is between [lo] and
    [hi] too, and its review count is at least 1; in memory after every
    call, in the document store after every call that returns (the save
    raises for an author that is no ObjectId). *)
Theorem X6_createReview_keeps_rating_within_bounds :
  forall (lo hi k : Z) (r : InsertReview),
    ir_vendorId r = JS.Num k ->
    lo <= ir_rating r <= hi ->
    (forall mem now vendor,
        JsMap.get (MemStorage.vendors mem) k = Some vendor ->
        ratings_within lo hi
          (map review_rating (JsMap.values (MemStorage.reviews mem))) ->
        exists rating count,
          mem_aggregates (snd (MemStorage.createReview mem now r)) k
          = Some (rating, count)
          /\ lo <= rating <= hi /\ 1 <= count)
    /\ (forall st now vendor review st',
           find (fun v => query_eq (vd_id v) (JS.Num k)) (Vendors st)
           = Some vendor ->
           ratings_within lo hi (map review_rating (Reviews st)) ->
           MongoDBStorage.createReview st now r
           = MongoDBStorage.Ok (review, st') ->
           exists rating count,
             db_aggregates st' (JS.Num k) = Some (rating, count)
             /\ lo <= rating <= hi /\ 1 <= count).
Proof.
  intros lo hi k r Hv Hr. split.
  - intros mem now vendor Hget Hall.
    rewrite (mem_createReview_aggregates mem now r k vendor Hv Hget).
    cbv zeta.
    set (ratings := mem_visible_ratings
                      (snd (MemStorage.createReview mem now r)) (JS.Num k)).
    do 2 eexists. split; [reflexivity|]. split; [|lia].
    assert (Hwithin : ratings_within lo hi ratings).
    { intros x Hx. subst ratings. apply mem_visible_in_stored in Hx.
      unfold MemStorage.createReview in Hx. rewrite Hv in Hx.
      cbn [JsMap.get_value MemStorage.vendors MemStorage.set_reviews] in Hx.
      rewrite Hget in Hx.
      cbn [snd MemStorage.reviews MemStorage.set_vendors
           MemStorage.set_reviews] in Hx.
      apply in_map_iff in Hx. destruct Hx as [rv [Hrv Hin]].
      apply values_set_in in Hin. destruct Hin as [->|Hin].
      - cbn in Hrv. now subst x.
      - apply Hall. rewrite <- Hrv. now apply in_map. }
    apply round_div_within; [lia|].
    pose proof (sum_within lo hi ratings Hwithin). nia.
  - intros st now vendor review st' Hfind Hall Hok.
    pose proof (db_createReview_aggregates st now r k vendor review st'
                  Hv Hfind Hok) as Hagg.
    cbv zeta in Hagg.
    set (ratings := db_visible_ratings st' now (JS.Num k)) in *.
    do 2 eexists.
    split; [exact Hagg|]. split; [|lia].
    assert (Hwithin : ratings_within lo hi ratings).
    { intros x Hx. subst ratings. apply db_visible_in_stored in Hx.
      destruct (db_createReview_appends _ _ _ _ _ Hok)
        as [stored [Hrev [Hrating _]]].
      rewrite Hrev, map_app in Hx. apply in_app_or in Hx.
      destruct Hx as [Hx|[Hx|[]]]; [now apply Hall|].
      rewrite <- Hx, Hrating. exact Hr. }
    apply round_div_within; [lia|].
    pose proof (sum_within lo hi ratings Hwithin). nia.
Qed.

End RatingBounds.

(** ** Searching and listing *)

Section SearchAndList.
Import Schema Invariants.

Lemma includes_empty (s : string) : JS.includes s EmptyString = true.
Proof. destruct s; reflexivity. Qed.

Lemma search_loop_sublist us q vs :
  sublist (MemStorage.search_loop us q vs) (MemStorage.join_users us vs).
Proof.
  induction vs as [|v r IH]; simpl; [constructor|].
  destruct (JsMap.get_value us (vendor_userId v)); [|exact IH].
  destruct (_ || _); now constructor.
Qed.

Lemma search_loop_all us vs :
  MemStorage.search_loop us EmptyString vs = MemStorage.join_users us vs.
Proof.
  induction vs as [|v r IH]; simpl; [reflexivity|].
  destruct (JsMap.get_value us (vendor_userId v)); [|exact IH].
  unfold MemStorage.own_fields_match. rewrite includes_empty. simpl.
  now rewrite IH.
Qed.

(** X7.  In memory, whatever the query, the result of [searchVendors] is
    the result of [getAllVendors] with some entries left out, in the same
    order; and for the empty query nothing is left out. *)
Theorem X7_mem_search_is_part_of_listing :
  forall (mem : MemStorage.t) (query : string),
    sublist (MemStorage.searchVendors mem query) (MemStorage.getAllVendors mem)
    /\ MemStorage.searchVendors mem EmptyString = MemStorage.getAllVendors mem.
Proof.
  intros mem query. split.
  - apply search_loop_sublist.
  - apply search_loop_all.
Qed.

End SearchAndList.

(** ** Numeric ids in the document store *)

Section NumericIds.
Import Schema Db Invariants.
Context {D : Driver}.

Lemma numeric_ids_append {A : Type} (key : A -> JS.value) (l : list A)
    (x : A) (n : Z) :
  numeric_ids key l ->
  key x = JS.Num n ->
  (forall y, In y l -> JS.strict_eq (key y) (JS.Num n) = false) ->
  numeric_ids key (l ++ [x])
  /\ (forall y, In y l -> key y <> JS.Num n).
Proof.
  intros [Hnd Hnum] Hkey Hu.
  assert (Hne : forall y, In y l -> key y <> JS.Num n).
  { intros y Hy E. specialize (Hu y Hy). rewrite E in Hu. simpl in Hu.
    rewrite Z.eqb_refl in Hu. discriminate. }
  split; [|exact Hne]. split.
  - rewrite map_app. simpl. apply NoDup_snoc; [exact Hnd|].
    intros Hin. apply in_map_iff in Hin. destruct Hin as [y [Hy Hin]].
    rewrite Hkey in Hy. exact (Hne y Hin Hy).
  - intros y Hy. apply in_app_or in Hy. destruct Hy as [Hy|[<-|[]]].
    + now apply Hnum.
    + now exists n.
Qed.

(** The id computed for a collection of numeric ids: 1 on the empty
    collection, and above every stored id when these are positive and
    below [2^53]. *)
Lemma next_id_above {A : Type} (key : A -> JS.value) (l : list A) (n : Z) :
  numeric_ids key l ->
  (MongoDBStorage.castNumber
     (MongoDBStorage.next_id_unguarded
        (option_map key (findOne_sort_desc sort_lt key l))) = JS.Num n
   \/ MongoDBStorage.next_id_guarded
        (option_map key (findOne_sort_desc sort_lt key l)) = JS.Num n) ->
  (l = [] -> n = 1)
  /\ ((forall y m, In y l -> key y = JS.Num m -> 0 < m < 9007199254740992) ->
      forall y m, In y l -> key y = JS.Num m -> m < n).
Proof.
  intros [_ Hnum] Hn. destruct l as [|a r] eqn:El.
  - split; [|intros _ y m []]. intros _.
    destruct Hn as [Hn|Hn]; cbn in Hn; now inversion Hn.
  - split; [discriminate|]. intros Hsafe y m Hy Hm.
    destruct (next_id_of_numeric_ids key (a :: r)) as [K [Hmax [Hk [Hu Hg]]]];
      [discriminate|exact Hnum|].
    destruct Hk as [x [Hx HK]].
    pose proof (Hsafe x K Hx HK) as HKb.
    assert (E : JS.to_double (K + 1) = K + 1)
      by (apply to_double_exact; lia).
    assert (En : n = K + 1).
    { destruct Hn as [Hn|Hn].
      - rewrite Hu, E in Hn. cbn in Hn. now inversion Hn.
      - rewrite Hg, E in Hn. now inversion Hn. }
    specialize (Hmax y m Hy Hm). lia.
Qed.

(** X8.  In the document store, for vendors, services, bookings and
    reviews alike: as long as the ids of the collection are numbers,
    pairwise distinct, every creation that returns keeps them so.  The new
    document gets an id that is a positive number no document of the
    collection holds, 1 on an empty collection, and greater than every id
    of the collection when these are positive and below [2^53], the range
    in which adding 1 to a number is exact. *)
Theorem X8_creations_keep_numeric_ids_distinct :
  forall st : Store,
    (forall oid insertVendor vendor st',
        numeric_ids vd_id (Vendors st) ->
        MongoDBStorage.createVendor st oid insertVendor
        = MongoDBStorage.Ok (vendor, st') ->
        numeric_ids vd_id (Vendors st')
        /\ exists n, vendor_id vendor = JS.Num n
                     /\ 0 < n
                     /\ (Vendors st = [] -> n = 1)
                     /\ (forall v, In v (Vendors st) -> vd_id v <> JS.Num n)
                     /\ ((forall v m, In v (Vendors st) ->
                                      vd_id v = JS.Num m ->
                                      0 < m < 9007199254740992) ->
                         forall v m, In v (Vendors st) ->
                                     vd_id v = JS.Num m -> m < n))
    /\ (forall now insertService service st',
           numeric_ids service_id (Services st) ->
           MongoDBStorage.createService st now insertService
           = MongoDBStorage.Ok (service, st') ->
           numeric_ids service_id (Services st')
           /\ exists n, service_id service = JS.Num n
                        /\ 0 < n
                        /\ (Services st = [] -> n = 1)
                        /\ (forall s, In s (Services st) ->
                                      service_id s <> JS.Num n)
                        /\ ((forall s m, In s (Services st) ->
                                         service_id s = JS.Num m ->
                                         0 < m < 9007199254740992) ->
                            forall s m, In s (Services st) ->
                                        service_id s = JS.Num m -> m < n))
    /\ (forall insertBooking booking st',
           numeric_ids booking_id (Bookings st) ->
           MongoDBStorage.createBooking st insertBooking
           = MongoDBStorage.Ok (booking, st') ->
           numeric_ids booking_id (Bookings st')
           /\ exists n, booking_id booking = JS.Num n
                        /\ 0 < n
                        /\ (Bookings st = [] -> n = 1)
                        /\ (forall b, In b (Bookings st) ->
                                      booking_id b <> JS.Num n)
                        /\ ((forall b m, In b (Bookings st) ->
                                         booking_id b = JS.Num m ->
                                         0 < m < 9007199254740992) ->
                            forall b m, In b (Bookings st) ->
                                        booking_id b = JS.Num m -> m < n))
    /\ (forall now insertReview review st',
           numeric_ids review_id (Reviews st) ->
           MongoDBStorage.createReview st now insertReview
           = MongoDBStorage.Ok (review, st') ->
           numeric_ids review_id (Reviews st')
           /\ exists n, review_id review = JS.Num n
                        /\ 0 < n
                        /\ (Reviews st = [] -> n = 1)
                        /\ (forall r, In r (Reviews st) ->
                                      review_id r <> JS.Num n)
                        /\ ((forall r m, In r (Reviews st) ->
                                         review_id r = JS.Num m ->
                                         0 < m < 9007199254740992) ->
                            forall r m, In r (Reviews st) ->
                                        review_id r = JS.Num m -> m < n)).
Proof.
  intros st. refine (conj _ (conj _ (conj _ _))).
  - intros oid iv vendor st' H Hok.
    destruct (createVendor_ok _ _ _ _ _ Hok)
      as (user & stored & n & _ & Hst & Hvendor & Hid & Hpos & Hnext & Hu & _).
    destruct (numeric_ids_append vd_id (Vendors st) stored n H Hid Hu)
      as [Hids Hne].
    destruct (next_id_above vd_id (Vendors st) n H (or_intror Hnext))
      as [Hone Habove].
    subst st' vendor. cbn [Vendors with_Vendors]. split; [exact Hids|].
    exists n. cbn [vendor_id MongoDBStorage.mongoVendorToVendor].
    auto.
  - intros now isv service st' H Hok.
    destruct (createService_ok _ _ _ _ _ Hok)
      as (stored & n & Hst & Hservice & Hid & Hpos & Hnext & Hu & _).
    destruct (numeric_ids_append service_id (Services st) stored n H Hid Hu)
      as [Hids Hne].
    destruct (next_id_above service_id (Services st) n H (or_introl Hnext))
      as [Hone Habove].
    subst st' service. cbn [Services with_Services]. split; [exact Hids|].
    exists n. cbn [service_id MongoDBStorage.mongoServiceToService].
    auto.
  - intros ib booking st' H Hok.
    destruct (createBooking_ok _ _ _ _ Hok)
      as (stored & n & h & Hst & Hbooking & Hid & Hpos & Hnext & Hu & _).
    destruct (numeric_ids_append booking_id (Bookings st) stored n H Hid Hu)
      as [Hids Hne].
    destruct (next_id_above booking_id (Bookings st) n H (or_introl Hnext))
      as [Hone Habove].
    subst st' booking. cbn [Bookings with_Bookings]. split; [exact Hids|].
    exists n. cbn [booking_id MongoDBStorage.mongoBookingToBooking].
    auto.
  - intros now ir review st' H Hok.
    destruct (createReview_ok _ _ _ _ _ Hok)
      as (h & n & _ & Hpos & Hnext & Hu & _ & Hrest).
    cbv zeta in Hrest. destruct Hrest as [Hreview Hst].
    destruct (numeric_ids_append review_id (Reviews st)
                (mkReview (JS.Num n) (JS.Oid h)
                   (MongoDBStorage.Number (ir_vendorId ir)) (ir_rating ir)
                   (ir_comment ir) now) n H eq_refl Hu)
      as [Hids Hne].
    destruct (next_id_above review_id (Reviews st) n H (or_introl Hnext))
      as [Hone Habove].
    assert (Hrevs : Reviews st'
                    = (Reviews st
                       ++ [mkReview (JS.Num n) (JS.Oid h)
                             (MongoDBStorage.Number (ir_vendorId ir))
                             (ir_rating ir) (ir_comment ir) now])%list).
    { destruct (find _ (Vendors st)); subst st'; reflexivity. }
    rewrite Hrevs. split; [exact Hids|].
    exists n. subst review.
    cbn [review_id MongoDBStorage.mongoReviewToReview].
    auto.
Qed.

End NumericIds.

(** ** Vendors and their users in the document store *)

Section VendorIntegrity.
Import Schema Db Invariants Statements.
Context {D : Driver}.

(** X9.  A vendor [createVendor] stores always refers to a user that
    exists, by that user's ObjectId: the submitted reference itself is not
    stored.  The new document is appended with rating 0 and review count 0
    and the submitted business fields; the vendor returned carries the
    ObjectId as a string; no other document of the store changes. *)
Theorem X9_created_vendor_refers_to_existing_user :
  forall (st st' : Store) (oid : string) (insertVendor : InsertVendor)
         (vendor : Vendor),
    MongoDBStorage.createVendor st oid insertVendor
    = MongoDBStorage.Ok (vendor, st') ->
    exists (u : UserDoc) (doc : VendorDoc),
      In u (Users st)
      /\ Vendors st' = (Vendors st ++ [doc])%list
      /\ vd_userId doc = JS.Oid (ud__id u)
      /\ vendor_userId vendor = JS.Str (ud__id u)
      /\ vd_rating doc = 0 /\ vd_reviewCount doc = 0
      /\ vd_businessName doc = iv_businessName insertVendor
      /\ vd_category doc = iv_category insertVendor
      /\ vd_description doc = iv_description insertVendor
      /\ Users st' = Users st
      /\ Services st' = Services st
      /\ Bookings st' = Bookings st
      /\ Reviews st' = Reviews st.
Proof.
  intros st st' oid iv vendor Hok.
  assert (Hs : sound (Users st)
                 (MongoDBStorage.createVendor_resolve (Users st)
                    (iv_userId iv))).
  { unfold MongoDBStorage.createVendor_resolve.
    repeat apply sound_attempt_if_missing. apply sound_attempt.
    apply sound_start. }
  destruct (createVendor_ok _ _ _ _ _ Hok)
    as (u & doc & n & R & Hst & Hvendor & _ & _ & _ & _ & _ & Huser & Hname
        & Hcat & Hdesc & Hrating & Hcount).
  pose proof (Hs u R) as Hin.
  exists u, doc. subst st' vendor.
  cbn [Users Vendors Services Bookings Reviews with_Vendors vendor_userId
       MongoDBStorage.mongoVendorToVendor].
  rewrite Huser. cbn [JS.is_object JS.to_string].
  refine (conj Hin (conj eq_refl (conj eq_refl (conj eq_refl
           (conj Hrating (conj Hcount (conj Hname (conj Hcat (conj Hdesc
             (conj eq_refl (conj eq_refl (conj eq_refl eq_refl)))))))))))).
Qed.

(** X10.  [getUser] substitutes no user: it answers not-found exactly
    when no user holds the reference in its [id] field and, for a
    reference of 24 hexadecimal digits, no user has it as [_id] either,
    however many users exist; and a user it returns is one of the stored
    users, found by [id] or by [_id]. *)
Theorem X10_getUser_has_no_fallback :
  forall (st : Store) (now : Z) (id : JS.value),
    (MongoDBStorage.getUser st now id = None <->
     (forall u, In u (Users st) -> query_eq (ud_id u) id = false)
     /\ (forall s, id = JS.Str s -> JS.is_hex24 s = true ->
                   forall u, In u (Users st) ->
                             query_eq (JS.Oid (ud__id u)) id = false))
    /\ (forall user,
           MongoDBStorage.getUser st now id = Some user ->
           exists u,
             In u (Users st)
             /\ user = MongoDBStorage.mongoUserToUser now u
             /\ (query_eq (ud_id u) id = true
                 \/ query_eq (JS.Oid (ud__id u)) id = true)).
Proof.
  intros st now id.
  unfold MongoDBStorage.getUser, MongoDBStorage.getUser_resolve,
    MongoDBStorage.attempt_if_missing, MongoDBStorage.attempt,
    MongoDBStorage.start.
  cbn [fst snd MongoDBStorage.run].
  destruct (find (fun u => query_eq (ud_id u) id) (Users st)) as [u1|] eqn:F1.
  - cbn [fst option_map]. split.
    + split; [discriminate|]. intros [H _].
      apply find_some in F1. destruct F1 as [Hin Hq].
      rewrite (H u1 Hin) in Hq. discriminate.
    + intros user H. inversion H; subst. exists u1.
      apply find_some in F1. tauto.
  - cbn [fst]. pose proof (proj1 (DbFacts.find_none_iff _ _) F1) as N1.
    destruct id as [|n| |s|h]; cbn [fst option_map];
      try (split; [split; [intros _; split; [exact N1|discriminate]
                          |reflexivity]
                  |discriminate]).
    destruct (JS.is_hex24 s) eqn:Hx; cbn [fst snd MongoDBStorage.run].
    + destruct (find (fun u => query_eq (JS.Oid (ud__id u)) (JS.Str s))
                     (Users st)) as [u2|] eqn:F2; cbn [option_map].
      * split.
        -- split; [discriminate|]. intros [_ H].
           apply find_some in F2. destruct F2 as [Hin Hq].
           rewrite (H s eq_refl Hx u2 Hin) in Hq. discriminate.
        -- intros user H. inversion H; subst. exists u2.
           apply find_some in F2. tauto.
      * split; [|discriminate].
        split; [|reflexivity]. intros _. split; [exact N1|].
        intros s0 Hs _. inversion Hs; subst.
        now apply DbFacts.find_none_iff.
    + cbn [option_map]. split; [|discriminate].
      split; [|reflexivity]. intros _. split; [exact N1|].
      intros s0 Hs Hhex. inversion Hs; subst. congruence.
Qed.

End VendorIntegrity.

(** ** Provisioning happens once *)

Section ProvisionOnce.
Import Schema Db Invariants Statements.
Context {D : Driver}.

Lemma getVendorByUserId_ext st st' userId :
  Users st = Users st' -> Vendors st = Vendors st' ->
  MongoDBStorage.getVendorByUserId st userId
  = MongoDBStorage.getVendorByUserId st' userId.
Proof.
  intros Hu Hv. unfold MongoDBStorage.getVendorByUserId.
  now rewrite Hu, Hv.
Qed.

Lemma createService_keeps_Users (st st' : Store) (now : Z)
    (insertService : InsertService) (service : Service) :
  MongoDBStorage.createService st now insertService
  = MongoDBStorage.Ok (service, st') ->
  Users st' = Users st.
Proof.
  intros H.
  destruct (createService_ok _ _ _ _ _ H) as (stored & n & Hst & _).
  subst st'. reflexivity.
Qed.

Lemma post_services_found st oid now req_user body found :
  MongoDBStorage.getVendorByUserId st (Routes.prop req_user "id")
  = Some found ->
  Vendors (snd (Routes.post_services st oid now req_user body)) = Vendors st
  /\ Users (snd (Routes.post_services st oid now req_user body)) = Users st.
Proof.
  intros Hfound. unfold Routes.post_services.
  destruct (negb _); [split; reflexivity|].
  rewrite Hfound.
  destruct (Routes.parse_service body _) as [serviceData|];
    [|split; reflexivity].
  destruct (negb _); [split; reflexivity|].
  destruct (MongoDBStorage.createService st now serviceData)
    as [[service st2]|e] eqn:Hs; [|split; reflexivity].
  simpl. split.
  - now apply createService_keeps_Vendors in Hs.
  - now apply createService_keeps_Users in Hs.
Qed.

Lemma createVendor_resolve_by_oid us s u :
  JS.length s = 24 ->
  MongoDBStorage.run us (MongoDBStorage.ById (JS.Str s)) = Some u ->
  fst (MongoDBStorage.createVendor_resolve us (JS.Str s)) = Some u.
Proof.
  intros Hlen H.
  unfold MongoDBStorage.createVendor_resolve,
    MongoDBStorage.attempt_if_missing, MongoDBStorage.attempt,
    MongoDBStorage.start.
  rewrite Hlen. cbn [Z.eqb Pos.eqb fst snd]. rewrite H. reflexivity.
Qed.

Lemma getVendorByUserId_by_oid st s u v :
  JS.length s = 24 ->
  MongoDBStorage.run (Users st) (MongoDBStorage.ById (JS.Str s)) = Some u ->
  In v (Vendors st) ->
  query_eq (vd_userId v) (JS.Oid (ud__id u)) = true ->
  MongoDBStorage.getVendorByUserId st (JS.Str s) <> None.
Proof.
  intros Hlen Hrun Hin Hq Hnone.
  pose proof (proj1 (getVendorByUserId_none_iff st (JS.Str s)) Hnone v Hin)
    as Hm.
  unfold vendor_matches, oid_shaped in Hm.
  rewrite Hlen, Hrun, Hq in Hm. cbn [Z.eqb Pos.eqb andb] in Hm.
  rewrite !orb_true_r in Hm. cbn in Hm. discriminate.
Qed.

(** One call of the route adds at most one vendor, for the user of the
    principal, and only when none was found for the principal. *)
Lemma post_services_adds_one st oid now req_user body s u :
  matches_own_oid D ->
  Routes.prop req_user "id" = JS.Str s ->
  JS.length s = 24 ->
  Routes.prop req_user "role" = JS.Str "vendor" ->
  MongoDBStorage.run (Users st) (MongoDBStorage.ById (JS.Str s)) = Some u ->
  Vendors (snd (Routes.post_services st oid now req_user body)) = Vendors st
  \/ exists doc,
       Vendors (snd (Routes.post_services st oid now req_user body))
       = (Vendors st ++ [doc])%list
       /\ vd_userId doc = JS.Oid (ud__id u)
       /\ MongoDBStorage.getVendorByUserId st (JS.Str s) = None
       /\ MongoDBStorage.getVendorByUserId
            (snd (Routes.post_services st oid now req_user body)) (JS.Str s)
          <> None.
Proof.
  intros Hoid Hid Hlen Hrole Hrun.
  destruct (MongoDBStorage.getVendorByUserId st (JS.Str s))
    as [found|] eqn:G.
  - left. rewrite <- Hid in G.
    now destruct (post_services_found st oid now req_user body found G).
  - unfold Routes.post_services.
    rewrite Hrole, Hid, G. simpl JS.strict_eq. simpl negb. cbv iota.
    destruct (MongoDBStorage.createVendor st oid
                (Routes.default_vendor req_user))
      as [[newVendor stv]|e] eqn:C; [|left; reflexivity].
    destruct (createVendor_ok _ _ _ _ _ C)
      as (user & doc & n & R & Hstv & _ & _ & _ & _ & _ & _ & Huser & _).
    cbn [iv_userId Routes.default_vendor] in R. rewrite Hid in R.
    rewrite (createVendor_resolve_by_oid _ _ _ Hlen Hrun) in R.
    inversion R; subst user; clear R.
    assert (Hfound : MongoDBStorage.getVendorByUserId stv (JS.Str s) <> None).
    { apply (getVendorByUserId_by_oid stv s u doc Hlen).
      - subst stv. exact Hrun.
      - subst stv. cbn. apply in_or_app. right. now left.
      - rewrite Huser. apply Hoid. }
    assert (Hvs : Vendors stv = (Vendors st ++ [doc])%list)
      by (subst stv; reflexivity).
    right. exists doc.
    destruct (Routes.parse_service body _) as [serviceData|];
      [|cbn [snd]; auto].
    destruct (MongoDBStorage.createService stv now serviceData)
      as [[service st2]|e] eqn:Hs; [|cbn [snd]; auto].
    cbn [snd].
    pose proof (createService_keeps_Users _ _ _ _ _ Hs) as Hu2.
    pose proof (createService_keeps_Vendors _ _ _ _ _ Hs) as Hv2.
    rewrite (getVendorByUserId_ext st2 stv (JS.Str s) Hu2 Hv2), Hv2.
    auto.
Qed.

(** X11.  The service route provisions a vendor at most once for a user.
    For a principal with the vendor role whose id is the [_id] string of a
    stored user (the id every issued token carries), and a driver that
    matches an ObjectId with itself: one call of the route, whatever its
    body and its answer, either leaves the [Vendor] collection as it was
    or, when no vendor was found for the principal, appends one vendor,
    which refers to that user and which [getVendorByUserId] finds for the
    principal afterwards; and once [getVendorByUserId] finds a vendor for
    the principal, a call of the route leaves the [Vendor] collection as
    it was. *)
Theorem X11_vendor_is_provisioned_at_most_once :
  forall (st : Store) (oid oid' : string) (now now' : Z)
         (req_user : Routes.JsObject) (body body' : Routes.ServiceBody)
         (s : string) (u : UserDoc),
    matches_own_oid D ->
    Routes.prop req_user "id" = JS.Str s ->
    JS.length s = 24 ->
    Routes.prop req_user "role" = JS.Str "vendor" ->
    MongoDBStorage.run (Users st) (MongoDBStorage.ById (JS.Str s)) = Some u ->
    let st1 := snd (Routes.post_services st oid now req_user body) in
    (Vendors st1 = Vendors st
     \/ exists doc,
          Vendors st1 = (Vendors st ++ [doc])%list
          /\ vd_userId doc = JS.Oid (ud__id u)
          /\ MongoDBStorage.getVendorByUserId st (JS.Str s) = None
          /\ MongoDBStorage.getVendorByUserId st1 (JS.Str s) <> None)
    /\ (MongoDBStorage.getVendorByUserId st1 (JS.Str s) <> None ->
        Vendors (snd (Routes.post_services st1 oid' now' req_user body'))
        = Vendors st1).
Proof.
  intros st oid oid' now now' req_user body body' s u Hoid Hid Hlen Hrole Hrun
    st1.
  split.
  - subst st1. now apply post_services_adds_one.
  - intros Hfound.
    destruct (MongoDBStorage.getVendorByUserId st1 (JS.Str s))
      as [found|] eqn:G; [|congruence].
    rewrite <- Hid in G.
    now destruct (post_services_found st1 oid' now' req_user body' found G).
Qed.

End ProvisionOnce.

(** ** The routes that delete a service, set a booking status and create a
       review *)

Section HandlerFacts.
Import Schema Db.

Lemma deleteOne_hit {A : Type} (cond : A -> bool) (l : list A) (x : A) :
  find cond l = Some x ->
  exists before after,
    l = (before ++ x :: after)%list
    /\ (forall y, In y before -> cond y = false)
    /\ deleteOne cond l = (1, (before ++ after)%list).
Proof.
  induction l as [|a r IH]; simpl; intros H; [discriminate|].
  destruct (cond a) eqn:E.
  - inversion H; subst. exists [], r. simpl. intuition.
  - destruct (IH H) as (before & after & -> & Hb & Hd).
    exists (a :: before), after. simpl. rewrite Hd.
    refine (conj eq_refl (conj _ eq_refl)).
    intros y [<-|Hy]; [exact E|now apply Hb].
Qed.

Lemma findOneAndUpdate_hit_at {A : Type} (cond : A -> bool) (upd : A -> A)
    (l : list A) (x : A) :
  find cond l = Some x ->
  exists before after,
    l = (before ++ x :: after)%list
    /\ (forall y, In y before -> cond y = false)
    /\ findOneAndUpdate cond upd l
       = (Some (upd x), (before ++ upd x :: after)%list).
Proof.
  induction l as [|a r IH]; simpl; intros H; [discriminate|].
  destruct (cond a) eqn:E.
  - inversion H; subst. exists [], r. simpl. intuition.
  - destruct (IH H) as (before & after & -> & Hb & Hd).
    exists (a :: before), after. simpl. rewrite Hd.
    refine (conj eq_refl (conj _ eq_refl)).
    intros y [<-|Hy]; [exact E|now apply Hb].
Qed.

Lemma find_cond {A : Type} (cond : A -> bool) (l : list A) (x : A) :
  find cond l = Some x -> cond x = true.
Proof. intros H. now destruct (find_some cond l H). Qed.

End HandlerFacts.

Section HandlerProperties.
Import Schema Db Invariants Statements.
Context {D : Driver}.
Variable parseInt : string -> option Z.

(** X12.  [DELETE /api/services/:id] removes a service only for its owner,
    and removes nothing else.  When the route answers 204, the route
    parameter reads as a number, the principal resolves to a vendor, the
    first service in natural order whose id the driver matches with that
    number carries this vendor's id, and the store after the call is the
    store before it without this one document.  With any other answer the
    store is unchanged. *)
Theorem X12_delete_service_removes_only_own_service :
  forall (st : Store) (now : Z) (req_user : Routes.JsObject)
         (params_id : string),
    let reply :=
      fst (Handlers.delete_service parseInt st now req_user params_id) in
    let st' :=
      snd (Handlers.delete_service parseInt st now req_user params_id) in
    (reply = Handlers.Empty 204 ->
     exists serviceId vendor s before after,
       parseInt params_id = Some serviceId
       /\ MongoDBStorage.getVendorByUserId st (Routes.prop req_user "id")
          = Some vendor
       /\ Services st = (before ++ s :: after)%list
       /\ Services st' = (before ++ after)%list
       /\ query_eq (service_id s) (JS.Num serviceId) = true
       /\ (forall y, In y before ->
                     query_eq (service_id y) (JS.Num serviceId) = false)
       /\ JS.strict_eq (MongoDBStorage.Number (service_vendorId s))
                       (MongoDBStorage.Number (vendor_id vendor)) = true
       /\ Users st' = Users st /\ Vendors st' = Vendors st
       /\ Bookings st' = Bookings st /\ Reviews st' = Reviews st)
    /\ (reply <> Handlers.Empty 204 -> st' = st).
Proof.
  intros st now req_user params_id. cbv zeta.
  unfold Handlers.delete_service.
  destruct (parseInt params_id) as [serviceId|];
    [|split; [discriminate|reflexivity]].
  unfold MongoDBStorage.getServiceById.
  destruct (find (fun s => query_eq (service_id s) (JS.Num serviceId))
              (Services st)) as [s|] eqn:F;
    [|split; [discriminate|reflexivity]].
  cbn [option_map].
  destruct (MongoDBStorage.getVendorByUserId st (Routes.prop req_user "id"))
    as [vendor|] eqn:G; [|split; [discriminate|reflexivity]].
  cbn [service_vendorId MongoDBStorage.mongoServiceToService].
  destruct (JS.strict_eq (MongoDBStorage.Number (service_vendorId s))
              (MongoDBStorage.Number (vendor_id vendor))) eqn:O;
    cbn [negb]; [|split; [discriminate|reflexivity]].
  unfold MongoDBStorage.deleteService.
  destruct (deleteOne_hit _ _ _ F) as (before & after & Hl & Hb & Hd).
  rewrite Hd. cbn [Z.ltb Z.compare fst snd].
  split; [|congruence].
  intros _. exists serviceId, vendor, s, before, after.
  refine (conj eq_refl (conj eq_refl (conj Hl (conj eq_refl
           (conj (find_cond _ _ _ F) (conj Hb (conj O _))))))).
  now destruct st.
Qed.

(** X13.  [PUT /api/bookings/:id/status] changes the status of one
    booking and nothing else, and accepts any of the four statuses
    whatever the status the booking had.  When the route answers 200 with
    a booking, the submitted status is one of the four strings, the first
    booking in natural order whose id the driver matches with the route
    parameter's number now carries it, the answer is this booking, and all
    else in the store is as before.  With any other answer the store is
    unchanged. *)
Theorem X13_put_booking_status_sets_one_status :
  forall (st : Store) (params_id : string) (status : JS.value),
    let reply := fst (Handlers.put_booking_status parseInt st params_id status)
    in
    let st' := snd (Handlers.put_booking_status parseInt st params_id status)
    in
    (forall booking, reply = Handlers.Sent 200 booking ->
       exists bookingId s old before after,
         parseInt params_id = Some bookingId
         /\ status = JS.Str s
         /\ In s Handlers.booking_statuses
         /\ Bookings st = (before ++ old :: after)%list
         /\ Bookings st' = (before ++ with_status old s :: after)%list
         /\ query_eq (booking_id old) (JS.Num bookingId) = true
         /\ (forall y, In y before ->
                       query_eq (booking_id y) (JS.Num bookingId) = false)
         /\ booking = MongoDBStorage.mongoBookingToBooking (with_status old s)
         /\ booking_status booking = s
         /\ booking_id booking = booking_id old
         /\ Users st' = Users st /\ Vendors st' = Vendors st
         /\ Services st' = Services st /\ Reviews st' = Reviews st)
    /\ ((forall booking, reply <> Handlers.Sent 200 booking) -> st' = st).
Proof.
  intros st params_id status. cbv zeta.
  unfold Handlers.put_booking_status.
  destruct (parseInt params_id) as [bookingId|];
    [|split; [discriminate|reflexivity]].
  destruct (existsb (fun s => JS.strict_eq (JS.Str s) status)
              Handlers.booking_statuses) eqn:E; cbn [negb];
    [|split; [discriminate|reflexivity]].
  apply existsb_exists in E. destruct E as (s & Hs & Heq).
  destruct status as [| | |s'|]; try discriminate.
  cbn [JS.strict_eq] in Heq. apply String.eqb_eq in Heq. subst s'.
  cbn [JS.to_string].
  unfold MongoDBStorage.updateBookingStatus.
  destruct (find (fun b => query_eq (booking_id b) (JS.Num bookingId))
              (Bookings st)) as [old|] eqn:F.
  - destruct (findOneAndUpdate_hit_at _ (fun b => with_status b s) _ _ F)
      as (before & after & Hl & Hb & Hu).
    rewrite Hu. cbn [option_map fst snd].
    split.
    + intros booking H. inversion H; subst booking.
      exists bookingId, s, old, before, after.
      refine (conj eq_refl (conj eq_refl (conj Hs (conj Hl (conj eq_refl
               (conj (find_cond _ _ _ F) (conj Hb (conj eq_refl
               (conj eq_refl (conj eq_refl _)))))))))).
      now destruct st.
    + intros H. exfalso. now apply (H _ eq_refl).
  - rewrite (DbFacts.findOneAndUpdate_miss _ _ _ F).
    cbn [option_map fst snd].
    split; [discriminate|].
    intros _. apply DbFacts.with_Bookings_same.
Qed.

End HandlerProperties.

Section ReviewRoute.
Import Schema Db Invariants Statements.
Context {D : Driver}.

Lemma parse_review_some body reviewData :
  Handlers.parse_review body = Some reviewData ->
  exists u v,
    ir_userId reviewData = JS.Num u
    /\ ir_vendorId reviewData = JS.Num v
    /\ 1 <= ir_rating reviewData <= 5.
Proof.
  unfold Handlers.parse_review.
  destruct (Handlers.rb_userId body) as [|u| | |]; try discriminate.
  destruct (Handlers.rb_vendorId body) as [|v| | |]; try discriminate.
  destruct (Handlers.rb_rating body) as [|rating| | |]; try discriminate.
  destruct ((1 <=? rating) && (rating <=? 5)) eqn:E; [|discriminate].
  apply andb_prop in E. destruct E as [E1 E2].
  apply Z.leb_le in E1. apply Z.leb_le in E2.
  destruct (Handlers.rb_comment body) as [[| | |c|]|]; try discriminate;
    intros H; inversion H; subst; cbn; exists u, v; repeat split; lia.
Qed.

Lemma db_createReview_stored st now r review st' :
  MongoDBStorage.createReview st now r = MongoDBStorage.Ok (review, st') ->
  exists stored h,
    Reviews st' = (Reviews st ++ [stored])%list
    /\ review = MongoDBStorage.mongoReviewToReview stored
    /\ review_rating stored = ir_rating r
    /\ castObjectId (ir_userId r) = Some h
    /\ review_userId stored = JS.Oid h.
Proof.
  intros Hok.
  destruct (createReview_ok _ _ _ _ _ Hok)
    as (h & n & Hh & _ & _ & _ & _ & Hrest).
  cbv zeta in Hrest. destruct Hrest as [Hreview Hst].
  eexists. exists h.
  refine (conj _ (conj Hreview (conj eq_refl (conj Hh eq_refl)))).
  destruct (find _ (Vendors st)); subst st'; reflexivity.
Qed.

(** X14.  [POST /api/reviews] stores a review only for a principal whose
    id is a number that the schema casts to an ObjectId; for a principal
    whose id is not a number (every token [generateToken] issues for a
    stored user carries the [_id] string) it answers with the validation
    error of the body or with 403 and stores nothing.  In general: if
    every stored rating lies between 1 and 5, it still does after the
    route has answered, whatever the request; when the route answers 201,
    the principal's id is a number, the cast of this number to an ObjectId
    succeeded, one review has been appended with that ObjectId as its
    author and a rating between 1 and 5, and the answer shows the same
    rating; with any other answer the store is unchanged; and a number
    that does not cast to an ObjectId is answered with no 201. *)
Theorem X14_post_reviews_needs_numeric_principal :
  forall (st : Store) (now : Z) (req_user : Routes.JsObject)
         (body : Handlers.ReviewBody),
    ratings_within 1 5 (map review_rating (Reviews st)) ->
    let reply := fst (Handlers.post_reviews st now req_user body) in
    let st' := snd (Handlers.post_reviews st now req_user body) in
    ratings_within 1 5 (map review_rating (Reviews st'))
    /\ (forall review, reply = Handlers.Sent 201 review ->
          exists n h stored,
            Routes.prop req_user "id" = JS.Num n
            /\ castObjectId (JS.Num n) = Some h
            /\ Reviews st' = (Reviews st ++ [stored])%list
            /\ review_userId stored = JS.Oid h
            /\ review_rating review = review_rating stored
            /\ 1 <= review_rating stored <= 5)
    /\ ((forall review, reply <> Handlers.Sent 201 review) -> st' = st)
    /\ ((forall n, Routes.prop req_user "id" <> JS.Num n) ->
        (reply = Handlers.NextZodError
         \/ reply = Handlers.Message 403
                      "You can only create reviews as yourself")
        /\ st' = st)
    /\ (forall n, Routes.prop req_user "id" = JS.Num n ->
                  castObjectId (JS.Num n) = None ->
                  (forall review, reply <> Handlers.Sent 201 review)
                  /\ st' = st).
Proof.
  intros st now req_user body Hin. cbv zeta.
  unfold Handlers.post_reviews.
  destruct (Handlers.parse_review body) as [reviewData|] eqn:P;
    [|cbn [fst snd]; refine (conj Hin (conj _ (conj _ (conj _ _))));
      [discriminate|reflexivity|intros _; split; [now left|reflexivity]
      |intros n _ _; split; [discriminate|reflexivity]]].
  destruct (parse_review_some _ _ P) as (u & v & Hu & Hv & Hr).
  destruct (JS.strict_eq (ir_userId reviewData) (Routes.prop req_user "id"))
    eqn:E; cbn [negb];
    [|cbn [fst snd]; refine (conj Hin (conj _ (conj _ (conj _ _))));
      [discriminate|reflexivity|intros _; split; [now right|reflexivity]
      |intros n _ _; split; [discriminate|reflexivity]]].
  assert (Hid : Routes.prop req_user "id" = JS.Num u).
  { rewrite Hu in E. destruct (Routes.prop req_user "id"); try discriminate.
    cbn in E. apply Z.eqb_eq in E. now subst. }
  destruct (MongoDBStorage.createReview st now reviewData)
    as [[review st2]|e] eqn:C;
    [|cbn [fst snd]; refine (conj Hin (conj _ (conj _ (conj _ _))));
      [discriminate|reflexivity
      |intros Hno; exfalso; exact (Hno u Hid)
      |intros n _ _; split; [discriminate|reflexivity]]].
  cbn [fst snd].
  destruct (db_createReview_stored _ _ _ _ _ C)
    as (stored & h & Hrs & Hrev & Hrat & Hh & Hauth).
  rewrite Hu in Hh.
  refine (conj _ (conj _ (conj _ (conj _ _)))).
  - rewrite Hrs, map_app. intros r Hr'. apply in_app_or in Hr'.
    destruct Hr' as [Hr'|[<-|[]]]; [now apply Hin|].
    now rewrite Hrat.
  - intros review' H. inversion H; subst review'.
    exists u, h, stored.
    refine (conj Hid (conj Hh (conj Hrs (conj Hauth (conj _ _))))).
    + rewrite Hrev. reflexivity.
    + now rewrite Hrat.
  - intros H. exfalso. now apply (H _ eq_refl).
  - intros Hno. exfalso. exact (Hno u Hid).
  - intros n Hn Hnone. rewrite Hid in Hn. inversion Hn; subst n.
    rewrite Hh in Hnone. discriminate.
Qed.

End ReviewRoute.

(** ** The middleware *)

Section MiddlewareFacts.
Import Schema Db Invariants.

Lemma string_app_nil_r (s : string) : String.append s EmptyString = s.
Proof. induction s as [|c s IH]; simpl; [reflexivity|now rewrite IH]. Qed.

Lemma string_app_assoc (a b c : string) :
  String.append (String.append a b) c = String.append a (String.append b c).
Proof. induction a as [|x a IH]; simpl; [reflexivity|now rewrite IH]. Qed.

Lemma no_space_cons (c : ascii) (s : string) :
  no_space (String c s) -> Ascii.eqb c " "%char = false /\ no_space s.
Proof.
  unfold no_space. simpl. intros H. split.
  - apply Ascii.eqb_neq. intros ->. apply H. now left.
  - intros Hin. apply H. now right.
Qed.

Lemma split_from_no_space (s acc : string) :
  no_space s -> Middleware.split_from acc s = [String.append acc s].
Proof.
  revert acc. induction s as [|c s IH]; intros acc H; simpl.
  - now rewrite string_app_nil_r.
  - destruct (no_space_cons _ _ H) as [Hc Hs]. rewrite Hc.
    rewrite (IH _ Hs), string_app_assoc. reflexivity.
Qed.

Lemma split_from_word (w acc rest : string) :
  no_space w ->
  Middleware.split_from acc (String.append w (String " " rest))
  = String.append acc w :: Middleware.split_from EmptyString rest.
Proof.
  revert acc. induction w as [|c w IH]; intros acc H; simpl.
  - now rewrite string_app_nil_r.
  - destruct (no_space_cons _ _ H) as [Hc Hs]. rewrite Hc.
    rewrite (IH _ Hs), string_app_assoc. reflexivity.
Qed.

Lemma append_space_nonempty (w rest : string) :
  String.eqb (String.append w (String " " rest)) EmptyString = false.
Proof. destruct w; reflexivity. Qed.

Lemma eqb_empty_false (s : string) :
  s <> EmptyString -> String.eqb s EmptyString = false.
Proof. intros H. now apply String.eqb_neq. Qed.

End MiddlewareFacts.

Section MiddlewareProperties.
Import Schema Db Invariants.
Variable verifyToken : string -> option Routes.JsObject.
Variable parseInt : string -> option Z.

(** X15.  [authenticateToken] takes the second space-separated word of
    the [authorization] header as the token and never looks at the first.
    A missing header, or one without a space, is answered 401 without the
    token check being asked.  For a header made of a first word, a space
    and a token (neither holding a space, the token not empty), followed
    or not by a space and anything else, the verdict is the one of the
    token check on this token alone: 403 when it is refused, the request
    handed on with the decoded payload as principal when it is accepted,
    whatever the first word is, the empty word included. *)
Theorem X15_authenticateToken_reads_second_word :
  let verdict (token : string) :=
    match verifyToken token with
    | None => Middleware.Reject 403 "Forbidden: Invalid or expired token"
    | Some user => Middleware.Next (Some user)
    end in
  Middleware.authenticateToken verifyToken None
  = Middleware.Reject 401 "Unauthorized: Missing token"
  /\ (forall header,
         no_space header ->
         Middleware.authenticateToken verifyToken (Some header)
         = Middleware.Reject 401 "Unauthorized: Missing token")
  /\ (forall scheme token,
         no_space scheme -> no_space token -> token <> EmptyString ->
         Middleware.authenticateToken verifyToken
           (Some (String.append scheme (String " " token)))
         = verdict token)
  /\ (forall scheme token rest,
         no_space scheme -> no_space token -> token <> EmptyString ->
         Middleware.authenticateToken verifyToken
           (Some (String.append scheme
                    (String " " (String.append token (String " " rest)))))
         = verdict token).
Proof.
  cbv zeta. refine (conj eq_refl (conj _ (conj _ _))).
  - intros header H. unfold Middleware.authenticateToken.
    destruct (String.eqb header EmptyString); [reflexivity|].
    unfold Middleware.split_space. now rewrite (split_from_no_space _ _ H).
  - intros scheme token Hs Ht Hne. unfold Middleware.authenticateToken.
    rewrite append_space_nonempty. unfold Middleware.split_space.
    rewrite (split_from_word _ _ _ Hs), (split_from_no_space _ _ Ht).
    cbn [nth_error String.append].
    now rewrite (eqb_empty_false _ Hne).
  - intros scheme token rest Hs Ht Hne. unfold Middleware.authenticateToken.
    rewrite append_space_nonempty. unfold Middleware.split_space.
    rewrite (split_from_word _ _ _ Hs), (split_from_word _ _ _ Ht).
    cbn [nth_error String.append].
    now rewrite (eqb_empty_false _ Hne).
Qed.

(** X16.  [authorizeVendor] refuses every stored user.  It hands a
    request on exactly when the principal's role is [vendor] and the route
    parameter reads as a number that is the principal's id; without a
    principal it answers 401.  The principal a valid token of a stored
    user decodes to carries the user's [_id] string as its id, which is
    no number: for such a principal the middleware answers 403 at every
    route parameter, whatever the user's role. *)
Theorem X16_authorizeVendor_refuses_stored_users :
  (forall (req_user : Routes.JsObject) (params_id : string),
      Middleware.authorizeVendor parseInt (Some req_user) params_id
      = Middleware.Next (Some req_user)
      <-> (Routes.prop req_user "role" = JS.Str "vendor"
           /\ exists n, parseInt params_id = Some n
                        /\ Routes.prop req_user "id" = JS.Num n))
  /\ (forall params_id,
         Middleware.authorizeVendor parseInt None params_id
         = Middleware.Reject 401 "Unauthorized: Authentication required")
  /\ (forall (now : Z) (u : UserDoc) (iat exp : Z) (params_id : string),
         let principal :=
           Routes.authenticateToken (MongoDBStorage.mongoUserToUser now u)
             iat exp in
         Routes.prop principal "id" = JS.Str (ud__id u)
         /\ exists message,
              Middleware.authorizeVendor parseInt (Some principal) params_id
              = Middleware.Reject 403 message).
Proof.
  refine (conj _ (conj (fun _ => eq_refl) _)).
  - intros req_user params_id. unfold Middleware.authorizeVendor.
    destruct (JS.strict_eq (Routes.prop req_user "role") (JS.Str "vendor"))
      eqn:R; cbn [negb].
    + assert (Hrole : Routes.prop req_user "role" = JS.Str "vendor").
      { destruct (Routes.prop req_user "role"); try discriminate.
        cbn in R. apply String.eqb_eq in R. now subst. }
      destruct (parseInt params_id) as [vendorId|].
      * destruct (JS.strict_eq (JS.Num vendorId) (Routes.prop req_user "id"))
          eqn:E; cbn [negb].
        -- split; [|reflexivity]. intros _. split; [exact Hrole|].
           exists vendorId. split; [reflexivity|].
           destruct (Routes.prop req_user "id"); try discriminate.
           cbn in E. apply Z.eqb_eq in E. now subst.
        -- split; [discriminate|]. intros [_ (n & Hp & Hn)].
           inversion Hp; subst. rewrite Hn in E. cbn in E.
           rewrite Z.eqb_refl in E. discriminate.
      * split; [discriminate|]. intros [_ (n & Hp & _)]. discriminate.
    + split; [discriminate|]. intros [Hrole _]. rewrite Hrole in R.
      cbn in R. discriminate.
  - intros now u iat exp params_id. cbv zeta.
    assert (Hid : Routes.prop
                    (Routes.authenticateToken
                       (MongoDBStorage.mongoUserToUser now u) iat exp) "id"
                  = JS.Str (ud__id u)).
    { unfold Routes.authenticateToken, Routes.generateToken_payload.
      cbn [app Routes.prop String.eqb Ascii.eqb Bool.eqb
           MongoDBStorage.mongoUserToUser user_id doc_id].
      unfold doc_id. destruct (JS.truthy (JS.Str (ud__id u))); reflexivity. }
    split; [exact Hid|].
    unfold Middleware.authorizeVendor. rewrite Hid.
    destruct (negb _); [eexists; reflexivity|].
    destruct (parseInt params_id); cbn [JS.strict_eq negb];
      eexists; reflexivity.
Qed.

End MiddlewareProperties.

(** ** The id helpers of the routes *)

Section RouteHelpers.
Import Schema Db Invariants.
Context {D : Driver}.

Lemma next_id_of_last_guarded (last : option JS.value) :
  string_to_number EmptyString = Some 0 ->
  Handlers.next_id_of_last last = MongoDBStorage.next_id_guarded last.
Proof.
  intros H0. destruct last as [[|n| |s|h]|]; try reflexivity.
  - unfold Handlers.next_id_of_last, MongoDBStorage.next_id_guarded,
      MongoDBStorage.isNaN, MongoDBStorage.Number.
    cbn [JS.to_number JS.truthy negb andb JS.plus_one].
    destruct (n =? 0) eqn:E; cbn [negb andb]; [|reflexivity].
    apply Z.eqb_eq in E. now subst.
  - unfold Handlers.next_id_of_last, MongoDBStorage.next_id_guarded,
      MongoDBStorage.isNaN, MongoDBStorage.Number.
    cbn [JS.to_number JS.truthy].
    destruct (String.eqb s EmptyString) eqn:E; cbn [negb andb];
      [|reflexivity].
    apply String.eqb_eq in E. subst. now rewrite H0.
Qed.

Lemma next_id_of_last_numeric (n : Z) :
  Handlers.next_id_of_last (Some (JS.Num n))
  = MongoDBStorage.next_id_unguarded (Some (JS.Num n)).
Proof.
  unfold Handlers.next_id_of_last, MongoDBStorage.next_id_unguarded,
    MongoDBStorage.isNaN, MongoDBStorage.Number.
  cbn [JS.to_number JS.truthy negb andb JS.plus_one].
  destruct (n =? 0) eqn:E; cbn [negb andb]; [|reflexivity].
  apply Z.eqb_eq in E. now subst.
Qed.

(** X17.  The id helpers of the routes compute the ids the storage
    assigns.  Where [Number] reads the empty string as 0,
    [getNextVendorId] equals the id of the vendor [createVendor] then
    creates, whatever the ids stored; [getNextServiceId] equals the id of
    the service [createService] then creates as long as the stored
    service ids are numbers. *)
Theorem X17_route_helpers_compute_assigned_ids :
  forall (st : Store),
    (string_to_number EmptyString = Some 0 ->
     forall oid insertVendor vendor st',
       MongoDBStorage.createVendor st oid insertVendor
       = MongoDBStorage.Ok (vendor, st') ->
       vendor_id vendor = Handlers.getNextVendorId st)
    /\ (numeric_ids service_id (Services st) ->
        forall now insertService service st',
          MongoDBStorage.createService st now insertService
          = MongoDBStorage.Ok (service, st') ->
          service_id service = Handlers.getNextServiceId st).
Proof.
  intros st. split.
  - intros H0 oid insertVendor vendor st' Hok.
    destruct (createVendor_ok _ _ _ _ _ Hok)
      as (u & stored & n & _ & _ & Hvendor & Hid & _ & Hnext & _).
    unfold Handlers.getNextVendorId.
    rewrite (next_id_of_last_guarded _ H0), Hnext. subst vendor.
    exact Hid.
  - intros [_ Hnum] now insertService service st' Hok.
    destruct (createService_ok _ _ _ _ _ Hok)
      as (stored & n & _ & Hservice & Hid & _ & Hnext & _).
    unfold Handlers.getNextServiceId. subst service.
    cbn [service_id MongoDBStorage.mongoServiceToService].
    rewrite Hid, <- Hnext.
    destruct (Services st) as [|a r] eqn:El; [reflexivity|].
    destruct (DbFacts.findOne_sort_desc_some sort_lt service_id (a :: r))
      as [x [Hx Hin]]; [discriminate|].
    rewrite Hx. cbn [option_map].
    destruct (Hnum x Hin) as [m Hm]. rewrite Hm.
    rewrite next_id_of_last_numeric. reflexivity.
Qed.

End RouteHelpers.

(** ** Round trips through the document store *)

Section DbRoundTrips.
Import Schema Db Invariants.
Context {D : Driver}.

Lemma find_app_split {A : Type} (cond : A -> bool) (l1 l2 : list A) :
  find cond (l1 ++ l2)
  = match find cond l1 with
    | Some x => Some x
    | None => find cond l2
    end.
Proof.
  induction l1 as [|a r IH]; simpl; [reflexivity|].
  now destruct (cond a).
Qed.

Lemma numeric_find_unique {A : Type} (key : A -> JS.value)
    (before after : list A) (x : A) (n : Z) :
  compares_numbers D ->
  numeric_ids key (before ++ x :: after) ->
  query_eq (key x) (JS.Num n) = true ->
  key x = JS.Num n
  /\ find (fun y => query_eq (key y) (JS.Num n)) after = None
  /\ numeric_ids key (before ++ after).
Proof.
  intros Hc [Hnd Hnum] Hq.
  assert (Hx : key x = JS.Num n).
  { destruct (Hnum x) as [k Hk]; [apply in_or_app; right; now left|].
    rewrite Hk, Hc in Hq. apply Z.eqb_eq in Hq. now subst. }
  refine (conj Hx (conj _ (conj _ _))).
  - apply DbFacts.find_none_iff. intros y Hy.
    destruct (Hnum y) as [m Hm]; [apply in_or_app; right; now right|].
    rewrite Hm, Hc. apply Z.eqb_neq. intros ->.
    rewrite map_app in Hnd. cbn [map] in Hnd.
    apply NoDup_remove_2 in Hnd. apply Hnd.
    apply in_or_app. right. rewrite Hx, <- Hm. now apply in_map.
  - rewrite map_app in *. cbn [map] in Hnd.
    now apply NoDup_remove_1 in Hnd.
  - intros y Hy. apply Hnum. apply in_app_or in Hy.
    apply in_or_app. destruct Hy as [Hy|Hy]; [now left|right; now right].
Qed.

Lemma getUser_none st now id :
  MongoDBStorage.getUser st now id = None ->
  find (fun u => query_eq (ud_id u) id) (Users st) = None
  /\ (forall s, id = JS.Str s -> JS.is_hex24 s = true ->
                find (fun u => query_eq (JS.Oid (ud__id u)) id) (Users st)
                = None).
Proof.
  unfold MongoDBStorage.getUser, MongoDBStorage.getUser_resolve,
    MongoDBStorage.attempt_if_missing, MongoDBStorage.attempt,
    MongoDBStorage.start.
  cbn [fst snd MongoDBStorage.run].
  destruct (find (fun u => query_eq (ud_id u) id) (Users st)) eqn:F1;
    [discriminate|].
  cbn [fst]. intros H. split; [reflexivity|].
  intros s -> Hhex. rewrite Hhex in H. cbn [fst MongoDBStorage.run] in H.
  destruct (find _ (Users st)); [discriminate|reflexivity].
Qed.

(** X18.  In the document store, [createUser] gives the new user no
    numeric id: the document it appends has no [id] field, and the user
    it returns carries the document's [_id] as a string.  Under this
    string, when it is 24 hexadecimal digits that the driver matches with
    the ObjectId it spells and nobody was found under it before,
    [getUser] now returns exactly the user [createUser] returned; under a
    reference that found nobody before, [getUser] still finds nobody
    unless the reference is that string; and every user [getUser] found
    before is still returned.  (A query on [id] is taken not to match a
    document without the field.) *)
Theorem X18_db_createUser_then_getUser :
  forall (st st' : Store) (oid : string) (now : Z) (insertUser : InsertUser)
         (user : User),
    MongoDBStorage.createUser st oid now insertUser
    = MongoDBStorage.Ok (user, st') ->
    (exists doc,
        Users st' = (Users st ++ [doc])%list
        /\ ud__id doc = oid
        /\ ud_id doc = JS.Undefined
        /\ user = MongoDBStorage.mongoUserToUser now doc)
    /\ user_id user = JS.Str oid
    /\ (JS.is_hex24 oid = true ->
        query_eq (JS.Oid oid) (JS.Str oid) = true ->
        query_eq JS.Undefined (JS.Str oid) = false ->
        MongoDBStorage.getUser st now (JS.Str oid) = None ->
        MongoDBStorage.getUser st' now (JS.Str oid) = Some user)
    /\ (forall id,
           id <> JS.Str oid ->
           query_eq JS.Undefined id = false ->
           (forall s, id = JS.Str s -> query_eq (JS.Oid oid) id = false) ->
           MongoDBStorage.getUser st now id = None ->
           MongoDBStorage.getUser st' now id = None)
    /\ (forall id u,
           query_eq JS.Undefined id = false ->
           MongoDBStorage.getUser st now id = Some u ->
           MongoDBStorage.getUser st' now id = Some u).
Proof.
  intros st st' oid now iu user Hok.
  destruct (createUser_ok _ _ _ _ _ _ Hok)
    as (doc & Hst & Huser & Hoid & Hid & _).
  assert (Hget : forall id,
             MongoDBStorage.getUser st' now id
             = option_map (MongoDBStorage.mongoUserToUser now)
                 (match find (fun u => query_eq (ud_id u) id)
                          (Users st ++ [doc])%list with
                  | Some u => Some u
                  | None =>
                      if match id with
                         | JS.Str s => JS.is_hex24 s
                         | _ => false
                         end
                      then find (fun u => query_eq (JS.Oid (ud__id u)) id)
                                (Users st ++ [doc])%list
                      else None
                  end)).
  { intros id. subst st'.
    unfold MongoDBStorage.getUser, MongoDBStorage.getUser_resolve,
      MongoDBStorage.attempt_if_missing, MongoDBStorage.attempt,
      MongoDBStorage.start.
    cbn [fst snd MongoDBStorage.run Users with_Users].
    destruct (find (fun u => query_eq (ud_id u) id) (Users st ++ [doc])%list);
      [reflexivity|].
    cbn [fst].
    destruct (match id with JS.Str s => JS.is_hex24 s | _ => false end);
      reflexivity. }
  refine (conj _ (conj _ (conj _ (conj _ _)))).
  - exists doc. subst st'. now cbn [Users with_Users].
  - subst user. cbn [user_id MongoDBStorage.mongoUserToUser].
    unfold doc_id. rewrite Hoid.
    destruct (JS.truthy (JS.Str oid)); reflexivity.
  - intros Hhex Hown Hmissing Hnone.
    destruct (getUser_none _ _ _ Hnone) as [F1 F2].
    specialize (F2 oid eq_refl Hhex).
    rewrite Hget, !find_app_split, F1, F2. cbn [find].
    rewrite Hid, Hmissing, Hhex, Hoid, Hown. cbn [option_map].
    now subst user.
  - intros id Hne Hmissing Hother Hnone.
    destruct (getUser_none _ _ _ Hnone) as [F1 F2].
    rewrite Hget, !find_app_split, F1. cbn [find].
    rewrite Hid, Hmissing.
    destruct id as [|n| |s|h]; try reflexivity.
    destruct (JS.is_hex24 s) eqn:Hhex; [|reflexivity].
    rewrite (F2 s eq_refl Hhex), Hoid, (Hother s eq_refl). reflexivity.
  - intros id u Hmissing. rewrite Hget.
    unfold MongoDBStorage.getUser, MongoDBStorage.getUser_resolve,
      MongoDBStorage.attempt_if_missing, MongoDBStorage.attempt,
      MongoDBStorage.start.
    cbn [fst snd MongoDBStorage.run].
    rewrite !find_app_split.
    destruct (find (fun u0 => query_eq (ud_id u0) id) (Users st)) as [u1|];
      [easy|].
    cbn [fst find]. rewrite Hid, Hmissing.
    destruct (match id with JS.Str s => JS.is_hex24 s | _ => false end);
      [|discriminate].
    cbn [fst MongoDBStorage.run].
    destruct (find (fun u0 => query_eq (JS.Oid (ud__id u0)) id) (Users st));
      [easy|discriminate].
Qed.

(** X19.  In the document store, where the driver compares numbers by
    value and the stored service ids are numbers, pairwise distinct: a
    service just created is returned by [getServiceById] under its id,
    under which nothing was found before, and every service found before
    is still found; [deleteService] answers [true] exactly when the
    service exists, afterwards the service is gone, every other service is
    found as before, and the ids are still numbers, pairwise distinct. *)
Theorem X19_db_service_create_delete_get :
  forall (st : Store) (now : Z),
    compares_numbers D ->
    numeric_ids service_id (Services st) ->
    (forall insertService service st',
        MongoDBStorage.createService st now insertService
        = MongoDBStorage.Ok (service, st') ->
        MongoDBStorage.getServiceById st now (service_id service) = None
        /\ MongoDBStorage.getServiceById st' now (service_id service)
           = Some service
        /\ (forall id s,
               MongoDBStorage.getServiceById st now id = Some s ->
               MongoDBStorage.getServiceById st' now id = Some s))
    /\ (forall n,
           let st' := snd (MongoDBStorage.deleteService st (JS.Num n)) in
           (fst (MongoDBStorage.deleteService st (JS.Num n)) = true
            <-> MongoDBStorage.getServiceById st now (JS.Num n) <> None)
           /\ MongoDBStorage.getServiceById st' now (JS.Num n) = None
           /\ (forall m, m <> n ->
                         MongoDBStorage.getServiceById st' now (JS.Num m)
                         = MongoDBStorage.getServiceById st now (JS.Num m))
           /\ numeric_ids service_id (Services st')).
Proof.
  intros st now Hc Hids. split.
  - intros isv service st' Hok.
    destruct (createService_ok _ _ _ _ _ Hok)
      as (stored & n & Hst & Hservice & Hn & _ & _ & Hu & _).
    assert (Hfresh :
              find (fun s => query_eq (service_id s) (JS.Num n)) (Services st)
              = None).
    { apply DbFacts.find_none_iff. intros y Hy.
      destruct (proj2 Hids y Hy) as [m Hm].
      specialize (Hu y Hy). rewrite Hm in Hu |- *. now rewrite Hc. }
    subst st' service. unfold MongoDBStorage.getServiceById.
    cbn [service_id MongoDBStorage.mongoServiceToService Services
         with_Services].
    rewrite Hn.
    refine (conj _ (conj _ _)).
    + now rewrite Hfresh.
    + rewrite find_app_split, Hfresh. cbn [find].
      rewrite Hn, Hc, Z.eqb_refl. reflexivity.
    + intros id s. rewrite find_app_split.
      destruct (find (fun s0 => query_eq (service_id s0) id) (Services st));
        [easy|discriminate].
  - intros n. cbv zeta.
    unfold MongoDBStorage.deleteService, MongoDBStorage.getServiceById.
    destruct (find (fun s => query_eq (service_id s) (JS.Num n))
                (Services st)) as [x|] eqn:F.
    + destruct (deleteOne_hit _ _ _ F) as (before & after & Hl & Hb & Hd).
      rewrite Hd. cbn [fst snd Services with_Services option_map].
      rewrite Hl in Hids.
      destruct (numeric_find_unique service_id before after x n Hc Hids
                  (find_cond _ _ _ F)) as (Hx & Ha & Hids').
      refine (conj _ (conj _ (conj _ Hids'))).
      * split; [discriminate|reflexivity].
      * rewrite find_app_split.
        rewrite (proj2 (DbFacts.find_none_iff _ before) Hb). now rewrite Ha.
      * intros m Hm. rewrite Hl, !find_app_split. cbn [find].
        rewrite Hx, Hc.
        assert (E : (n =? m) = false) by (apply Z.eqb_neq; congruence).
        now rewrite E.
    + rewrite (DbFacts.deleteOne_miss _ _ F).
      cbn [fst snd Services with_Services option_map]. rewrite F.
      refine (conj _ (conj eq_refl (conj _ Hids))).
      * split; [discriminate|congruence].
      * reflexivity.
Qed.

End DbRoundTrips.

(** ** Services are created under the principal's own vendor *)

Section OwnVendor.
Import Schema Db Invariants Statements.
Context {D : Driver}.

Lemma parse_service_numeric body vendorId insertService :
  Routes.parse_service body vendorId = Some insertService ->
  exists k, vendorId = JS.Num k /\ is_vendorId insertService = JS.Num k.
Proof.
  intros H. destruct vendorId as [|k| | |];
    try (unfold Routes.parse_service in H; discriminate).
  exists k. split; [reflexivity|].
  now apply (parse_service_vendorId body k).
Qed.

Lemma createService_stored st now insertService service st' :
  MongoDBStorage.createService st now insertService
  = MongoDBStorage.Ok (service, st') ->
  exists stored,
    Services st' = (Services st ++ [stored])%list
    /\ service_vendorId stored
       = MongoDBStorage.Number (is_vendorId insertService)
    /\ service_vendorId service = service_vendorId stored
    /\ service_id service = service_id stored.
Proof.
  intros H.
  destruct (createService_ok _ _ _ _ _ H)
    as (stored & n & Hst & Hservice & _ & _ & _ & _ & Hv & _).
  exists stored. subst st' service.
  refine (conj eq_refl (conj Hv (conj eq_refl eq_refl))).
Qed.

Lemma Number_of_number (k : Z) :
  MongoDBStorage.Number (JS.Num k) = JS.Num k.
Proof. reflexivity. Qed.

(** X20.  [POST /api/services] stores a service only under the
    principal's own vendor, and its answer 403 "own vendor profile" is
    never given.  Whatever the request, the answer is not that 403; when
    the answer is a created service, one service document has been
    appended, and it and the answer carry the numeric id of the vendor
    [getVendorByUserId] found for the principal, the vendors unchanged,
    or, where none was found, of the one vendor document the call
    appended for the principal. *)
Theorem X20_post_services_stores_under_own_vendor :
  forall (st : Store) (oid : string) (now : Z) (req_user : Routes.JsObject)
         (body : Routes.ServiceBody),
    let reply := fst (Routes.post_services st oid now req_user body) in
    let st' := snd (Routes.post_services st oid now req_user body) in
    reply
    <> Routes.Status 403
         "You can only create services for your own vendor profile"
    /\ (forall service, reply = Routes.Created service ->
          exists vendorId stored,
            Services st' = (Services st ++ [stored])%list
            /\ service_vendorId stored = JS.Num vendorId
            /\ service_vendorId service = JS.Num vendorId
            /\ ((exists vendor,
                    MongoDBStorage.getVendorByUserId st
                      (Routes.prop req_user "id") = Some vendor
                    /\ MongoDBStorage.Number (vendor_id vendor)
                       = JS.Num vendorId
                    /\ Vendors st' = Vendors st)
                \/ (MongoDBStorage.getVendorByUserId st
                      (Routes.prop req_user "id") = None
                    /\ exists doc,
                         Vendors st' = (Vendors st ++ [doc])%list
                         /\ MongoDBStorage.Number (vd_id doc)
                            = JS.Num vendorId))).
Proof.
  intros st oid now req_user body. cbv zeta.
  unfold Routes.post_services.
  destruct (JS.strict_eq (Routes.prop req_user "role") (JS.Str "vendor"));
    cbn [negb]; [|split; [discriminate|discriminate]].
  destruct (MongoDBStorage.getVendorByUserId st (Routes.prop req_user "id"))
    as [vendor|] eqn:G.
  - destruct (Routes.parse_service body
                (MongoDBStorage.Number (vendor_id vendor)))
      as [serviceData|] eqn:P; [|split; discriminate].
    destruct (parse_service_numeric _ _ _ P) as (k & Hk & Hv).
    rewrite Hv, Hk. cbn [JS.strict_eq]. rewrite Z.eqb_refl. cbn [negb].
    destruct (MongoDBStorage.createService st now serviceData)
      as [[service st2]|e] eqn:C; [|split; discriminate].
    cbn [fst snd]. split; [discriminate|].
    intros service' H. inversion H; subst service'.
    destruct (createService_stored _ _ _ _ _ C)
      as (stored & Hs & Hsv & Hrv & _).
    rewrite Hv, Number_of_number in Hsv.
    exists k, stored.
    refine (conj Hs (conj Hsv (conj _ _))); [congruence|].
    left. exists vendor.
    refine (conj eq_refl (conj Hk _)).
    now apply createService_keeps_Vendors in C.
  - destruct (MongoDBStorage.createVendor st oid
                (Routes.default_vendor req_user))
      as [[newVendor stv]|e] eqn:CV; [|split; discriminate].
    destruct (createVendor_ok _ _ _ _ _ CV)
      as (user & doc & n & _ & Hstv & Hnew & _).
    destruct (Routes.parse_service body _) as [serviceData|] eqn:P;
      [|split; discriminate].
    destruct (parse_service_numeric _ _ _ P) as (k & Hk & Hv).
    rewrite Hnew in Hk.
    cbn [vendor_id MongoDBStorage.mongoVendorToVendor] in Hk.
    destruct (MongoDBStorage.createService stv now serviceData)
      as [[service st2]|e] eqn:C; [|split; discriminate].
    cbn [fst snd]. split; [discriminate|].
    intros service' H. inversion H; subst service'.
    destruct (createService_stored _ _ _ _ _ C)
      as (stored & Hs & Hsv & Hrv & _).
    rewrite Hv, Number_of_number in Hsv.
    assert (Hsame : Services stv = Services st) by (now rewrite Hstv).
    rewrite Hsame in Hs.
    exists k, stored.
    refine (conj Hs (conj Hsv (conj _ _))); [congruence|].
    right. split; [reflexivity|]. exists doc.
    split; [|exact Hk].
    apply createService_keeps_Vendors in C. rewrite C, Hstv. reflexivity.
Qed.

End OwnVendor.

(** ** The further properties at the example stores *)

Section FurtherPropertiesAtExamples.
Import Schema Db Invariants Statements Examples MoreExamples.
#[local] Existing Instance Reference.driver.

Lemma reference_compares_numbers : compares_numbers Reference.driver.
Proof. intros a b. reflexivity. Qed.

Lemma reference_matches_own_oid : matches_own_oid Reference.driver.
Proof. intros h. cbn. apply String.eqb_refl. Qed.

Lemma numeric_ids_one {A : Type} (key : A -> JS.value) (x : A) (n : Z) :
  key x = JS.Num n -> numeric_ids key [x].
Proof.
  intros H. split.
  - cbn. constructor; [intros []|constructor].
  - intros y [<-|[]]. now exists n.
Qed.

(** X4, at Alice's vendor: renaming the vendor leaves its aggregates as
    they were. *)
Lemma X4_mem_aggregates_change_only_by_review_witness :
  mem_aggregates
    (MemTrace.run
       (MemTrace.after [MemTrace.CreateUser 100 alice;
                        MemTrace.CreateVendor (acme (JS.Num 1));
                        MemTrace.CreateReview 101 five_stars])
       (MemTrace.UpdateVendor 1
          (mkPartialVendor None (Some "Acme Repairs Ltd") None None None
             None None))) 1
  = mem_aggregates
      (MemTrace.after [MemTrace.CreateUser 100 alice;
                       MemTrace.CreateVendor (acme (JS.Num 1));
                       MemTrace.CreateReview 101 five_stars]) 1.
Proof.
  eapply X4_mem_aggregates_change_only_by_review.
  - intros now insertReview. discriminate.
  - reflexivity.
Defined.

(** X6, at Alice's vendor with one review of five stars: a review of one
    star leaves a rating between 1 and 5, in memory and in the document
    store. *)
Lemma X6_createReview_keeps_rating_within_bounds_witness :
  (exists rating count,
      mem_aggregates
        (snd (MemStorage.createReview mem_review1 102 one_star_by_alice)) 1
      = Some (rating, count)
      /\ 1 <= rating <= 5 /\ 1 <= count)
  /\ (exists rating count,
         db_aggregates db_review2 (JS.Num 1) = Some (rating, count)
         /\ 1 <= rating <= 5 /\ 1 <= count).
Proof.
  destruct (X6_createReview_keeps_rating_within_bounds 1 5 1
              one_star_by_alice
              eq_refl (conj (Z.le_refl 1) (Zle_bool_imp_le 1 5 eq_refl)))
    as [Hmem Hdb].
  split.
  - eapply Hmem; [reflexivity|].
    intros r Hr. vm_compute in Hr. destruct Hr as [<-|[]]. lia.
  - assert (Hok : exists review,
               MongoDBStorage.createReview db_review1 102 one_star_by_alice
               = MongoDBStorage.Ok (review, db_review2))
      by (eexists; vm_compute; reflexivity).
    destruct Hok as [review Hok].
    eapply (Hdb db_review1 102 _ review db_review2);
      [reflexivity| |exact Hok].
    intros r Hr. vm_compute in Hr. destruct Hr as [<-|[]]. lia.
Defined.

(** X9, at the vendor created for Alice. *)
Lemma X9_created_vendor_refers_to_existing_user_witness :
  exists (u : UserDoc) (doc : VendorDoc),
    In u (Users db_alice)
    /\ Vendors db_vendor = (Vendors db_alice ++ [doc])%list
    /\ vd_userId doc = JS.Oid (ud__id u)
    /\ vendor_userId
         (mkVendor (JS.Num 1) (JS.Str oid_alice) "Acme Repairs" "Repairs"
            "We repair everything" (Some []) (Some "{}") None 0 0)
       = JS.Str (ud__id u)
    /\ vd_rating doc = 0 /\ vd_reviewCount doc = 0
    /\ vd_businessName doc = iv_businessName (acme (JS.Str oid_alice))
    /\ vd_category doc = iv_category (acme (JS.Str oid_alice))
    /\ vd_description doc = iv_description (acme (JS.Str oid_alice))
    /\ Users db_vendor = Users db_alice
    /\ Services db_vendor = Services db_alice
    /\ Bookings db_vendor = Bookings db_alice
    /\ Reviews db_vendor = Reviews db_alice.
Proof.
  apply (X9_created_vendor_refers_to_existing_user db_alice db_vendor oid_v1
           (acme (JS.Str oid_alice))).
  vm_compute. reflexivity.
Defined.

(** X11, at Alice posting a service twice: the first call provisions her
    vendor, the second adds none. *)
Lemma X11_vendor_is_provisioned_at_most_once_witness :
  let st1 :=
    snd (Routes.post_services db_alice oid_v1 300 alice_principal pipes) in
  (Vendors st1 = Vendors db_alice
   \/ exists doc,
        Vendors st1 = (Vendors db_alice ++ [doc])%list
        /\ vd_userId doc
           = JS.Oid (ud__id (nth 0 (Users db_alice) user_without_id))
        /\ MongoDBStorage.getVendorByUserId db_alice (JS.Str oid_alice) = None
        /\ MongoDBStorage.getVendorByUserId st1 (JS.Str oid_alice) <> None)
  /\ (MongoDBStorage.getVendorByUserId st1 (JS.Str oid_alice) <> None ->
      Vendors (snd (Routes.post_services st1 oid_v2 400 alice_principal pipes))
      = Vendors st1).
Proof.
  apply (X11_vendor_is_provisioned_at_most_once db_alice oid_v1 oid_v2 300
           400 alice_principal pipes pipes oid_alice
           (nth 0 (Users db_alice) user_without_id)).
  - exact reference_matches_own_oid.
  - reflexivity.
  - reflexivity.
  - reflexivity.
  - vm_compute. reflexivity.
Defined.

(** X14, at Alice, with the token issued to her, reviewing her vendor. *)
Lemma X14_post_reviews_needs_numeric_principal_witness :
  (fst (Handlers.post_reviews db_review1 102 alice_principal (review_by 1 4))
   = Handlers.NextZodError
   \/ fst (Handlers.post_reviews db_review1 102 alice_principal
             (review_by 1 4))
      = Handlers.Message 403 "You can only create reviews as yourself")
  /\ snd (Handlers.post_reviews db_review1 102 alice_principal
            (review_by 1 4))
     = db_review1.
Proof.
  refine (proj1 (proj2 (proj2 (proj2
            (X14_post_reviews_needs_numeric_principal db_review1 102
               alice_principal (review_by 1 4) _)))) _).
  - intros r Hr. vm_compute in Hr. destruct Hr as [<-|[]]. lia.
  - intros n. vm_compute. discriminate.
Defined.

(** X18, at Bobby registering after Alice. *)
Lemma X18_db_createUser_then_getUser_witness :
  exists user,
    MongoDBStorage.createUser db_alice oid_bobby 200 bobby
    = MongoDBStorage.Ok (user, db_alice_bobby)
    /\ user_id user = JS.Str oid_bobby
    /\ MongoDBStorage.getUser db_alice_bobby 200 (JS.Str oid_bobby)
       = Some user.
Proof.
  assert (Hok : exists user,
             MongoDBStorage.createUser db_alice oid_bobby 200 bobby
             = MongoDBStorage.Ok (user, db_alice_bobby))
    by (eexists; vm_compute; reflexivity).
  destruct Hok as [user Hok]. exists user.
  destruct (X18_db_createUser_then_getUser db_alice db_alice_bobby oid_bobby
              200 bobby user Hok) as (_ & Hid & Hget & _).
  refine (conj Hok (conj Hid _)).
  apply Hget; reflexivity.
Defined.

(** X19, at the store where Alice's vendor offers one service. *)
Lemma X19_db_service_create_delete_get_witness :
  let st := after (MongoDBStorage.createService db_vendor 300 (pipe_repair 1))
              db_vendor in
  (forall insertService service st',
      MongoDBStorage.createService st 400 insertService
      = MongoDBStorage.Ok (service, st') ->
      MongoDBStorage.getServiceById st 400 (service_id service) = None
      /\ MongoDBStorage.getServiceById st' 400 (service_id service)
         = Some service
      /\ (forall id s,
             MongoDBStorage.getServiceById st 400 id = Some s ->
             MongoDBStorage.getServiceById st' 400 id = Some s))
  /\ (forall n,
         let st' := snd (MongoDBStorage.deleteService st (JS.Num n)) in
         (fst (MongoDBStorage.deleteService st (JS.Num n)) = true
          <-> MongoDBStorage.getServiceById st 400 (JS.Num n) <> None)
         /\ MongoDBStorage.getServiceById st' 400 (JS.Num n) = None
         /\ (forall m, m <> n ->
                       MongoDBStorage.getServiceById st' 400 (JS.Num m)
                       = MongoDBStorage.getServiceById st 400 (JS.Num m))
         /\ numeric_ids service_id (Services st')).
Proof.
  apply (X19_db_service_create_delete_get
           (after (MongoDBStorage.createService db_vendor 300 (pipe_repair 1))
              db_vendor) 400).
  - exact reference_compares_numbers.
  - eapply numeric_ids_one. vm_compute. reflexivity.
Defined.

(** X12, at Alice deleting the one service of her vendor. *)
Lemma X12_delete_service_removes_only_own_service_witness :
  let st := after (MongoDBStorage.createService db_vendor 300 (pipe_repair 1))
              db_vendor in
  fst (Handlers.delete_service parse_int st 500 alice_principal "1")
  = Handlers.Empty 204
  /\ exists serviceId vendor s before after,
       parse_int "1" = Some serviceId
       /\ MongoDBStorage.getVendorByUserId st (Routes.prop alice_principal "id")
          = Some vendor
       /\ Services st = (before ++ s :: after)%list
       /\ Services
            (snd (Handlers.delete_service parse_int st 500 alice_principal
                    "1"))
          = (before ++ after)%list
       /\ query_eq (service_id s) (JS.Num serviceId) = true
       /\ (forall y, In y before ->
                     query_eq (service_id y) (JS.Num serviceId) = false)
       /\ JS.strict_eq (MongoDBStorage.Number (service_vendorId s))
                       (MongoDBStorage.Number (vendor_id vendor)) = true
       /\ Users
            (snd (Handlers.delete_service parse_int st 500 alice_principal
                    "1")) = Users st
       /\ Vendors
            (snd (Handlers.delete_service parse_int st 500 alice_principal
                    "1")) = Vendors st
       /\ Bookings
            (snd (Handlers.delete_service parse_int st 500 alice_principal
                    "1")) = Bookings st
       /\ Reviews
            (snd (Handlers.delete_service parse_int st 500 alice_principal
                    "1")) = Reviews st.
Proof.
  cbv zeta.
  assert (H : fst (Handlers.delete_service parse_int
                     (after (MongoDBStorage.createService db_vendor 300
                               (pipe_repair 1)) db_vendor)
                     500 alice_principal "1")
              = Handlers.Empty 204) by (vm_compute; reflexivity).
  split; [exact H|].
  exact (proj1 (X12_delete_service_removes_only_own_service parse_int
                  (after (MongoDBStorage.createService db_vendor 300
                            (pipe_repair 1)) db_vendor)
                  500 alice_principal "1") H).
Defined.

(** X13, at a pending booking that is cancelled. *)
Lemma X13_put_booking_status_sets_one_status_witness :
  let st := after (MongoDBStorage.createBooking db_vendor a_booking)
              db_vendor in
  exists booking,
    fst (Handlers.put_booking_status parse_int st "1" (JS.Str "cancelled"))
    = Handlers.Sent 200 booking
    /\ booking_status booking = "cancelled"
    /\ map booking_status
         (Bookings
            (snd (Handlers.put_booking_status parse_int st "1"
                    (JS.Str "cancelled"))))
       = ["cancelled"].
Proof.
  cbv zeta. eexists.
  assert (H : fst (Handlers.put_booking_status parse_int
                     (after (MongoDBStorage.createBooking db_vendor a_booking)
                        db_vendor) "1" (JS.Str "cancelled"))
              = Handlers.Sent 200
                  (mkBooking (JS.Num 1) (JS.Oid oid_alice) (JS.Num 1)
                     (Some (JS.Num 1)) 500 "cancelled" None))
    by (vm_compute; reflexivity).
  split; [exact H|].
  destruct (proj1 (X13_put_booking_status_sets_one_status parse_int
                     (after (MongoDBStorage.createBooking db_vendor a_booking)
                        db_vendor) "1" (JS.Str "cancelled")) _ H)
    as (bookingId & s & old & before & rest & _ & Hs & _ & _ & _ & _ & _ & _
        & Hst & _).
  split; [|vm_compute; reflexivity].
  rewrite Hst. now inversion Hs.
Defined.

Lemma no_space_Bearer : no_space "Bearer".
Proof. unfold no_space. cbn. intuition discriminate. Qed.

Lemma no_space_token : no_space "token-of-alice".
Proof. unfold no_space. cbn. intuition discriminate. Qed.

(** X15, at Alice's token behind the word [Bearer]. *)
Lemma X15_authenticateToken_reads_second_word_witness :
  Middleware.authenticateToken verify_alice (Some "Bearer token-of-alice")
  = Middleware.Next (Some alice_principal)
  /\ Middleware.authenticateToken verify_alice (Some "token-of-alice")
     = Middleware.Reject 401 "Unauthorized: Missing token".
Proof.
  destruct (X15_authenticateToken_reads_second_word verify_alice)
    as (_ & Hnone & Htoken & _).
  split.
  - exact (Htoken "Bearer" "token-of-alice" no_space_Bearer no_space_token
             ltac:(discriminate)).
  - exact (Hnone "token-of-alice" no_space_token).
Defined.

(** X16, at Alice, with the token issued to her. *)
Lemma X16_authorizeVendor_refuses_stored_users_witness :
  Routes.prop alice_principal "id" = JS.Str oid_alice
  /\ exists message,
       Middleware.authorizeVendor parse_int (Some alice_principal) "1"
       = Middleware.Reject 403 message.
Proof.
  exact (proj2 (proj2 (X16_authorizeVendor_refuses_stored_users parse_int))
           100 (nth 0 (Users db_alice) user_without_id) 1000 2000 "1").
Defined.

(** X5, at Alice's vendor with a review of five stars and one of one
    star. *)
Lemma X5_average_rating_within_bounds_witness :
  1 <= MemStorage.getAverageRatingByVendorId mem_review2 (JS.Num 1) <= 5
  /\ 1 <= MongoDBStorage.getAverageRatingByVendorId db_review2 (JS.Num 1)
     <= 5.
Proof.
  destruct (X5_average_rating_within_bounds 1 5 (JS.Num 1)) as [Hmem Hdb].
  split.
  - apply (Hmem mem_review2).
    + intros r Hr. vm_compute in Hr. destruct Hr as [<-|[<-|[]]]; lia.
    + vm_compute. discriminate.
  - apply (Hdb db_review2).
    + intros r Hr. vm_compute in Hr. destruct Hr as [<-|[<-|[]]]; lia.
    + vm_compute. discriminate.
Defined.

(** X8, at the vendor created for Alice. *)
Lemma X8_creations_keep_numeric_ids_distinct_witness :
  numeric_ids vd_id (Vendors db_vendor)
  /\ map vd_id (Vendors db_vendor) = [JS.Num 1].
Proof.
  assert (Hok : exists vendor,
             MongoDBStorage.createVendor db_alice oid_v1
               (acme (JS.Str oid_alice))
             = MongoDBStorage.Ok (vendor, db_vendor))
    by (eexists; vm_compute; reflexivity).
  destruct Hok as [vendor Hok].
  assert (Hnone : numeric_ids vd_id (Vendors db_alice))
    by (split; [constructor|intros x []]).
  split; [|reflexivity].
  exact (proj1 (proj1 (X8_creations_keep_numeric_ids_distinct db_alice)
                  oid_v1 (acme (JS.Str oid_alice)) vendor db_vendor
                  Hnone Hok)).
Defined.

(** X17, at the first vendor and at the second service of a store. *)
Lemma X17_route_helpers_compute_assigned_ids_witness :
  (exists vendor st',
      MongoDBStorage.createVendor db_alice oid_v1 (acme (JS.Str oid_alice))
      = MongoDBStorage.Ok (vendor, st')
      /\ vendor_id vendor = Handlers.getNextVendorId db_alice)
  /\ (exists service st',
         MongoDBStorage.createService
           (after (MongoDBStorage.createService db_vendor 300 (pipe_repair 1))
              db_vendor) 400 (pipe_repair 1)
         = MongoDBStorage.Ok (service, st')
         /\ service_id service
            = Handlers.getNextServiceId
                (after (MongoDBStorage.createService db_vendor 300
                          (pipe_repair 1)) db_vendor)).
Proof.
  split.
  - assert (H0 : @string_to_number Reference.driver EmptyString = Some 0)
      by (vm_compute; reflexivity).
    eexists. eexists. split; [reflexivity|].
    apply (proj1 (X17_route_helpers_compute_assigned_ids db_alice) H0
             oid_v1 (acme (JS.Str oid_alice)) _ _ eq_refl).
  - assert (Hids : numeric_ids service_id
                     (Services
                        (after (MongoDBStorage.createService db_vendor 300
                                  (pipe_repair 1)) db_vendor)))
      by (eapply numeric_ids_one; vm_compute; reflexivity).
    eexists. eexists. split; [reflexivity|].
    apply (proj2 (X17_route_helpers_compute_assigned_ids
                    (after (MongoDBStorage.createService db_vendor 300
                              (pipe_repair 1)) db_vendor))
             Hids 400 (pipe_repair 1) _ _ eq_refl).
Defined.

End FurtherPropertiesAtExamples.
